(** * openQuiz: the game session engine

    A shallow embedding of the Go backend of openQuiz
    ([backend/services/game_service.go], the websocket hub and the quiz
    service that live in [backend/services/quiz_service.go],
    [backend/handlers/game_handler.go], the access check of the websocket
    route and the [models] package), and the properties of the session
    engine that hold, or fail, on that code.

    Conventions of the embedding:
    - Go [int] is a 64-bit two's complement integer: a [Z] with the
      wrap-around written out ([wrap_int]); Go [uint] identifiers are [N].
    - the relational store (gorm over PostgreSQL) is a record of tables,
      each a list of rows in primary-key order; [First] is the first
      matching row, [Create] appends a row with the next value of the
      table's sequence. A statement that the store refuses because of a
      constraint of its schema (the unique index on the code of a session,
      the foreign key from an answer to its participant, a name that is no
      valid text, a score outside the range of its column) returns the
      store's error and changes no table; the value that a refused insert
      takes from the sequence, and failures of the connection, are not
      modelled. [Find] without an order returns the rows in the order of
      the table here, which the store does not promise: the properties of
      the players of a snapshot, of the answers of a question and of the
      leaderboard are stated up to that order;
    - the Redis cache is a finite map from the key to the stored
      [GameState] (the JSON round trip of [storeGameState]/[getGameState]
      is the identity on these records); an entry is written with a life
      time of two hours, [expire] is what its end does to the cache;
    - a method of the service is neither a transaction nor under a lock:
      it is the sequence of its statements, and the statements of two
      requests may alternate. The methods that read, decide and then write
      are given as the composition of their parts, so that a run of two
      overlapping requests can be written down;
    - the websocket hub is the list of registered clients, each with its
      bounded outbound buffer, and the state of the hub's [sync.RWMutex];
    - a question timer goroutine is an entry of the list of running timers;
      the scheduler picks which timer performs its next tick.
    Timestamps and log output are left out. *)

From Stdlib Require Import ZArith NArith Bool Ascii String List Lia DecimalString Sorted.
From stdpp Require Import base option list gmap strings.
Import ListNotations.

Local Open Scope string_scope.
Local Open Scope Z_scope.

(** ** Go integers *)

Module GoInt.

Definition int_min : Z := - 2 ^ 63.
Definition int_max : Z := 2 ^ 63 - 1.

(** Two's complement wrap-around of a 64-bit [int]. *)
Definition wrap_int (x : Z) : Z := (x + 2 ^ 63) mod 2 ^ 64 - 2 ^ 63.

(** [a / b] on [int]: truncation toward zero; [int_min / -1] wraps.
    The caller checks [b <> 0] (Go panics on a zero divisor). *)
Definition int_div (a b : Z) : Z := wrap_int (Z.quot a b).

(** [float64(x)] for an [int] x, as the real number (an integer) that
    the conversion denotes: exact up to 2^53, rounded to the nearest
    multiple of 2^e with 53 significant bits, ties to even, above. *)
Definition float64_of_int (x : Z) : Z :=
  let m := Z.abs x in
  if m <=? 2 ^ 53 then x
  else
    let e := Z.log2 m - 52 in
    let q := m / 2 ^ e in
    let r := m mod 2 ^ e in
    let half := 2 ^ (e - 1) in
    let q' := if r <? half then q
              else if half <? r then q + 1
              else if Z.even q then q else q + 1 in
    Z.sgn x * (q' * 2 ^ e).

(** [math.Max(a, b)] on the integer-valued floats that occur here. *)
Definition math_Max (a b : Z) : Z := Z.max a b.

(** [int(f)] for an integer-valued float [f]: the value itself when it
    fits; the only value out of range that [float64_of_int] produces is
    2^63, which the conversion instruction of amd64 turns into
    [int_min]. *)
Definition int_of_float64 (f : Z) : Z := wrap_int f.

End GoInt.
Import GoInt.

(** ** Scoring *)

(** [calculatePoints]; [None] is the run-time panic of the integer
    division when [timeLimit] is zero. *)
Definition calculatePoints (timeSpent timeLimit : Z) (isCorrect : bool) : option Z :=
  if negb isCorrect then Some 0
  else
    let basePoints := 100 in
    if timeLimit =? 0 then None
    else
      let timeBonus :=
        int_of_float64
          (math_Max 0
             (float64_of_int
                (int_div (wrap_int (50 * wrap_int (timeLimit - timeSpent))) timeLimit))) in
      Some (wrap_int (basePoints + timeBonus)).

(** ** Strings *)

(** [strings.ToLower] on ASCII text (session codes are hexadecimal
    strings); bytes outside [A-Z] are left as they are, so on text with
    other than ASCII letters this is not Go's function, nor is [EqualFold]
    below. [ascii_only] says where the two agree. *)
Definition lower_ascii (c : ascii) : ascii :=
  let n := N_of_ascii c in
  if ((65 <=? n) && (n <=? 90))%N then ascii_of_N (n + 32) else c.

Fixpoint ToLower (s : string) : string :=
  match s with
  | EmptyString => EmptyString
  | String c s' => String (lower_ascii c) (ToLower s')
  end.

(** [strings.EqualFold], on ASCII text. *)
Definition EqualFold (s t : string) : bool := String.eqb (ToLower s) (ToLower t).

(** [len(l)] as a Go [int]. *)
Definition len {A : Type} (l : list A) : Z := Z.of_nat (length l).

(** [l[i]] for a Go [int] index: [None] is the index-out-of-range panic. *)
Definition index {A : Type} (l : list A) (i : Z) : option A :=
  if i <? 0 then None else l !! Z.to_nat i.

(** [hex.EncodeToString]. *)
Definition hex_digit (n : N) : ascii :=
  if (n <? 10)%N then ascii_of_N (48 + n) else ascii_of_N (87 + n).

Fixpoint hex_EncodeToString (bytes : list N) : string :=
  match bytes with
  | [] => EmptyString
  | b :: bs =>
      String (hex_digit ((b / 16) mod 16)) (String (hex_digit (b mod 16)) (hex_EncodeToString bs))
  end.

(** ** The [models] package

    The columns the engine reads. A relationship field ([Options],
    [Questions], [Quiz], [Players]) is empty in a table row and filled by
    [Preload]. *)

Module models.

Record Option := mkOption {
  Option_ID : N;
  Option_QuestionID : N;
  Option_Text : string;
  Option_IsCorrect : bool;
  Option_Order : Z
}.

Record Question := mkQuestion {
  Question_ID : N;
  Question_QuizID : N;
  Question_Text : string;
  Question_TimeLimit : Z;
  Question_Order : Z;
  Question_Options : list Option
}.

Record Quiz := mkQuiz {
  Quiz_ID : N;
  Quiz_UserID : N;
  Quiz_Questions : list Question
}.

Record Player := mkPlayer {
  Player_ID : N;
  Player_GameID : N;
  Player_Name : string;
  Player_Score : Z
}.

Record GameAnswer := mkGameAnswer {
  GameAnswer_ID : N;
  GameAnswer_GameID : N;
  GameAnswer_PlayerID : N;
  GameAnswer_QuestionID : N;
  GameAnswer_OptionID : N;
  GameAnswer_IsCorrect : bool;
  GameAnswer_TimeSpent : Z;
  GameAnswer_Points : Z;
  GameAnswer_Player : Player
}.

Record Game := mkGame {
  Game_ID : N;
  Game_QuizID : N;
  Game_Pin : string;
  Game_Status : string;
  Game_Quiz : Quiz;
  Game_Players : list Player
}.

(** Go zero values of the structs that are embedded by value. *)
Definition zero_Quiz : Quiz := mkQuiz 0 0 [].
Definition zero_Player : Player := mkPlayer 0 0 "" 0.

End models.
Import models.

(** ** Request and snapshot types of [game_service.go] *)

Record StartGameRequest := mkStartGameRequest { StartGameRequest_QuizID : N }.

Record JoinGameRequest := mkJoinGameRequest {
  JoinGameRequest_Pin : string;
  JoinGameRequest_Name : string
}.

Record SubmitAnswerRequest := mkSubmitAnswerRequest {
  SubmitAnswerRequest_PlayerID : N;
  SubmitAnswerRequest_QuestionID : N;
  SubmitAnswerRequest_OptionID : N;
  SubmitAnswerRequest_TimeSpent : Z
}.

(** [GameOption] has no [IsCorrect] field. *)
Record GameOption := mkGameOption {
  GameOption_ID : N;
  GameOption_Text : string
}.

Record GameQuestion := mkGameQuestion {
  GameQuestion_ID : N;
  GameQuestion_Text : string;
  GameQuestion_TimeLimit : Z;
  GameQuestion_Options : list GameOption;
  GameQuestion_TimeLeft : Z
}.

Record GamePlayer := mkGamePlayer {
  GamePlayer_ID : N;
  GamePlayer_Name : string;
  GamePlayer_Score : Z
}.

Record GameState := mkGameState {
  GameState_GameID : N;
  GameState_QuizID : N;
  GameState_Pin : string;
  GameState_Status : string;
  GameState_CurrentQuestion : option GameQuestion;
  GameState_CurrentQuestionIndex : Z;
  GameState_Players : list GamePlayer;
  GameState_Leaderboard : list GamePlayer;
  GameState_TotalQuestions : Z
}.

(** Assignments to a field of a snapshot. *)
Definition set_Status (status : string) (gs : GameState) : GameState :=
  mkGameState (GameState_GameID gs) (GameState_QuizID gs) (GameState_Pin gs) status
    (GameState_CurrentQuestion gs) (GameState_CurrentQuestionIndex gs)
    (GameState_Players gs) (GameState_Leaderboard gs) (GameState_TotalQuestions gs).

Definition set_CurrentQuestion (q : option GameQuestion) (gs : GameState) : GameState :=
  mkGameState (GameState_GameID gs) (GameState_QuizID gs) (GameState_Pin gs)
    (GameState_Status gs) q (GameState_CurrentQuestionIndex gs)
    (GameState_Players gs) (GameState_Leaderboard gs) (GameState_TotalQuestions gs).

Definition set_CurrentQuestionIndex (i : Z) (gs : GameState) : GameState :=
  mkGameState (GameState_GameID gs) (GameState_QuizID gs) (GameState_Pin gs)
    (GameState_Status gs) (GameState_CurrentQuestion gs) i
    (GameState_Players gs) (GameState_Leaderboard gs) (GameState_TotalQuestions gs).

Definition set_Players (players : list GamePlayer) (gs : GameState) : GameState :=
  mkGameState (GameState_GameID gs) (GameState_QuizID gs) (GameState_Pin gs)
    (GameState_Status gs) (GameState_CurrentQuestion gs) (GameState_CurrentQuestionIndex gs)
    players (GameState_Leaderboard gs) (GameState_TotalQuestions gs).

Definition set_TotalQuestions (n : Z) (gs : GameState) : GameState :=
  mkGameState (GameState_GameID gs) (GameState_QuizID gs) (GameState_Pin gs)
    (GameState_Status gs) (GameState_CurrentQuestion gs) (GameState_CurrentQuestionIndex gs)
    (GameState_Players gs) (GameState_Leaderboard gs) n.

Definition set_TimeLeft (timeLeft : Z) (q : GameQuestion) : GameQuestion :=
  mkGameQuestion (GameQuestion_ID q) (GameQuestion_Text q) (GameQuestion_TimeLimit q)
    (GameQuestion_Options q) timeLeft.

(** A Go [error] is its message. *)
Definition error : Type := string.

(** ** Websocket messages

    [Message{Type, Payload}]; the payloads are the [gin.H] maps the
    service builds, one constructor per shape. *)

Record BroadcastQuestion := mkBroadcastQuestion {
  bq_id : N;
  bq_text : string;
  bq_time_limit : Z;
  bq_options : list GameOption
}.

Record AnswerResult := mkAnswerResult {
  ar_player_id : N;
  ar_player_name : string;
  ar_option_id : N;
  ar_is_correct : bool;
  ar_points : Z;
  ar_time_spent : Z
}.

Inductive Payload : Type :=
| question_start_payload (question_index : Z) (question : BroadcastQuestion) (total_questions : Z)
| timer_update_payload (question_index time_left : Z)
| question_end_payload (question_index : Z) (question : Question)
    (correct_option : option Option) (answers : list AnswerResult) (total_questions : Z)
| score_update_payload (players : list Player) (player_id : N) (points_earned : Z)
    (answer_submitted : bool)
| game_end_payload (message : string) (final_leaderboard : list GamePlayer) (total_questions : Z)
| creator_left_payload (message reason : string).

Record Message := mkMessage {
  Message_Type : string;
  Message_Payload : Payload
}.

(** ** The hub *)

(** A registered [*Client]: [Client_ptr] is the pointer the hub's map is
    keyed by, [Client_send] the content of the buffered channel [send],
    oldest message first. *)
Record Client := mkClient {
  Client_ptr : N;
  Client_id : string;
  Client_send : list Message;
  Client_gamePin : string;
  Client_playerID : N;
  Client_playerName : string
}.

(** Capacity of [send]: [make(chan []byte, 256)]. *)
Definition send_capacity : nat := 256.

(** State of a [sync.RWMutex]. *)
Inductive RWMutex : Type :=
| Unlocked
| WriteLocked
| ReadLocked (readers : positive).

Record Hub := mkHub {
  Hub_clients : list Client;
  Hub_mutex : RWMutex;
  Hub_gameService : bool
}.

(** ** The world: store, cache, hub, timers, entropy *)

Record DB := mkDB {
  db_quizzes : list Quiz;
  db_questions : list Question;
  db_options : list Option;
  db_games : list Game;
  db_players : list Player;
  db_game_answers : list GameAnswer;
  db_next_game_id : N;
  db_next_player_id : N;
  db_next_game_answer_id : N
}.

(** A running [runQuestionTimer] goroutine and its local [timeLeft]. *)
Record Timer := mkTimer {
  Timer_gamePin : string;
  Timer_questionIndex : Z;
  Timer_timeLeft : Z
}.

Record World := mkWorld {
  db : DB;
  redis : gmap string GameState;
  hub : Hub;
  timers : list Timer;
  entropy : list N
}.

Definition set_db (d : DB) (w : World) : World :=
  mkWorld d (redis w) (hub w) (timers w) (entropy w).
Definition set_redis (r : gmap string GameState) (w : World) : World :=
  mkWorld (db w) r (hub w) (timers w) (entropy w).
Definition set_hub (h : Hub) (w : World) : World :=
  mkWorld (db w) (redis w) h (timers w) (entropy w).
Definition set_timers (ts : list Timer) (w : World) : World :=
  mkWorld (db w) (redis w) (hub w) ts (entropy w).
Definition set_entropy (e : list N) (w : World) : World :=
  mkWorld (db w) (redis w) (hub w) (timers w) e.

(** ** Computations

    A call either returns, panics, or blocks for ever on the hub's mutex. *)

Inductive Outcome (A : Type) : Type :=
| Ret (a : A) (w : World)
| Panic (w : World)
| Blocked (w : World).
Arguments Ret {A} a w.
Arguments Panic {A} w.
Arguments Blocked {A} w.

Definition M (A : Type) : Type := World -> Outcome A.

Definition ret {A : Type} (a : A) : M A := fun w => Ret a w.

Definition bind {A B : Type} (m : M A) (k : A -> M B) : M B :=
  fun w =>
    match m w with
    | Ret a w' => k a w'
    | Panic w' => Panic w'
    | Blocked w' => Blocked w'
    end.

Notation "x <- m ;; k" := (bind m (fun x => k))
  (at level 100, m at next level, right associativity).
Notation "m ;;; k" := (bind m (fun _ => k))
  (at level 100, right associativity).

Definition get : M World := fun w => Ret w w.
Definition modify (f : World -> World) : M unit := fun w => Ret tt (f w).
Definition panic {A : Type} : M A := fun w => Panic w.

(** The final world of a call, whatever its outcome. *)
Definition world_of {A : Type} (o : Outcome A) : World :=
  match o with
  | Ret _ w => w
  | Panic w => w
  | Blocked w => w
  end.

(** Go's [(T, error)] results. *)
Inductive result (A : Type) : Type :=
| Ok (a : A)
| Err (e : error).
Arguments Ok {A} a.
Arguments Err {A} e.

(** ** The relational store (gorm) *)

(** [Preload("Options")] on a question row. *)
Definition preload_Options (d : DB) (q : Question) : Question :=
  mkQuestion (Question_ID q) (Question_QuizID q) (Question_Text q)
    (Question_TimeLimit q) (Question_Order q)
    (List.filter (fun o => (Option_QuestionID o =? Question_ID q)%N) (db_options d)).

(** [Preload("Questions").Preload("Questions.Options")] on a quiz row. *)
Definition preload_Questions (d : DB) (z : Quiz) : Quiz :=
  mkQuiz (Quiz_ID z) (Quiz_UserID z)
    (List.map (preload_Options d)
       (List.filter (fun q => (Question_QuizID q =? Quiz_ID z)%N) (db_questions d))).

(** [Preload("Quiz").Preload("Quiz.Questions").Preload("Quiz.Questions.Options")]
    on a game row; a dangling [quiz_id] leaves the zero value. *)
Definition preload_Quiz (d : DB) (g : Game) : Game :=
  mkGame (Game_ID g) (Game_QuizID g) (Game_Pin g) (Game_Status g)
    (match List.find (fun z => (Quiz_ID z =? Game_QuizID g)%N) (db_quizzes d) with
     | Some z => preload_Questions d z
     | None => zero_Quiz
     end)
    (Game_Players g).

(** [Preload("Players")] on a game row. *)
Definition preload_Players (d : DB) (g : Game) : Game :=
  mkGame (Game_ID g) (Game_QuizID g) (Game_Pin g) (Game_Status g) (Game_Quiz g)
    (List.filter (fun p => (Player_GameID p =? Game_ID g)%N) (db_players d)).

(** [Preload("Player")] on an answer row. *)
Definition preload_Player (d : DB) (a : GameAnswer) : GameAnswer :=
  mkGameAnswer (GameAnswer_ID a) (GameAnswer_GameID a) (GameAnswer_PlayerID a)
    (GameAnswer_QuestionID a) (GameAnswer_OptionID a) (GameAnswer_IsCorrect a)
    (GameAnswer_TimeSpent a) (GameAnswer_Points a)
    (match List.find (fun p => (Player_ID p =? GameAnswer_PlayerID a)%N) (db_players d) with
     | Some p => p
     | None => zero_Player
     end).

(** [Where("LOWER(pin) = ?", pin).First(&game)]. *)
Definition first_game_by_pin (d : DB) (pin : string) : option Game :=
  List.find (fun g => String.eqb (ToLower (Game_Pin g)) pin) (db_games d).

(** [Where("id = ? AND user_id = ?", quizID, userID).First(&quiz)]. *)
Definition first_quiz_of_user (d : DB) (quizID userID : N) : option Quiz :=
  List.find (fun z => (Quiz_ID z =? quizID)%N && (Quiz_UserID z =? userID)%N) (db_quizzes d).

(** [Where("game_id = ?", gameID).Find(&players)]: the rows in the order
    of the table; the query has no [Order], and the store may return them
    in any order. *)
Definition find_players (d : DB) (gameID : N) : list Player :=
  List.filter (fun p => (Player_GameID p =? gameID)%N) (db_players d).

(** [Where("game_id = ? AND name = ?", gameID, name).First(&existingPlayer)]. *)
Definition first_player_by_name (d : DB) (gameID : N) (name : string) : option Player :=
  List.find (fun p => (Player_GameID p =? gameID)%N && String.eqb (Player_Name p) name)
    (db_players d).

(** [Where("game_id = ? AND player_id = ? AND question_id = ?", ...).First(&existingAnswer)]. *)
Definition first_answer (d : DB) (gameID playerID questionID : N) : option GameAnswer :=
  List.find
    (fun a => (GameAnswer_GameID a =? gameID)%N && (GameAnswer_PlayerID a =? playerID)%N
              && (GameAnswer_QuestionID a =? questionID)%N)
    (db_game_answers d).

(** [Where("game_id = ? AND question_id = ?", ...).Preload("Player").Find(&gameAnswers)]. *)
Definition find_answers (d : DB) (gameID questionID : N) : list GameAnswer :=
  List.map (preload_Player d)
    (List.filter
       (fun a => (GameAnswer_GameID a =? gameID)%N && (GameAnswer_QuestionID a =? questionID)%N)
       (db_game_answers d)).

(** [First(&question, id)] and [First(&option, id)]. *)
Definition first_question (d : DB) (id : N) : option Question :=
  List.find (fun q => (Question_ID q =? id)%N) (db_questions d).
Definition first_option (d : DB) (id : N) : option Option :=
  List.find (fun o => (Option_ID o =? id)%N) (db_options d).

(** [Model(&game).Update("status", status)]. *)
Definition update_status (id : N) (status : string) (d : DB) : DB :=
  mkDB (db_quizzes d) (db_questions d) (db_options d)
    (List.map
       (fun g => if (Game_ID g =? id)%N
                 then mkGame (Game_ID g) (Game_QuizID g) (Game_Pin g) status
                        (Game_Quiz g) (Game_Players g)
                 else g)
       (db_games d))
    (db_players d) (db_game_answers d)
    (db_next_game_id d) (db_next_player_id d) (db_next_game_answer_id d).

(** The table of participants after
    [Model(&models.Player{}).Where("id = ?", playerID)
      .Update("score", gorm.Expr("score + ?", points))];
    the sum is the store's. *)
Definition add_score (playerID : N) (points : Z) (d : DB) : DB :=
  mkDB (db_quizzes d) (db_questions d) (db_options d) (db_games d)
    (List.map
       (fun p => if (Player_ID p =? playerID)%N
                 then mkPlayer (Player_ID p) (Player_GameID p) (Player_Name p)
                        (Player_Score p + points)
                 else p)
       (db_players d))
    (db_game_answers d)
    (db_next_game_id d) (db_next_player_id d) (db_next_game_answer_id d).

(** The double quote of the store's messages. *)
Definition dquote : string := String (ascii_of_N 34) EmptyString.

(** [Create(&game)]: the column [pin] carries a unique index, so a row
    with a pin already in the table is refused. *)
Definition duplicate_key : error :=
  "ERROR: duplicate key value violates unique constraint "
  ++ dquote ++ "idx_games_pin" ++ dquote ++ " (SQLSTATE 23505)".

Definition create_game (quizID : N) (pin status : string) (d : DB) : result (Game * DB) :=
  if existsb (fun g => String.eqb (Game_Pin g) pin) (db_games d) then Err duplicate_key
  else
    let game := mkGame (db_next_game_id d) quizID pin status zero_Quiz [] in
    Ok (game,
        mkDB (db_quizzes d) (db_questions d) (db_options d) (db_games d ++ [game])
          (db_players d) (db_game_answers d)
          (db_next_game_id d + 1)%N (db_next_player_id d) (db_next_game_answer_id d)).

(** The tables after [Create(&player)]. *)
Definition create_player (gameID : N) (name : string) (score : Z) (d : DB) : Player * DB :=
  let player := mkPlayer (db_next_player_id d) gameID name score in
  (player,
   mkDB (db_quizzes d) (db_questions d) (db_options d) (db_games d)
     (db_players d ++ [player]) (db_game_answers d)
     (db_next_game_id d) (db_next_player_id d + 1)%N (db_next_game_answer_id d)).

(** The tables after [Create(&gameAnswer)]. *)
Definition create_game_answer (a : GameAnswer) (d : DB) : DB :=
  let row :=
    mkGameAnswer (db_next_game_answer_id d) (GameAnswer_GameID a) (GameAnswer_PlayerID a)
      (GameAnswer_QuestionID a) (GameAnswer_OptionID a) (GameAnswer_IsCorrect a)
      (GameAnswer_TimeSpent a) (GameAnswer_Points a) zero_Player in
  mkDB (db_quizzes d) (db_questions d) (db_options d) (db_games d)
    (db_players d) (db_game_answers d ++ [row])
    (db_next_game_id d) (db_next_player_id d) (db_next_game_answer_id d + 1)%N.

(** What a column of type [text] holds: UTF-8 without the byte 0. *)
Definition byte_in (lo hi : N) (c : ascii) : bool :=
  ((lo <=? N_of_ascii c) && (N_of_ascii c <=? hi))%N.

Fixpoint valid_text (s : string) : bool :=
  match s with
  | EmptyString => true
  | String c s1 =>
      if byte_in 1 127 c then valid_text s1
      else if byte_in 194 223 c then
        match s1 with
        | String c1 s2 => byte_in 128 191 c1 && valid_text s2
        | _ => false
        end
      else if byte_in 224 239 c then
        match s1 with
        | String c1 (String c2 s3) =>
            (if (N_of_ascii c =? 224)%N then byte_in 160 191 c1
             else if (N_of_ascii c =? 237)%N then byte_in 128 159 c1
             else byte_in 128 191 c1)
            && byte_in 128 191 c2 && valid_text s3
        | _ => false
        end
      else if byte_in 240 244 c then
        match s1 with
        | String c1 (String c2 (String c3 s4)) =>
            (if (N_of_ascii c =? 240)%N then byte_in 144 191 c1
             else if (N_of_ascii c =? 244)%N then byte_in 128 143 c1
             else byte_in 128 191 c1)
            && byte_in 128 191 c2 && byte_in 128 191 c3 && valid_text s4
        | _ => false
        end
      else false
  end.

(** The store's errors; of the first the bytes that the store names after
    the encoding are left out. *)
Definition invalid_byte_sequence : error :=
  "ERROR: invalid byte sequence for encoding "
  ++ dquote ++ "UTF8" ++ dquote ++ " (SQLSTATE 22021)".

Definition fk_game_answers_player : error :=
  "ERROR: insert or update on table " ++ dquote ++ "game_answers" ++ dquote
  ++ " violates foreign key constraint " ++ dquote ++ "fk_game_answers_player" ++ dquote
  ++ " (SQLSTATE 23503)".

Definition bigint_out_of_range : error := "ERROR: bigint out of range (SQLSTATE 22003)".

Definition fits_int (x : Z) : bool := (int_min <=? x) && (x <=? int_max).

(** [s.db.Create(&player).Error]: the name goes into a column of type
    [text]. *)
Definition Create_Player (gameID : N) (name : string) (score : Z) : M (result Player) :=
  fun w =>
    if valid_text name then
      let '(player, d) := create_player gameID name score (db w) in
      Ret (Ok player) (set_db d w)
    else Ret (Err invalid_byte_sequence) w.

(** [s.db.Create(&gameAnswer).Error]: [models.GameAnswer] belongs to a
    [Player], so the row must name a row of the participants. (The game,
    the question and the option that it names have been read from the
    store by then, and no row is ever removed.) *)
Definition Create_GameAnswer (a : GameAnswer) : M (option error) :=
  fun w =>
    if existsb (fun p => (Player_ID p =? GameAnswer_PlayerID a)%N) (db_players (db w))
    then Ret None (set_db (create_game_answer a (db w)) w)
    else Ret (Some fk_game_answers_player) w.

(** [Model(&models.Player{}).Where("id = ?", playerID)
      .Update("score", gorm.Expr("score + ?", points)).Error]:
    the column is a [bigint]. *)
Definition Update_score (playerID : N) (points : Z) : M (option error) :=
  fun w =>
    if forallb (fun p => negb (Player_ID p =? playerID)%N || fits_int (Player_Score p + points))
         (db_players (db w))
    then Ret None (set_db (add_score playerID points (db w)) w)
    else Ret (Some bigint_out_of_range) w.

(** ** The Redis cache *)

Definition redis_key (pin : string) : string := "game:" ++ ToLower pin.

(** [storeGameState]: [Set] with a life time of two hours; [getGameState]
    returns nil for a key that is not there. An error of the Redis client
    is not modelled. *)
Definition storeGameState (pin : string) (state : GameState) : M (option error) :=
  fun w => Ret None (set_redis (<[redis_key pin := state]> (redis w)) w).

Definition getGameState (pin : string) : M (option GameState) :=
  fun w => Ret (redis w !! redis_key pin) w.

(** The life time of the entry of a code is over. *)
Definition expire (pin : string) : M unit :=
  modify (fun w => set_redis (delete (redis_key pin) (redis w)) w).

(** ** Entropy: [crypto/rand.Read] *)

Definition rand_Read (n : nat) : M (list N) :=
  fun w => Ret (take n (entropy w ++ repeat 0%N n)) (set_entropy (drop n (entropy w)) w).

(** ** Hub operations *)

Definition set_mutex (m : RWMutex) (w : World) : World :=
  set_hub (mkHub (Hub_clients (hub w)) m (Hub_gameService (hub w))) w.
Definition set_clients (cs : list Client) (w : World) : World :=
  set_hub (mkHub cs (Hub_mutex (hub w)) (Hub_gameService (hub w))) w.

(** [h.mutex.Lock()]: waits while the mutex is held in any mode. Calls are
    run one at a time, so a mutex found held is held by the caller itself
    and the wait never ends. *)
Definition Lock : M unit :=
  fun w =>
    match Hub_mutex (hub w) with
    | Unlocked => Ret tt (set_mutex WriteLocked w)
    | _ => Blocked w
    end.

(** [h.mutex.Unlock()]; unlocking a mutex that is not write-locked is a
    fatal error. *)
Definition Unlock : M unit :=
  fun w =>
    match Hub_mutex (hub w) with
    | WriteLocked => Ret tt (set_mutex Unlocked w)
    | _ => Panic w
    end.

(** [h.mutex.RLock()]: waits while a writer holds the mutex. *)
Definition RLock : M unit :=
  fun w =>
    match Hub_mutex (hub w) with
    | Unlocked => Ret tt (set_mutex (ReadLocked 1) w)
    | ReadLocked n => Ret tt (set_mutex (ReadLocked (n + 1)) w)
    | WriteLocked => Blocked w
    end.

Definition RUnlock : M unit :=
  fun w =>
    match Hub_mutex (hub w) with
    | ReadLocked 1 => Ret tt (set_mutex Unlocked w)
    | ReadLocked n => Ret tt (set_mutex (ReadLocked (Pos.pred n)) w)
    | _ => Panic w
    end.

(** [client.send <- data] with its [default] branch: a full buffer gets
    the channel closed and the client deleted from the map. *)
Definition enqueue (data : Message) (client : Client) : option Client :=
  if (length (Client_send client) <? send_capacity)%nat
  then Some (mkClient (Client_ptr client) (Client_id client) (Client_send client ++ [data])
               (Client_gamePin client) (Client_playerID client) (Client_playerName client))
  else None.

(** The loop of [BroadcastToGame] over [h.clients]: the clients after the
    loop and [clientCount]. *)
Fixpoint send_to_game (gamePin : string) (data : Message) (clients : list Client)
  : list Client * Z :=
  match clients with
  | [] => ([], 0)
  | client :: rest =>
      let '(rest', clientCount) := send_to_game gamePin data rest in
      if EqualFold (Client_gamePin client) gamePin then
        match enqueue data client with
        | Some client' => (client' :: rest', clientCount + 1)
        | None => (rest', clientCount)
        end
      else (client :: rest', clientCount)
  end.

(** [ListAllClients]: only its locking matters here. *)
Definition ListAllClients : M unit := RLock;;; RUnlock.

Definition BroadcastToGame (gamePin messageType : string) (payload : Payload) : M unit :=
  let data := mkMessage messageType payload in
  RLock;;;
  w <- get;;
  let '(clients, clientCount) := send_to_game gamePin data (Hub_clients (hub w)) in
  modify (set_clients clients);;;
  RUnlock;;;
  if clientCount <? 3 then ListAllClients else ret tt.

(** [GetConnectedPlayers]. *)
Definition GetConnectedPlayers (gamePin : string) : M (list N) :=
  RLock;;;
  w <- get;;
  let playerIDs :=
    List.map Client_playerID
      (List.filter (fun c => EqualFold (Client_gamePin c) gamePin) (Hub_clients (hub w))) in
  RUnlock;;;
  ret playerIDs.

(** The [register] branch of [Hub.Run]. *)
Definition Hub_Run_register (client : Client) : M unit :=
  Lock;;;
  modify (fun w =>
            set_clients
              (if existsb (fun c => (Client_ptr c =? Client_ptr client)%N) (Hub_clients (hub w))
               then Hub_clients (hub w)
               else Hub_clients (hub w) ++ [client]) w);;;
  Unlock.

(** The [unregister] branch of [Hub.Run], for the client behind the
    pointer [ptr]. [UpdateGameStatus] is the method of the game service it
    calls, taken as a parameter. *)
Definition Hub_Run_unregister (UpdateGameStatus : string -> string -> M (option error))
    (ptr : N) : M unit :=
  Lock;;;
  w <- get;;
  (match List.find (fun c => (Client_ptr c =? ptr)%N) (Hub_clients (hub w)) with
   | Some client =>
       modify (set_clients
                 (List.filter (fun c => negb (Client_ptr c =? ptr)%N) (Hub_clients (hub w))));;;
       if (Client_playerID client =? 0)%N then
         if Hub_gameService (hub w) then
           err <- UpdateGameStatus (Client_gamePin client) "finished";;
           match err with
           | Some _ => ret tt
           | None =>
               BroadcastToGame (Client_gamePin client) "game_end"
                 (creator_left_payload
                    "Quiz creator has left the game. The quiz has ended."
                    "creator_disconnected")
           end
         else ret tt
       else ret tt
   | None => ret tt
   end);;;
  Unlock.

(** ** The game service *)

Definition generatePin : M string :=
  bytes <- rand_Read 3;;
  ret (substring 0 6 (hex_EncodeToString bytes)).

Definition to_GamePlayer (player : Player) : GamePlayer :=
  mkGamePlayer (Player_ID player) (Player_Name player) (Player_Score player).

Definition StartGame (userID : N) (req : StartGameRequest) : M (result Game) :=
  w <- get;;
  match first_quiz_of_user (db w) (StartGameRequest_QuizID req) userID with
  | None => ret (Err "quiz not found")
  | Some row =>
      let quiz := preload_Questions (db w) row in
      pin <- generatePin;;
      w1 <- get;;
      match create_game (StartGameRequest_QuizID req) pin "waiting" (db w1) with
      | Err e => ret (Err e)
      | Ok (game, d) =>
          modify (set_db d);;;
          let gameState :=
            mkGameState (Game_ID game) (Game_QuizID game) (Game_Pin game) (Game_Status game)
              None (-1) [] [] (len (Quiz_Questions quiz)) in
          let normalizedPin := ToLower (Game_Pin game) in
          storeGameState normalizedPin gameState;;;
          ret (Ok game)
      end
  end.

Definition StartQuiz (gamePin : string) (userID : N) : M (result Game) :=
  let normalizedPin := ToLower gamePin in
  w <- get;;
  match first_game_by_pin (db w) normalizedPin with
  | None => ret (Err "game not found")
  | Some row =>
      let game := preload_Quiz (db w) row in
      match first_quiz_of_user (db w) (Game_QuizID game) userID with
      | None => ret (Err "unauthorized to start this game")
      | Some _ =>
          modify (fun w => set_db (update_status (Game_ID game) "active" (db w)) w);;;
          let game :=
            mkGame (Game_ID game) (Game_QuizID game) (Game_Pin game) "active"
              (Game_Quiz game) (Game_Players game) in
          w1 <- get;;
          let players := find_players (db w1) (Game_ID game) in
          cached <- getGameState normalizedPin;;
          let gameState :=
            match cached with
            | None =>
                mkGameState (Game_ID game) (Game_QuizID game) normalizedPin "active"
                  None (-1) [] [] (len (Quiz_Questions (Game_Quiz game)))
            | Some gs =>
                set_TotalQuestions (len (Quiz_Questions (Game_Quiz game)))
                  (set_Status "active" gs)
            end in
          let gameState := set_Players (List.map to_GamePlayer players) gameState in
          err <- storeGameState normalizedPin gameState;;
          match err with
          | Some _ => ret (Err "failed to update game state")
          | None => ret (Ok game)
          end
      end
  end.

(** [go s.runQuestionTimer(gamePin, questionIndex, timeLimit, hub)]. *)
Definition spawn_runQuestionTimer (gamePin : string) (questionIndex timeLimit : Z) : M unit :=
  modify (fun w => set_timers (timers w ++ [mkTimer gamePin questionIndex timeLimit]) w).

Definition to_GameOption (option : Option) : GameOption :=
  mkGameOption (Option_ID option) (Option_Text option).

Definition StartQuestion (gamePin : string) (questionIndex : Z) (hub : bool)
  : M (option error) :=
  let normalizedPin := ToLower gamePin in
  w <- get;;
  match first_game_by_pin (db w) normalizedPin with
  | None => ret (Some "game not found")
  | Some row =>
      let game := preload_Quiz (db w) row in
      if questionIndex >=? len (Quiz_Questions (Game_Quiz game)) then
        ret (Some "question index out of range")
      else
        match index (Quiz_Questions (Game_Quiz game)) questionIndex with
        | None => panic
        | Some question =>
            cached <- getGameState normalizedPin;;
            match cached with
            | None => ret (Some "game state not found in Redis")
            | Some gameState =>
                let currentQuestion :=
                  mkGameQuestion (Question_ID question) (Question_Text question)
                    (Question_TimeLimit question)
                    (List.map to_GameOption (Question_Options question))
                    (Question_TimeLimit question) in
                let gameState :=
                  set_CurrentQuestion (Some currentQuestion)
                    (set_CurrentQuestionIndex questionIndex gameState) in
                err <- storeGameState normalizedPin gameState;;
                match err with
                | Some _ => ret (Some "failed to update game state")
                | None =>
                    (if hub then
                       let broadcastQuestion :=
                         mkBroadcastQuestion (Question_ID question) (Question_Text question)
                           (Question_TimeLimit question)
                           (GameQuestion_Options currentQuestion) in
                       BroadcastToGame normalizedPin "question_start"
                         (question_start_payload questionIndex broadcastQuestion
                            (len (Quiz_Questions (Game_Quiz game))));;;
                       spawn_runQuestionTimer normalizedPin questionIndex
                         (Question_TimeLimit question)
                     else ret tt);;;
                    ret None
                end
            end
        end
  end.

(** [Order("score DESC")], ties in table order. *)
Fixpoint insert_by_score (p : Player) (sorted : list Player) : list Player :=
  match sorted with
  | [] => [p]
  | q :: rest =>
      if Player_Score q <? Player_Score p then p :: q :: rest
      else q :: insert_by_score p rest
  end.

Definition order_by_score_desc (players : list Player) : list Player :=
  List.fold_left (fun sorted p => insert_by_score p sorted) players [].

Definition NextQuestion (gamePin : string) (hub : bool) : M (option error) :=
  let normalizedPin := ToLower gamePin in
  cached <- getGameState normalizedPin;;
  match cached with
  | None => ret (Some "game state not found")
  | Some gameState =>
      w <- get;;
      match first_game_by_pin (db w) normalizedPin with
      | None => ret (Some "game not found")
      | Some row =>
          let game := preload_Quiz (db w) row in
          let nextQuestionIndex := wrap_int (GameState_CurrentQuestionIndex gameState + 1) in
          if nextQuestionIndex >=? len (Quiz_Questions (Game_Quiz game)) then
            modify (fun w => set_db (update_status (Game_ID game) "finished" (db w)) w);;;
            let gameState :=
              set_CurrentQuestionIndex (len (Quiz_Questions (Game_Quiz game)))
                (set_CurrentQuestion None (set_Status "finished" gameState)) in
            storeGameState normalizedPin gameState;;;
            w1 <- get;;
            let players := order_by_score_desc (find_players (db w1) (Game_ID game)) in
            let finalLeaderboard := List.map to_GamePlayer players in
            (if hub then
               BroadcastToGame normalizedPin "game_end"
                 (game_end_payload "Quiz completed! Here are the final results:"
                    finalLeaderboard (len (Quiz_Questions (Game_Quiz game))))
             else ret tt);;;
            ret None
          else StartQuestion normalizedPin nextQuestionIndex hub
      end
  end.

Definition to_AnswerResult (answer : GameAnswer) : AnswerResult :=
  mkAnswerResult (GameAnswer_PlayerID answer) (Player_Name (GameAnswer_Player answer))
    (GameAnswer_OptionID answer) (GameAnswer_IsCorrect answer)
    (GameAnswer_Points answer) (GameAnswer_TimeSpent answer).

Definition EndQuestion (gamePin : string) (hub : bool) (questionIndex : Z)
  : M (option error) :=
  let normalizedPin := ToLower gamePin in
  w <- get;;
  match first_game_by_pin (db w) normalizedPin with
  | None => ret (Some "game not found")
  | Some row =>
      let game := preload_Quiz (db w) row in
      if questionIndex >=? len (Quiz_Questions (Game_Quiz game)) then
        ret (Some "invalid question index")
      else
        match index (Quiz_Questions (Game_Quiz game)) questionIndex with
        | None => panic
        | Some question =>
            let gameAnswers := find_answers (db w) (Game_ID game) (Question_ID question) in
            let answerResults := List.map to_AnswerResult gameAnswers in
            let correctOption := List.find Option_IsCorrect (Question_Options question) in
            (if hub then
               BroadcastToGame normalizedPin "question_end"
                 (question_end_payload questionIndex question correctOption answerResults
                    (len (Quiz_Questions (Game_Quiz game))))
             else ret tt);;;
            ret None
        end
  end.

(** One turn of the loop of [runQuestionTimer]: the tick is received,
    [timeLeft] decremented, the snapshot's [TimeLeft] refreshed and
    [timer_update] broadcast. Returns the new [timeLeft]. The goroutine is
    started by [StartQuestion] under [hub != nil] only, so its [hub] is
    not nil. *)
Definition runQuestionTimer_tick (t : Timer) : M Z :=
  let timeLeft := wrap_int (Timer_timeLeft t - 1) in
  let normalizedPin := ToLower (Timer_gamePin t) in
  cached <- getGameState normalizedPin;;
  (match cached with
   | Some gameState =>
       match GameState_CurrentQuestion gameState with
       | Some cq =>
           storeGameState normalizedPin
             (set_CurrentQuestion (Some (set_TimeLeft timeLeft cq)) gameState);;;
           ret tt
       | None => ret tt
       end
   | None => ret tt
   end);;;
  BroadcastToGame normalizedPin "timer_update"
    (timer_update_payload (Timer_questionIndex t) timeLeft);;;
  ret timeLeft.

(** The second half of the refresh in a turn of the loop: what the turn
    read from the cache is written back with the new [TimeLeft]. *)
Definition runQuestionTimer_stores (normalizedPin : string) (timeLeft : Z)
    (cached : option GameState) : M unit :=
  match cached with
  | Some gameState =>
      match GameState_CurrentQuestion gameState with
      | Some cq =>
          storeGameState normalizedPin
            (set_CurrentQuestion (Some (set_TimeLeft timeLeft cq)) gameState);;;
          ret tt
      | None => ret tt
      end
  | None => ret tt
  end.

(** The scheduler lets the [k]-th running timer proceed: one turn of its
    loop while [timeLeft > 0]; when the loop condition fails the goroutine
    calls [EndQuestion] and ends. Nothing in the goroutine looks at the
    state of the session before going on. *)
Definition runQuestionTimer_step (k : nat) : M unit :=
  w <- get;;
  match timers w !! k with
  | None => ret tt
  | Some t =>
      if Timer_timeLeft t >? 0 then
        timeLeft <- runQuestionTimer_tick t;;
        if timeLeft >? 0 then
          modify (fun w =>
                    set_timers
                      (<[k := mkTimer (Timer_gamePin t) (Timer_questionIndex t) timeLeft]>
                         (timers w)) w)
        else
          modify (fun w => set_timers (delete k (timers w)) w);;;
          EndQuestion (ToLower (Timer_gamePin t)) true (Timer_questionIndex t);;;
          ret tt
      else
        modify (fun w => set_timers (delete k (timers w)) w);;;
        EndQuestion (ToLower (Timer_gamePin t)) true (Timer_questionIndex t);;;
        ret tt
  end.

(** [JoinGame] up to the insert: the session is looked up, its status and
    the name are checked. *)
Definition JoinGame_checks (req : JoinGameRequest) : M (result Game) :=
  let pin := ToLower (JoinGameRequest_Pin req) in
  w <- get;;
  match first_game_by_pin (db w) pin with
  | None => ret (Err "game not found")
  | Some game =>
      if negb (String.eqb (Game_Status game) "waiting")
         && negb (String.eqb (Game_Status game) "active") then
        ret (Err ("game has status '" ++ Game_Status game ++ "' - cannot join"))
      else
        match first_player_by_name (db w) (Game_ID game) (JoinGameRequest_Name req) with
        | Some _ => ret (Err "player name already taken")
        | None => ret (Ok game)
        end
  end.

(** [JoinGame] from the insert on: the participant is created and
    appended to the snapshot. *)
Definition JoinGame_creates (req : JoinGameRequest) (game : Game) : M (result Player) :=
  created <- Create_Player (Game_ID game) (JoinGameRequest_Name req) 0;;
  match created with
  | Err err => ret (Err err)
  | Ok player =>
      let normalizedPin := ToLower (Game_Pin game) in
      cached <- getGameState normalizedPin;;
      let gameState :=
        match cached with
        | Some gs => gs
        | None =>
            mkGameState (Game_ID game) (Game_QuizID game) normalizedPin
              (Game_Status game) None (-1) [] [] 0
        end in
      let gamePlayer := to_GamePlayer player in
      let gameState :=
        set_Players (GameState_Players gameState ++ [gamePlayer]) gameState in
      storeGameState normalizedPin gameState;;;
      ret (Ok player)
  end.

Definition JoinGame (req : JoinGameRequest) : M (result Player) :=
  checked <- JoinGame_checks req;;
  match checked with
  | Err err => ret (Err err)
  | Ok game => JoinGame_creates req game
  end.

(** Two requests to join that overlap: both have passed the checks before
    either inserts its row. *)
Definition JoinGame_overlapping (req1 req2 : JoinGameRequest)
  : M (result Player * result Player) :=
  checked1 <- JoinGame_checks req1;;
  checked2 <- JoinGame_checks req2;;
  joined1 <- match checked1 with
             | Err err => ret (Err err)
             | Ok game => JoinGame_creates req1 game
             end;;
  joined2 <- match checked2 with
             | Err err => ret (Err err)
             | Ok game => JoinGame_creates req2 game
             end;;
  ret (joined1, joined2).

Definition GetGameByPin (pin : string) : M (option Game) :=
  w <- get;;
  ret (option_map (fun row => preload_Players (db w) (preload_Quiz (db w) row))
         (first_game_by_pin (db w) (ToLower pin))).

(** The loop of [SubmitAnswer] over [gameState.Players]: the first player
    with the id gets the points, then [break]. *)
Fixpoint add_points (playerID : N) (points : Z) (players : list GamePlayer)
  : list GamePlayer :=
  match players with
  | [] => []
  | player :: rest =>
      if (GamePlayer_ID player =? playerID)%N then
        mkGamePlayer (GamePlayer_ID player) (GamePlayer_Name player)
          (wrap_int (GamePlayer_Score player + points)) :: rest
      else player :: add_points playerID points rest
  end.

(** [SubmitAnswer] up to the insert: the session, an earlier answer, the
    question and the option are read, the points computed and the row
    built. *)
Definition SubmitAnswer_reads (gamePin : string) (playerID : N) (req : SubmitAnswerRequest)
  : M (result (Game * GameAnswer)) :=
  let normalizedPin := ToLower gamePin in
  found <- GetGameByPin normalizedPin;;
  match found with
  | None => ret (Err "game not found")
  | Some game =>
      if negb (String.eqb (Game_Status game) "active") then ret (Err "game is not active")
      else
        w <- get;;
        match first_answer (db w) (Game_ID game) playerID
                (SubmitAnswerRequest_QuestionID req) with
        | Some _ => ret (Err "answer already submitted")
        | None =>
            match first_question (db w) (SubmitAnswerRequest_QuestionID req) with
            | None => ret (Err "question not found")
            | Some question =>
                match first_option (db w) (SubmitAnswerRequest_OptionID req) with
                | None => ret (Err "option not found")
                | Some option =>
                    let timeSpent :=
                      if SubmitAnswerRequest_TimeSpent req =? 0
                      then Question_TimeLimit question
                      else SubmitAnswerRequest_TimeSpent req in
                    match calculatePoints timeSpent (Question_TimeLimit question)
                            (Option_IsCorrect option) with
                    | None => panic
                    | Some points =>
                        let gameAnswer :=
                          mkGameAnswer 0 (Game_ID game) playerID
                            (SubmitAnswerRequest_QuestionID req)
                            (SubmitAnswerRequest_OptionID req)
                            (Option_IsCorrect option) timeSpent points zero_Player in
                        ret (Ok (game, gameAnswer))
                    end
                end
            end
        end
  end.

(** [SubmitAnswer] from the insert on: the row is inserted, the score
    raised in the store and in the snapshot, the scores broadcast. *)
Definition SubmitAnswer_writes (gamePin : string) (playerID : N) (game : Game)
    (gameAnswer : GameAnswer) (hub : bool) : M (option error) :=
  let normalizedPin := ToLower gamePin in
  let points := GameAnswer_Points gameAnswer in
  err <- Create_GameAnswer gameAnswer;;
  match err with
  | Some err => ret (Some err)
  | None =>
      err <- Update_score playerID points;;
      match err with
      | Some err => ret (Some err)
      | None =>
          cached <- getGameState normalizedPin;;
          (match cached with
           | Some gameState =>
               storeGameState normalizedPin
                 (set_Players
                    (add_points playerID points (GameState_Players gameState))
                    gameState);;;
               ret tt
           | None => ret tt
           end);;;
          w1 <- get;;
          let updatedPlayers := find_players (db w1) (Game_ID game) in
          (if hub then
             BroadcastToGame normalizedPin "score_update"
               (score_update_payload updatedPlayers playerID points true)
           else ret tt);;;
          ret None
      end
  end.

Definition SubmitAnswer (gamePin : string) (playerID : N) (req : SubmitAnswerRequest)
    (hub : bool) : M (option error) :=
  read <- SubmitAnswer_reads gamePin playerID req;;
  match read with
  | Err err => ret (Some err)
  | Ok (game, gameAnswer) => SubmitAnswer_writes gamePin playerID game gameAnswer hub
  end.

(** Two requests of a participant that overlap: both have looked for an
    earlier answer before either inserts its row. *)
Definition SubmitAnswer_overlapping (gamePin : string) (playerID : N)
    (req1 req2 : SubmitAnswerRequest) (hub : bool) : M (option error * option error) :=
  read1 <- SubmitAnswer_reads gamePin playerID req1;;
  read2 <- SubmitAnswer_reads gamePin playerID req2;;
  err1 <- match read1 with
          | Err err => ret (Some err)
          | Ok (game, gameAnswer) => SubmitAnswer_writes gamePin playerID game gameAnswer hub
          end;;
  err2 <- match read2 with
          | Err err => ret (Some err)
          | Ok (game, gameAnswer) => SubmitAnswer_writes gamePin playerID game gameAnswer hub
          end;;
  ret (err1, err2).

(** A turn of the loop of [runQuestionTimer] that an answer overlaps: the
    turn has read the snapshot, the answer is submitted, then the turn
    writes back what it read and broadcasts. *)
Definition runQuestionTimer_tick_around_SubmitAnswer (t : Timer) (gamePin : string)
    (playerID : N) (req : SubmitAnswerRequest) (hub : bool) : M (option error) :=
  let timeLeft := wrap_int (Timer_timeLeft t - 1) in
  let normalizedPin := ToLower (Timer_gamePin t) in
  cached <- getGameState normalizedPin;;
  err <- SubmitAnswer gamePin playerID req hub;;
  runQuestionTimer_stores normalizedPin timeLeft cached;;;
  BroadcastToGame normalizedPin "timer_update"
    (timer_update_payload (Timer_questionIndex t) timeLeft);;;
  ret err.

Definition CheckGameOwnership (gamePin : string) (userID : N) : M (option error) :=
  let normalizedPin := ToLower gamePin in
  w <- get;;
  match first_game_by_pin (db w) normalizedPin with
  | None => ret (Some "game not found")
  | Some game =>
      match first_quiz_of_user (db w) (Game_QuizID game) userID with
      | None => ret (Some "unauthorized to control this game")
      | Some _ => ret None
      end
  end.

(** Modelled from the spec: [GameService.UpdateGameStatus], which the hub
    calls when the creator's connection goes away, is not among the source
    files. The spec has the hub "force-finish the session": the durable
    status of the session with that code and the status of its cached
    snapshot become the given status. *)
Definition UpdateGameStatus (gamePin status : string) : M (option error) :=
  let normalizedPin := ToLower gamePin in
  w <- get;;
  match first_game_by_pin (db w) normalizedPin with
  | None => ret (Some "game not found")
  | Some game =>
      modify (fun w => set_db (update_status (Game_ID game) status (db w)) w);;;
      cached <- getGameState normalizedPin;;
      match cached with
      | Some gs =>
          storeGameState normalizedPin (set_Status status gs)
      | None => ret None
      end
  end.

(** ** The handlers of [game_handler.go]

    The result is the HTTP status of the response; [user_id] is what the
    authentication middleware left in the context. *)

Module GameHandler.

Definition StartQuiz (user_id : option N) (pin : string) : M Z :=
  match user_id with
  | None => ret 401
  | Some userID =>
      if String.eqb pin "" then ret 400
      else
        let normalizedPin := ToLower pin in
        started <- StartQuiz normalizedPin userID;;
        match started with
        | Err _ => ret 400
        | Ok _ =>
            err <- StartQuestion normalizedPin 0 true;;
            match err with
            | Some _ => ret 500
            | None =>
                GetConnectedPlayers normalizedPin;;;
                ret 200
            end
        end
  end.

Definition NextQuestion (user_id : option N) (pin : string) : M Z :=
  match user_id with
  | None => ret 401
  | Some userID =>
      if String.eqb pin "" then ret 400
      else
        let normalizedPin := ToLower pin in
        owner <- CheckGameOwnership normalizedPin userID;;
        match owner with
        | Some _ => ret 401
        | None =>
            err <- NextQuestion normalizedPin true;;
            match err with
            | Some _ => ret 400
            | None => ret 200
            end
        end
  end.

Definition SubmitAnswer (pin : string) (req : SubmitAnswerRequest) : M Z :=
  if String.eqb pin "" then ret 400
  else
    let normalizedPin := ToLower pin in
    (* ShouldBindJSON: the fields tagged [binding:"required"] are non-zero *)
    if (SubmitAnswerRequest_PlayerID req =? 0)%N
       || (SubmitAnswerRequest_QuestionID req =? 0)%N
       || (SubmitAnswerRequest_OptionID req =? 0)%N then ret 400
    else if (SubmitAnswerRequest_PlayerID req =? 0)%N then ret 400
    else
      err <- SubmitAnswer normalizedPin (SubmitAnswerRequest_PlayerID req) req true;;
      match err with
      | Some _ => ret 400
      | None => ret 200
      end.

End GameHandler.

(** ** Further methods of the hub, the service and the routes *)

(** [Hub.IsPlayerConnected] and [Hub.IsCreatorConnected]. *)
Definition IsPlayerConnected (gamePin : string) (playerID : N) : M bool :=
  RLock;;;
  w <- get;;
  let found :=
    existsb
      (fun client =>
         EqualFold (Client_gamePin client) gamePin && (Client_playerID client =? playerID)%N)
      (Hub_clients (hub w)) in
  RUnlock;;;
  ret found.

Definition IsCreatorConnected (gamePin : string) : M bool :=
  RLock;;;
  w <- get;;
  let found :=
    existsb
      (fun client =>
         EqualFold (Client_gamePin client) gamePin && (Client_playerID client =? 0)%N)
      (Hub_clients (hub w)) in
  RUnlock;;;
  ret found.

(** [GameService.GetPlayerByID]: [First(&player, playerID)]. *)
Definition GetPlayerByID (playerID : N) : M (option Player) :=
  w <- get;;
  ret (List.find (fun p => (Player_ID p =? playerID)%N) (db_players (db w))).

(** [gorm.ErrRecordNotFound]. *)
Definition ErrRecordNotFound : error := "record not found".

(** [GameService.GetCurrentGameState]: the cached snapshot with the
    players read afresh from the store, or, without a snapshot, one built
    from the store and cached. *)
Definition GetCurrentGameState (gamePin : string) : M (result GameState) :=
  let normalizedPin := ToLower gamePin in
  cached <- getGameState normalizedPin;;
  match cached with
  | Some gameState =>
      w <- get;;
      let gameState :=
        if (0 <? GameState_GameID gameState)%N then
          set_Players
            (List.map to_GamePlayer (find_players (db w) (GameState_GameID gameState)))
            gameState
        else gameState in
      ret (Ok gameState)
  | None =>
      found <- GetGameByPin normalizedPin;;
      match found with
      | None => ret (Err ErrRecordNotFound)
      | Some game =>
          let gamePlayers := List.map to_GamePlayer (Game_Players game) in
          let newGameState :=
            mkGameState (Game_ID game) (Game_QuizID game) normalizedPin (Game_Status game)
              None (-1) gamePlayers [] (len (Quiz_Questions (Game_Quiz game))) in
          storeGameState normalizedPin newGameState;;;
          ret (Ok newGameState)
      end
  end.

(** [%d] of [fmt] for a [uint]. *)
Definition fmt_d (n : N) : string := NilZero.string_of_uint (N.to_uint n).

(** [validatePlayerAccess] of the websocket route: the id is that of a
    participant of the session, or the user id of the owner of its quiz. *)
Definition validatePlayerAccess (gamePin : string) (playerID : N) : M (option error) :=
  let gamePin := ToLower gamePin in
  found <- GetGameByPin gamePin;;
  match found with
  | None => ret (Some ("game not found: " ++ ErrRecordNotFound))
  | Some game =>
      if existsb (fun player => (Player_ID player =? playerID)%N) (Game_Players game)
      then ret None
      else if (Quiz_UserID (Game_Quiz game) =? playerID)%N then ret None
      else ret (Some ("player " ++ fmt_d playerID ++ " not found in game " ++ gamePin))
  end.

(** ** Observations on a world *)

(** What is queued for the client behind [ptr]. *)
Definition inbox (ptr : N) (w : World) : list Message :=
  match List.find (fun c => (Client_ptr c =? ptr)%N) (Hub_clients (hub w)) with
  | Some c => Client_send c
  | None => []
  end.

Definition is_question_end (i : Z) (m : Message) : bool :=
  String.eqb (Message_Type m) "question_end"
  && match Message_Payload m with
     | question_end_payload j _ _ _ _ => j =? i
     | _ => false
     end.

Definition is_type (t : string) (m : Message) : bool := String.eqb (Message_Type m) t.

Definition count_msgs (f : Message -> bool) (l : list Message) : nat :=
  length (List.filter f l).

(** The durable status and the cached snapshot of the session with a code. *)
Definition status_of (pin : string) (w : World) : option string :=
  option_map Game_Status (first_game_by_pin (db w) (ToLower pin)).

Definition snapshot_of (pin : string) (w : World) : option GameState :=
  redis w !! redis_key pin.

Definition score_of (playerID : N) (w : World) : option Z :=
  option_map Player_Score
    (List.find (fun p => (Player_ID p =? playerID)%N) (db_players (db w))).

(** The answer rows of a (session, participant, question) triple. *)
Definition answers_of (gameID playerID questionID : N) (d : DB) : list GameAnswer :=
  List.filter
    (fun a => (GameAnswer_GameID a =? gameID)%N && (GameAnswer_PlayerID a =? playerID)%N
              && (GameAnswer_QuestionID a =? questionID)%N)
    (db_game_answers d).

(** [n] turns of the same computation. *)
Fixpoint times (n : nat) (m : M unit) : M unit :=
  match n with
  | O => ret tt
  | S n' => m;;; times n' m
  end.

(** The world after a message went through the loop of
    [BroadcastToGame]. *)
Definition deliver (gamePin : string) (data : Message) (w : World) : World :=
  set_clients (fst (send_to_game gamePin data (Hub_clients (hub w)))) w.

(** A frame condition: the call relates the world it starts in to the
    world it ends in, whatever its outcome. *)
Definition keeps {A : Type} (R : World -> World -> Prop) (m : M A) : Prop :=
  forall w, R w (world_of (m w)).

(** Only the hub may differ. *)
Definition hub_only (w w' : World) : Prop :=
  db w' = db w /\ redis w' = redis w /\ timers w' = timers w /\ entropy w' = entropy w.

(** No running timer is stopped: the timers before are a prefix of the
    timers after. *)
Definition timers_kept (w w' : World) : Prop := timers w `prefix_of` timers w'.

(** The answer row that [SubmitAnswer] builds. *)
Definition answer_row (gameID playerID : N) (req : SubmitAnswerRequest)
    (question : Question) (option : Option) (points : Z) : GameAnswer :=
  mkGameAnswer 0 gameID playerID (SubmitAnswerRequest_QuestionID req)
    (SubmitAnswerRequest_OptionID req) (Option_IsCorrect option)
    (if SubmitAnswerRequest_TimeSpent req =? 0 then Question_TimeLimit question
     else SubmitAnswerRequest_TimeSpent req)
    points zero_Player.

(** The store and the cache once [SubmitAnswer] has recorded an answer:
    the row is inserted, the participant's score raised in the store and,
    when the session has a snapshot, in the snapshot. *)
Definition answer_recorded (pin : string) (a : GameAnswer) (w : World) : World :=
  let w1 :=
    set_db (add_score (GameAnswer_PlayerID a) (GameAnswer_Points a)
              (create_game_answer a (db w))) w in
  match redis w !! redis_key pin with
  | Some gs =>
      set_redis
        (<[redis_key pin :=
             set_Players
               (add_points (GameAnswer_PlayerID a) (GameAnswer_Points a)
                  (GameState_Players gs)) gs]> (redis w)) w1
  | None => w1
  end.

(** The snapshot of a question and the [question_start] message that
    [StartQuestion] builds from a question of the quiz. *)
Definition question_snapshot (question : Question) : GameQuestion :=
  mkGameQuestion (Question_ID question) (Question_Text question)
    (Question_TimeLimit question)
    (List.map to_GameOption (Question_Options question))
    (Question_TimeLimit question).

Definition question_start_message (questionIndex : Z) (question : Question)
    (total : Z) : Message :=
  mkMessage "question_start"
    (question_start_payload questionIndex
       (mkBroadcastQuestion (Question_ID question) (Question_Text question)
          (Question_TimeLimit question)
          (List.map to_GameOption (Question_Options question)))
       total).

(** The world once [StartQuestion] has opened a question: the snapshot is
    stored and, with a hub, the message broadcast and the timer started. *)
Definition question_started (pin : string) (questionIndex : Z) (question : Question)
    (total : Z) (gs : GameState) (hub : bool) (w : World) : World :=
  let w1 :=
    set_redis
      (<[redis_key pin :=
           set_CurrentQuestion (Some (question_snapshot question))
             (set_CurrentQuestionIndex questionIndex gs)]> (redis w)) w in
  if hub then
    set_timers (timers w ++ [mkTimer (ToLower pin) questionIndex (Question_TimeLimit question)])
      (deliver (ToLower pin) (question_start_message questionIndex question total) w1)
  else w1.

(** The [game_end] message of [NextQuestion] and the world once it has
    finished the session. *)
Definition game_end_message (d : DB) (gameID : N) (total : Z) : Message :=
  mkMessage "game_end"
    (game_end_payload "Quiz completed! Here are the final results:"
       (List.map to_GamePlayer (order_by_score_desc (find_players d gameID))) total).

Definition session_finished (pin : string) (gameID : N) (total : Z) (gs : GameState)
    (hub : bool) (w : World) : World :=
  let d := update_status gameID "finished" (db w) in
  let w1 :=
    set_redis
      (<[redis_key pin :=
           set_CurrentQuestionIndex total
             (set_CurrentQuestion None (set_Status "finished" gs))]> (redis w))
      (set_db d w) in
  if hub then deliver (ToLower pin) (game_end_message d gameID total) w1 else w1.

(** The code that the next call of [generatePin] yields. *)
Definition drawn_pin (w : World) : string :=
  substring 0 6 (hex_EncodeToString (take 3 (entropy w ++ repeat 0%N 3))).

Definition pin_taken (pin : string) (d : DB) : bool :=
  existsb (fun g => String.eqb (Game_Pin g) pin) (db_games d).

(** ** What a participant may not see

    The store with the correctness flag of every option erased, and the
    parts of a world outside the store. Two worlds that agree on both
    differ in the flags only. *)

Definition hide_Option (o : Option) : Option :=
  mkOption (Option_ID o) (Option_QuestionID o) (Option_Text o) false (Option_Order o).

Definition hide_Question (q : Question) : Question :=
  mkQuestion (Question_ID q) (Question_QuizID q) (Question_Text q) (Question_TimeLimit q)
    (Question_Order q) (List.map hide_Option (Question_Options q)).

Definition hide_IsCorrect (d : DB) : DB :=
  mkDB (db_quizzes d) (db_questions d) (List.map hide_Option (db_options d)) (db_games d)
    (db_players d) (db_game_answers d)
    (db_next_game_id d) (db_next_player_id d) (db_next_game_answer_id d).

Definition same_but_IsCorrect (w1 w2 : World) : Prop :=
  hide_IsCorrect (db w1) = hide_IsCorrect (db w2)
  /\ redis w1 = redis w2 /\ hub w1 = hub w2 /\ timers w1 = timers w2.

(** Two runs end alike: same kind of outcome, same returned value, same
    cache (the stored snapshots), same hub (the messages queued for the
    clients) and same timers. *)
Definition ends_alike {A : Type} (o1 o2 : Outcome A) : Prop :=
  match o1, o2 with
  | Ret a1 w1, Ret a2 w2 =>
      a1 = a2 /\ redis w1 = redis w2 /\ hub w1 = hub w2 /\ timers w1 = timers w2
  | Panic w1, Panic w2 | Blocked w1, Blocked w2 =>
      redis w1 = redis w2 /\ hub w1 = hub w2 /\ timers w1 = timers w2
  | _, _ => False
  end.

(** ** The calls that reach the engine

    The methods of the service, a step of a running timer, and the two
    branches of [Hub.Run]. A handler is a sequence of these. *)

Inductive Call : Type :=
| CallStartGame (userID : N) (req : StartGameRequest)
| CallStartQuiz (gamePin : string) (userID : N)
| CallStartQuestion (gamePin : string) (questionIndex : Z) (hub : bool)
| CallNextQuestion (gamePin : string) (hub : bool)
| CallEndQuestion (gamePin : string) (hub : bool) (questionIndex : Z)
| CallJoinGame (req : JoinGameRequest)
| CallSubmitAnswer (gamePin : string) (playerID : N) (req : SubmitAnswerRequest) (hub : bool)
| CallTimerStep (k : nat)
| CallRegister (client : Client)
| CallUnregister (ptr : N).

Definition perform (c : Call) (w : World) : World :=
  match c with
  | CallStartGame userID req => world_of (StartGame userID req w)
  | CallStartQuiz gamePin userID => world_of (StartQuiz gamePin userID w)
  | CallStartQuestion gamePin questionIndex hub =>
      world_of (StartQuestion gamePin questionIndex hub w)
  | CallNextQuestion gamePin hub => world_of (NextQuestion gamePin hub w)
  | CallEndQuestion gamePin hub questionIndex =>
      world_of (EndQuestion gamePin hub questionIndex w)
  | CallJoinGame req => world_of (JoinGame req w)
  | CallSubmitAnswer gamePin playerID req hub =>
      world_of (SubmitAnswer gamePin playerID req hub w)
  | CallTimerStep k => world_of (runQuestionTimer_step k w)
  | CallRegister client => world_of (Hub_Run_register client w)
  | CallUnregister ptr => world_of (Hub_Run_unregister UpdateGameStatus ptr w)
  end.

Definition perform_all (cs : list Call) (w : World) : World :=
  List.fold_left (fun w c => perform c w) cs w.

(** The store only grows: the session found under a code stays the same
    session, and an answer found for a triple stays the answer found. *)
Definition store_grows (w w' : World) : Prop :=
  (forall pin row,
      first_game_by_pin (db w) pin = Some row ->
      exists row', first_game_by_pin (db w') pin = Some row' /\ Game_ID row' = Game_ID row)
  /\ (forall gameID playerID questionID a,
         first_answer (db w) gameID playerID questionID = Some a ->
         first_answer (db w') gameID playerID questionID = Some a).

(** ** A session played through

    User 7 owns quiz 1 with two questions (30 and 20 seconds); the
    entropy source yields the bytes ab c1 23 twice, then 00 00 01. *)

Module Scenario.

Definition options : list Option :=
  [ mkOption 1 1 "Paris" false 1; mkOption 2 1 "Rome" true 2;
    mkOption 3 2 "3" true 1; mkOption 4 2 "4" false 2 ].

Definition questions : list Question :=
  [ mkQuestion 1 1 "Capital of Italy?" 30 1 []; mkQuestion 2 1 "1 + 2?" 20 2 [] ].

Definition initial : World :=
  mkWorld
    (mkDB [mkQuiz 1 7 []] questions options [] [] [] 1 1 1)
    ∅
    (mkHub [] Unlocked true)
    []
    [171; 193; 35; 171; 193; 35; 0; 0; 1]%N.

Definition host : Client := mkClient 100 "client_host" [] "abc123" 7 "host".
Definition alice : Client := mkClient 101 "client_alice" [] "abc123" 1 "alice".
(** A connection that carries the sentinel id 0. *)
Definition creator : Client := mkClient 102 "client_creator" [] "abc123" 0 "creator".

(** The session is created: code abc123, status waiting. *)
Definition created : World := world_of (StartGame 7 (mkStartGameRequest 1) initial).

(** alice joins (participant 1) and connects, as does the host. *)
Definition joined : World :=
  world_of (JoinGame (mkJoinGameRequest "ABC123" "alice") created).
Definition connected : World :=
  world_of ((Hub_Run_register host;;; Hub_Run_register alice) joined).

(** The world [connected] with the correctness flag of every option
    negated. *)
Definition flip_Option (o : Option) : Option :=
  mkOption (Option_ID o) (Option_QuestionID o) (Option_Text o)
    (negb (Option_IsCorrect o)) (Option_Order o).

Definition connected_flipped : World :=
  set_db
    (mkDB (db_quizzes (db connected)) (db_questions (db connected))
       (List.map flip_Option (db_options (db connected))) (db_games (db connected))
       (db_players (db connected)) (db_game_answers (db connected))
       (db_next_game_id (db connected)) (db_next_player_id (db connected))
       (db_next_game_answer_id (db connected)))
    connected.

(** POST /games/abc123/start: question 0 is open and its timer runs. *)
Definition question0 : World :=
  world_of (GameHandler.StartQuiz (Some 7%N) "abc123" connected).

(** POST /games/abc123/next: question 1 is open. *)
Definition question1 : World :=
  world_of (GameHandler.NextQuestion (Some 7%N) "abc123" question0).

(** POST /games/abc123/next once more: the session is finished. *)
Definition finished : World :=
  world_of (GameHandler.NextQuestion (Some 7%N) "abc123" question1).

(** From [question0]: the timer of question 0 runs down and ends the
    question, then a second request to end question 0 arrives. *)
Definition timer0_expired : World :=
  world_of (times 30 (runQuestionTimer_step 0) question0).
Definition ended_twice : World :=
  world_of (EndQuestion "abc123" true 0 timer0_expired).

(** From [question0]: POST /games/abc123/start a second time, which
    starts a second timer for question 0; then both timers run down. *)
Definition started_twice : World :=
  world_of (GameHandler.StartQuiz (Some 7%N) "abc123" question0).
Definition both_timers_expired : World :=
  world_of ((times 30 (runQuestionTimer_step 0);;; times 30 (runQuestionTimer_step 0))
              started_twice).

(** From [question1], that is after the manual advance: the timer of
    question 0 runs on. *)
Definition advanced_then_expired : World :=
  world_of (times 30 (runQuestionTimer_step 0) question1).

(** From [question0]: alice answers the open question. *)
Definition answered_once : World :=
  world_of (SubmitAnswer "abc123" 1 (mkSubmitAnswerRequest 1 1 2 10) true question0).

(** From [question0]: alice answers question 2 of the quiz (index 1),
    which has not been opened yet. *)
Definition answered_unopened : World :=
  world_of (GameHandler.SubmitAnswer "abc123" (mkSubmitAnswerRequest 1 2 3 10) question0).

(** From [question1]: POST /games/abc123/start a second time. *)
Definition restarted : World :=
  world_of (GameHandler.StartQuiz (Some 7%N) "abc123" question1).

(** From [finished]: the owner activates the session again, or asks for
    the next question again. *)
Definition reactivated : World :=
  world_of (GameHandler.StartQuiz (Some 7%N) "abc123" finished).
Definition advanced_again : World :=
  world_of (GameHandler.NextQuestion (Some 7%N) "abc123" finished).

(** From [finished]: the life time of the snapshot ends; a client then
    asks for the state of the session, which rebuilds the snapshot; then
    the owner asks for the next question. *)
Definition expired : World := world_of (expire "abc123" finished).
Definition rebuilt : World := world_of (GetCurrentGameState "abc123" expired).
Definition reopened : World :=
  world_of (GameHandler.NextQuestion (Some 7%N) "abc123" rebuilt).

(** A name that holds the byte 0. *)
Definition nul_name : string := String (ascii_of_N 0) EmptyString.

(** From [joined]: two requests to join under the name carol overlap;
    both have passed the checks before either inserts its row. *)
Definition carol : JoinGameRequest := mkJoinGameRequest "abc123" "carol".
Definition carol_twice : World := world_of (JoinGame_overlapping carol carol joined).

(** From [question0]: two requests of alice with the same answer to the
    open question overlap. *)
Definition answered_twice : World :=
  world_of (SubmitAnswer_overlapping "abc123" 1 (mkSubmitAnswerRequest 1 1 2 10)
              (mkSubmitAnswerRequest 1 1 2 10) true question0).

(** From [question0]: alice answers while the timer of the question is
    between the read and the write of a turn of its loop. *)
Definition answered_during_tick : World :=
  world_of (runQuestionTimer_tick_around_SubmitAnswer (mkTimer "abc123" 0 30) "abc123" 1
              (mkSubmitAnswerRequest 1 1 2 10) true question0).

(** From [question1]: bob joins and answers the open question. *)
Definition bob_answered : World :=
  world_of ((JoinGame (mkJoinGameRequest "abc123" "bob");;;
             SubmitAnswer "abc123" 2 (mkSubmitAnswerRequest 2 2 3 10) true) question1).

(** The world [question0] with a connection of the sentinel id. *)
Definition with_creator : World :=
  world_of (Hub_Run_register creator question0).

(** The connection of the sentinel id goes away. *)
Definition creator_left : World :=
  world_of (Hub_Run_unregister UpdateGameStatus 102 with_creator).

End Scenario.

(** ** Further observations *)

(** The clients of a session, a client with room in its buffer, and a
    client with one more message queued. *)
Definition in_session (gamePin : string) (client : Client) : bool :=
  EqualFold (Client_gamePin client) gamePin.

Definition has_room (client : Client) : bool :=
  (length (Client_send client) <? send_capacity)%nat.

Definition push (data : Message) (client : Client) : Client :=
  mkClient (Client_ptr client) (Client_id client) (Client_send client ++ [data])
    (Client_gamePin client) (Client_playerID client) (Client_playerName client).

(** No buffer holds more than its capacity. *)
Definition buffers_bounded (clients : list Client) : Prop :=
  Forall (fun client => (length (Client_send client) <= send_capacity)%nat) clients.

(** The messages of a question timer: [timer_update] for every second
    from [n - 1] down to 0. *)
Definition timer_update_message (questionIndex timeLeft : Z) : Message :=
  mkMessage "timer_update" (timer_update_payload questionIndex timeLeft).

Fixpoint countdown (questionIndex : Z) (n : nat) : list Message :=
  match n with
  | O => []
  | S n' => timer_update_message questionIndex (Z.of_nat n') :: countdown questionIndex n'
  end.

(** The [question_end] message that [EndQuestion] builds for a question
    of the quiz of a session. *)
Definition question_end_message (d : DB) (row : Game) (questionIndex : Z)
    (question : Question) : Message :=
  mkMessage "question_end"
    (question_end_payload questionIndex question
       (List.find Option_IsCorrect (Question_Options question))
       (List.map to_AnswerResult (find_answers d (Game_ID row) (Question_ID question)))
       (len (Quiz_Questions (Game_Quiz (preload_Quiz d row))))).

(** Messages that went through the loop of [BroadcastToGame] one after
    the other. *)
Definition deliver_all (gamePin : string) (msgs : list Message) (w : World) : World :=
  List.fold_left (fun w data => deliver gamePin data w) msgs w.

(** The cache once a timer has refreshed the time left of the question
    that the snapshot of its session holds. *)
Definition timer_ticked (gamePin : string) (timeLeft : Z) (w : World) : World :=
  match redis w !! redis_key gamePin with
  | Some gs =>
      match GameState_CurrentQuestion gs with
      | Some cq =>
          set_redis
            (<[redis_key gamePin := set_CurrentQuestion (Some (set_TimeLeft timeLeft cq)) gs]>
               (redis w)) w
      | None => w
      end
  | None => w
  end.

(** An invariant of the store that a call keeps. *)
Definition preserves (I : DB -> Prop) (w w' : World) : Prop := I (db w) -> I (db w').

(** Within a session no two participants bear the same name. *)
Definition names_unique (d : DB) : Prop :=
  NoDup (List.map (fun p => (Player_GameID p, Player_Name p)) (db_players d)).

(** The status of every session is one of the three that the engine
    knows. *)
Definition valid_status (status : string) : Prop :=
  status = "waiting" \/ status = "active" \/ status = "finished".

Definition statuses_valid (d : DB) : Prop :=
  Forall (fun g => valid_status (Game_Status g)) (db_games d).

(** No two sessions bear the same code. *)
Definition pins_unique (d : DB) : Prop := NoDup (List.map Game_Pin (db_games d)).

(** The participants' ids are those the sequence has handed out, each
    once. *)
Definition player_ids_unique (d : DB) : Prop :=
  NoDup (List.map Player_ID (db_players d))
  /\ Forall (fun p => (Player_ID p < db_next_player_id d)%N) (db_players d).

(** The calls of the engine but for the unregister branch of [Hub.Run],
    whose service method is not among the sources. *)
Definition service_call (c : Call) : Prop :=
  match c with
  | CallUnregister _ => False
  | _ => True
  end.

(** The players of the snapshot of a session are the participants that
    the store holds for the session, each with its id, its name and its
    score; the order apart. *)
Definition players_in_step (pin : string) (w : World) : Prop :=
  exists row gs,
    first_game_by_pin (db w) (ToLower pin) = Some row
    /\ snapshot_of pin w = Some gs
    /\ Permutation (GameState_Players gs)
         (List.map (fun p => mkGamePlayer (Player_ID p) (Player_Name p) (Player_Score p))
            (find_players (db w) (Game_ID row))).

(** No question of the store has the time limit 0. *)
Definition time_limits_set (d : DB) : Prop :=
  Forall (fun q => Question_TimeLimit q <> 0) (db_questions d).

(** Text of ASCII characters only, as the codes of sessions are. *)
Definition ascii_only (s : string) : Prop :=
  Forall (fun c => (N_of_ascii c < 128)%N) (list_ascii_of_string s).

(** The score of the participant with an id stays a 64-bit integer when
    points are added. *)
Definition sum_fits (playerID : N) (points : Z) (d : DB) : Prop :=
  Forall (fun p => Player_ID p = playerID -> int_min <= Player_Score p + points <= int_max)
    (db_players d).

(** The row that [add_score] makes of a row of the participants. *)
Definition bump (playerID : N) (points : Z) (p : Player) : Player :=
  if (Player_ID p =? playerID)%N
  then mkPlayer (Player_ID p) (Player_GameID p) (Player_Name p) (Player_Score p + points)
  else p.

(** A leaderboard in descending order of score. *)
Definition by_score_desc (p q : Player) : Prop := Player_Score q <= Player_Score p.

(** The digits of [hex.EncodeToString]. *)
Definition is_hex_digit (c : ascii) : bool :=
  existsb (Ascii.eqb c) (list_ascii_of_string "0123456789abcdef").

(** ** The quiz service of [quiz_service.go]

    [CreateQuiz] and [GetQuizByID]. The tables of quizzes, questions and
    options are those of [DB]; their sequences are kept beside it. A
    transaction works on a copy of the tables; [Rollback] drops the copy,
    but the values it took from the sequences stay taken. Of the columns
    of a quiz the title and the description are not among those modelled;
    errors of the store itself are not modelled. *)

Module QuizService.

Record CreateOptionRequest := mkCreateOptionRequest {
  CreateOptionRequest_Text : string;
  CreateOptionRequest_IsCorrect : bool;
  CreateOptionRequest_Order : Z
}.

Record CreateQuestionRequest := mkCreateQuestionRequest {
  CreateQuestionRequest_Text : string;
  CreateQuestionRequest_TimeLimit : Z;
  CreateQuestionRequest_Order : Z;
  CreateQuestionRequest_Options : list CreateOptionRequest
}.

Record CreateQuizRequest := mkCreateQuizRequest {
  CreateQuizRequest_Title : string;
  CreateQuizRequest_Description : string;
  CreateQuizRequest_Questions : list CreateQuestionRequest
}.

Record Store := mkStore {
  tables : DB;
  next_quiz_id : N;
  next_question_id : N;
  next_option_id : N
}.

(** [tx.Create(&quiz)]. *)
Definition create_quiz (userID : N) (tx : Store) : Quiz * Store :=
  let d := tables tx in
  let quiz := mkQuiz (next_quiz_id tx) userID [] in
  (quiz,
   mkStore
     (mkDB (db_quizzes d ++ [quiz]) (db_questions d) (db_options d) (db_games d)
        (db_players d) (db_game_answers d)
        (db_next_game_id d) (db_next_player_id d) (db_next_game_answer_id d))
     (next_quiz_id tx + 1)%N (next_question_id tx) (next_option_id tx)).

(** [tx.Create(&question)]; the column [time_limit] carries
    [default:30], which gorm writes in place of a zero value. *)
Definition create_question (quizID : N) (text : string) (timeLimit order : Z) (tx : Store)
  : Question * Store :=
  let d := tables tx in
  let question :=
    mkQuestion (next_question_id tx) quizID text (if timeLimit =? 0 then 30 else timeLimit)
      order [] in
  (question,
   mkStore
     (mkDB (db_quizzes d) (db_questions d ++ [question]) (db_options d) (db_games d)
        (db_players d) (db_game_answers d)
        (db_next_game_id d) (db_next_player_id d) (db_next_game_answer_id d))
     (next_quiz_id tx) (next_question_id tx + 1)%N (next_option_id tx)).

(** [tx.Create(&option)]. *)
Definition create_option (questionID : N) (text : string) (isCorrect : bool) (order : Z)
    (tx : Store) : Store :=
  let d := tables tx in
  let option := mkOption (next_option_id tx) questionID text isCorrect order in
  mkStore
    (mkDB (db_quizzes d) (db_questions d) (db_options d ++ [option]) (db_games d)
       (db_players d) (db_game_answers d)
       (db_next_game_id d) (db_next_player_id d) (db_next_game_answer_id d))
    (next_quiz_id tx) (next_question_id tx) (next_option_id tx + 1)%N.

(** [Order("questions.order")] and [Order("options.order")]: ascending,
    ties in table order. *)
Fixpoint insert_by {A : Type} (key : A -> Z) (x : A) (sorted : list A) : list A :=
  match sorted with
  | [] => [x]
  | y :: rest => if key x <? key y then x :: y :: rest else y :: insert_by key x rest
  end.

Definition order_by {A : Type} (key : A -> Z) (rows : list A) : list A :=
  List.fold_left (fun sorted x => insert_by key x sorted) rows [].

(** The loop that counts the correct options of a question; the counter
    is at most the length of the slice. *)
Definition correctCount (options : list CreateOptionRequest) : Z :=
  List.fold_left
    (fun correctCount optReq =>
       if CreateOptionRequest_IsCorrect optReq then correctCount + 1 else correctCount)
    options 0.

(** The loop that creates the options of a question. *)
Definition create_options (questionID : N) (options : list CreateOptionRequest) (tx : Store)
  : Store :=
  List.fold_left
    (fun tx optReq =>
       create_option questionID (CreateOptionRequest_Text optReq)
         (CreateOptionRequest_IsCorrect optReq) (CreateOptionRequest_Order optReq) tx)
    options tx.

(** The loop over [req.Questions]: the error that ends it, if any, and
    the transaction as it stands then. *)
Fixpoint create_questions (quizID : N) (questions : list CreateQuestionRequest) (tx : Store)
  : option error * Store :=
  match questions with
  | [] => (None, tx)
  | qReq :: rest =>
      let '(question, tx) :=
        create_question quizID (CreateQuestionRequest_Text qReq)
          (CreateQuestionRequest_TimeLimit qReq) (CreateQuestionRequest_Order qReq) tx in
      if negb (correctCount (CreateQuestionRequest_Options qReq) =? 1) then
        (Some "each question must have exactly one correct answer", tx)
      else
        create_questions quizID rest
          (create_options (Question_ID question) (CreateQuestionRequest_Options qReq) tx)
  end.

Definition GetQuizByID (quizID userID : N) (s : Store) : result Quiz :=
  match first_quiz_of_user (tables s) quizID userID with
  | None => Err ErrRecordNotFound
  | Some row =>
      Ok (mkQuiz (Quiz_ID row) (Quiz_UserID row)
            (List.map
               (fun q =>
                  mkQuestion (Question_ID q) (Question_QuizID q) (Question_Text q)
                    (Question_TimeLimit q) (Question_Order q)
                    (order_by Option_Order
                       (List.filter (fun o => (Option_QuestionID o =? Question_ID q)%N)
                          (db_options (tables s)))))
               (order_by Question_Order
                  (List.filter (fun q => (Question_QuizID q =? Quiz_ID row)%N)
                     (db_questions (tables s))))))
  end.

(** [CreateQuiz]: the result and the store afterwards. On the error the
    transaction is rolled back: the tables are those before the call. *)
Definition CreateQuiz (userID : N) (req : CreateQuizRequest) (s : Store)
  : result Quiz * Store :=
  let '(quiz, tx) := create_quiz userID s in
  match create_questions (Quiz_ID quiz) (CreateQuizRequest_Questions req) tx with
  | (Some err, tx) =>
      (Err err, mkStore (tables s) (next_quiz_id tx) (next_question_id tx) (next_option_id tx))
  | (None, tx) => (GetQuizByID (Quiz_ID quiz) userID tx, tx)
  end.






End QuizService.

(** ** Worlds at the edges

    A store whose only question has the time limit 0, a row that
    [CreateQuiz] does not write, with its session created, joined by alice
    and started; and a store of quizzes with two requests, the second of
    which has a question with two correct options. *)

Module Edge.

Definition unopened : World :=
  mkWorld
    (mkDB [mkQuiz 1 7 []] [mkQuestion 1 1 "Ready?" 0 1 []]
       [mkOption 1 1 "yes" true 1; mkOption 2 1 "no" false 2] [] [] [] 1 1 1)
    ∅
    (mkHub [] Unlocked true)
    []
    [171; 193; 35]%N.

Definition opened : World :=
  world_of
    ((StartGame 7 (mkStartGameRequest 1);;;
      JoinGame (mkJoinGameRequest "abc123" "alice");;;
      Hub_Run_register Scenario.alice;;;
      GameHandler.StartQuiz (Some 7%N) "abc123") unopened).

Definition store : QuizService.Store :=
  QuizService.mkStore (db Scenario.initial) 2 3 5.





(** A request whose question comes without a time limit, the world whose
    store is the one that [CreateQuiz] leaves for it, and the calls that
    create a session for the new quiz, let alice join and start it. *)
Definition timeless : QuizService.CreateQuizRequest :=
  QuizService.mkCreateQuizRequest "Timeless" ""
    [ QuizService.mkCreateQuestionRequest "Ready?" 0 1
        [ QuizService.mkCreateOptionRequest "yes" true 1;
          QuizService.mkCreateOptionRequest "no" false 2 ] ].

Definition timeless_created : World :=
  mkWorld (QuizService.tables (snd (QuizService.CreateQuiz 7 timeless store)))
    ∅ (mkHub [] Unlocked true) [] [171; 193; 35]%N.

Definition timeless_calls : list Call :=
  [ CallStartGame 7 (mkStartGameRequest 2);
    CallJoinGame (mkJoinGameRequest "abc123" "alice");
    CallStartQuiz "abc123" 7 ].

End Edge.

(** * Properties *)

(** ** Integers and scoring *)

Lemma wrap_int_small x : int_min <= x <= int_max -> wrap_int x = x.
Proof.
  unfold wrap_int, int_min, int_max. intros H.
  rewrite Z.mod_small; lia.
Qed.

Lemma float64_of_int_exact x : Z.abs x <= 2 ^ 53 -> float64_of_int x = x.
Proof.
  intros H. unfold float64_of_int.
  destruct (Z.leb_spec (Z.abs x) (2 ^ 53)); [reflexivity | lia].
Qed.

(** Truncated and floored quotients agree once negative values are cut
    off at zero. *)
Lemma max0_quot_div a b : 0 < b -> Z.max 0 (Z.quot a b) = Z.max 0 (a / b).
Proof.
  intros Hb. destruct (Z.le_gt_cases 0 a) as [Ha | Ha].
  - rewrite Z.quot_div_nonneg by lia. reflexivity.
  - assert (Hq : Z.quot a b <= 0).
    { replace a with (- (- a)) by lia. rewrite Z.quot_opp_l by lia.
      pose proof (Z.quot_pos (- a) b). lia. }
    assert (Hd : a / b < 0) by (apply Z.div_lt_upper_bound; lia).
    lia.
Qed.

Lemma quot_abs_le a b : 0 < b -> Z.abs (Z.quot a b) <= Z.abs a.
Proof.
  intros Hb. rewrite <- Z.quot_abs by lia.
  rewrite (Z.abs_eq b) by lia.
  apply Z.quot_le_upper_bound; [lia |].
  pose proof (Z.abs_nonneg a). nia.
Qed.

(** An incorrect answer earns nothing, whatever the times. *)
Lemma calculatePoints_incorrect timeSpent timeLimit :
  calculatePoints timeSpent timeLimit false = Some 0.
Proof. reflexivity. Qed.

(** On times of ordinary size the code computes the documented formula. *)
Lemma calculatePoints_formula timeSpent timeLimit :
  0 < timeLimit < 2 ^ 31 -> - 2 ^ 31 <= timeSpent < 2 ^ 31 ->
  calculatePoints timeSpent timeLimit true
  = Some (100 + Z.max 0 (50 * (timeLimit - timeSpent) / timeLimit)).
Proof.
  intros Hl Hs. unfold calculatePoints. cbn [negb].
  destruct (Z.eqb_spec timeLimit 0) as [-> | _]; [lia |].
  unfold int_div, int_of_float64, math_Max.
  rewrite (wrap_int_small (timeLimit - timeSpent)) by (unfold int_min, int_max; lia).
  set (x := 50 * (timeLimit - timeSpent)).
  assert (Hx : Z.abs x <= 50 * 2 ^ 32) by (subst x; lia).
  rewrite (wrap_int_small x) by (unfold int_min, int_max; lia).
  pose proof (quot_abs_le x timeLimit ltac:(lia)) as Hq.
  rewrite (wrap_int_small (Z.quot x timeLimit)) by (unfold int_min, int_max; lia).
  rewrite float64_of_int_exact by lia.
  rewrite (wrap_int_small (Z.max 0 _)) by (unfold int_min, int_max; lia).
  rewrite wrap_int_small by (unfold int_min, int_max; lia).
  rewrite max0_quot_div by lia. reflexivity.
Qed.

(** With a time spent that is not negative the award of a correct answer
    lies between 100 and 150. *)
Lemma calculatePoints_range timeSpent timeLimit points :
  0 < timeLimit < 2 ^ 31 -> 0 <= timeSpent < 2 ^ 31 ->
  calculatePoints timeSpent timeLimit true = Some points ->
  100 <= points <= 150.
Proof.
  intros Hl Hs. rewrite calculatePoints_formula by lia.
  intros [= <-].
  assert (50 * (timeLimit - timeSpent) / timeLimit <= 50).
  { apply Z.div_le_upper_bound; lia. }
  lia.
Qed.

(** A time spent beyond the limit earns the base points: the bonus is cut
    off at zero. *)
Lemma calculatePoints_overtime timeSpent timeLimit :
  0 < timeLimit < 2 ^ 31 -> timeLimit <= timeSpent < 2 ^ 31 ->
  calculatePoints timeSpent timeLimit true = Some 100.
Proof.
  intros Hl Hs. rewrite calculatePoints_formula by lia.
  assert (50 * (timeLimit - timeSpent) / timeLimit <= 0).
  { apply Z.div_le_upper_bound; lia. }
  f_equal. lia.
Qed.

(** A time spent equal to the limit, which is what a missing or zero
    [time_spent] is replaced by, earns exactly the base points. *)
Lemma calculatePoints_full_time timeLimit :
  0 < timeLimit < 2 ^ 31 -> calculatePoints timeLimit timeLimit true = Some 100.
Proof.
  intros Hl. rewrite calculatePoints_formula by lia.
  replace (timeLimit - timeLimit) with 0 by lia. reflexivity.
Qed.

(** [C1]: the award of a correct answer is meant to lie in [100, 150]
    ("up to 50 bonus points"), yet [calculatePoints] cuts the bonus off
    only from below: the time spent is never clamped at zero, and a
    correct answer reported with [time_spent = -30] on a 30 second
    question is awarded 200 points. *)
Theorem calculatePoints_negative_time_spent :
  calculatePoints (-30) 30 true = Some 200
  /\ score_of 1
       (world_of
          (GameHandler.SubmitAnswer "abc123" (mkSubmitAnswerRequest 1 1 2 (-30))
             Scenario.question0))
     = Some 200.
Proof. vm_compute. split; reflexivity. Qed.

(** ** The scenario, checked *)

Example scenario_created :
  status_of "abc123" Scenario.created = Some "waiting"
  /\ option_map GameState_CurrentQuestionIndex (snapshot_of "abc123" Scenario.created)
     = Some (-1).
Proof. vm_compute. split; reflexivity. Qed.

Example scenario_question0 :
  status_of "abc123" Scenario.question0 = Some "active"
  /\ option_map GameState_CurrentQuestionIndex (snapshot_of "abc123" Scenario.question0)
     = Some 0
  /\ timers Scenario.question0 = [mkTimer "abc123" 0 30]
  /\ List.map Message_Type (inbox 101 Scenario.question0) = ["question_start"].
Proof. vm_compute. repeat split; reflexivity. Qed.

Example scenario_finished :
  status_of "abc123" Scenario.finished = Some "finished"
  /\ option_map GameState_CurrentQuestionIndex (snapshot_of "abc123" Scenario.finished)
     = Some 2
  /\ List.map Message_Type (inbox 101 Scenario.finished)
     = ["question_start"; "question_start"; "game_end"].
Proof. vm_compute. repeat split; reflexivity. Qed.

(** ** Strings and lookups *)

Lemma lower_ascii_idem c : lower_ascii (lower_ascii c) = lower_ascii c.
Proof. destruct c as [[] [] [] [] [] [] [] []]; reflexivity. Qed.

Lemma ToLower_idem s : ToLower (ToLower s) = ToLower s.
Proof.
  induction s as [| c s IH]; cbn; [reflexivity |].
  now rewrite lower_ascii_idem, IH.
Qed.

Lemma redis_key_ToLower pin : redis_key (ToLower pin) = redis_key pin.
Proof. unfold redis_key. now rewrite ToLower_idem. Qed.

Lemma find_None_iff {A} (f : A -> bool) (l : list A) :
  List.find f l = None <-> (forall x, In x l -> f x = false).
Proof.
  split; [apply List.find_none |].
  induction l as [| a l IH]; intros H; cbn; [reflexivity |].
  rewrite (H a) by (left; reflexivity). apply IH. intros x Hx. apply H. now right.
Qed.

Lemma index_Some_lt {A} (l : list A) i x : index l i = Some x -> 0 <= i < len l.
Proof.
  unfold index, len. destruct (Z.ltb_spec i 0) as [Hneg | Hpos]; [discriminate |].
  intros Hx%lookup_lt_Some. lia.
Qed.

Lemma index_lt_Some {A} (l : list A) i : 0 <= i < len l -> exists x, index l i = Some x.
Proof.
  unfold index, len. intros Hi. destruct (Z.ltb_spec i 0) as [Hneg | Hpos]; [lia |].
  apply lookup_lt_is_Some. lia.
Qed.

(** ** Frame conditions *)

Section Frame.
Context {R : World -> World -> Prop} `{!Reflexive R} `{!Transitive R}.

Lemma keeps_ret {A} (a : A) : keeps R (ret a).
Proof. intros w. cbn. reflexivity. Qed.

Lemma keeps_get : keeps R get.
Proof. intros w. cbn. reflexivity. Qed.

Lemma keeps_panic {A} : keeps R (@panic A).
Proof. intros w. cbn. reflexivity. Qed.

Lemma keeps_modify f : (forall w, R w (f w)) -> keeps R (modify f).
Proof. intros H w. cbn. apply H. Qed.

Lemma keeps_bind {A B} (m : M A) (k : A -> M B) :
  keeps R m -> (forall a, keeps R (k a)) -> keeps R (bind m k).
Proof.
  intros Hm Hk w. unfold bind. specialize (Hm w).
  destruct (m w) as [a w1 | w1 | w1]; cbn in *; [| assumption ..].
  etransitivity; [exact Hm | apply Hk].
Qed.
End Frame.

Lemma keeps_weaken {A} (R R' : World -> World -> Prop) (m : M A) :
  (forall w w', R w w' -> R' w w') -> keeps R m -> keeps R' m.
Proof. intros H Hm w. apply H, Hm. Qed.

#[local] Instance hub_only_refl : Reflexive hub_only.
Proof. intros w. repeat split. Qed.

#[local] Instance hub_only_trans : Transitive hub_only.
Proof. intros w1 w2 w3 (? & ? & ? & ?) (? & ? & ? & ?). repeat split; congruence. Qed.

#[local] Instance timers_kept_refl : Reflexive timers_kept.
Proof. intros w. unfold timers_kept. reflexivity. Qed.

#[local] Instance timers_kept_trans : Transitive timers_kept.
Proof. intros w1 w2 w3. unfold timers_kept. intros. etransitivity; eassumption. Qed.

(** Decomposition of a frame goal along the structure of the computation. *)
Ltac frame_step :=
  lazymatch goal with
  | |- keeps _ (bind _ _) => apply keeps_bind; [| intros ?]
  | |- keeps _ (ret _) => apply keeps_ret
  | |- keeps _ get => apply keeps_get
  | |- keeps _ panic => apply keeps_panic
  | |- keeps _ (match ?x with _ => _ end) => destruct x
  end.

(** ** The hub *)

Lemma Lock_hub_only : keeps hub_only Lock.
Proof. intros w. unfold Lock. destruct (Hub_mutex (hub w)); repeat split. Qed.

Lemma Unlock_hub_only : keeps hub_only Unlock.
Proof. intros w. unfold Unlock. destruct (Hub_mutex (hub w)); repeat split. Qed.

Lemma RLock_hub_only : keeps hub_only RLock.
Proof. intros w. unfold RLock. destruct (Hub_mutex (hub w)); repeat split. Qed.

Lemma RUnlock_hub_only : keeps hub_only RUnlock.
Proof.
  intros w. unfold RUnlock. destruct (Hub_mutex (hub w)) as [| | [n | n |]]; repeat split.
Qed.

Lemma set_clients_hub_only cs : keeps hub_only (modify (set_clients cs)).
Proof. apply keeps_modify. intros w. repeat split. Qed.

Lemma BroadcastToGame_hub_only gamePin messageType payload :
  keeps hub_only (BroadcastToGame gamePin messageType payload).
Proof.
  unfold BroadcastToGame, ListAllClients.
  repeat first [ frame_step | apply RLock_hub_only | apply RUnlock_hub_only
               | apply set_clients_hub_only ].
Qed.

(** With the mutex free a broadcast goes through and is a delivery. *)
Lemma BroadcastToGame_unlocked gamePin messageType payload w :
  Hub_mutex (hub w) = Unlocked ->
  BroadcastToGame gamePin messageType payload w
  = Ret tt (deliver gamePin (mkMessage messageType payload) w).
Proof.
  destruct w as [d r [cs m gs] ts e]. cbn. intros ->.
  unfold BroadcastToGame, deliver, bind, RLock, get, modify, RUnlock, ListAllClients, ret,
    bind, RLock, RUnlock. cbn.
  destruct (send_to_game gamePin _ cs) as [cs' n]. cbn.
  destruct (n <? 3); reflexivity.
Qed.

(** Under the write lock it never gets past [RLock], and nothing is sent. *)
Lemma BroadcastToGame_write_locked gamePin messageType payload w :
  Hub_mutex (hub w) = WriteLocked ->
  BroadcastToGame gamePin messageType payload w = Blocked w.
Proof.
  intros Hm. unfold BroadcastToGame, bind, RLock. now rewrite Hm.
Qed.

(** A registered client of the game whose buffer has room receives the
    message; it stays registered. *)
Lemma find_deliver gamePin data w c :
  List.find (fun c' => (Client_ptr c' =? Client_ptr c)%N) (Hub_clients (hub w)) = Some c ->
  EqualFold (Client_gamePin c) gamePin = true ->
  (length (Client_send c) < send_capacity)%nat ->
  List.find (fun c' => (Client_ptr c' =? Client_ptr c)%N)
    (Hub_clients (hub (deliver gamePin data w)))
  = Some (mkClient (Client_ptr c) (Client_id c) (Client_send c ++ [data])
            (Client_gamePin c) (Client_playerID c) (Client_playerName c)).
Proof.
  unfold deliver. cbn. generalize (Hub_clients (hub w)) as cs.
  induction cs as [| c' cs IH]; cbn; [discriminate |].
  destruct (send_to_game gamePin data cs) as [cs' n] eqn:Hs. cbn in IH.
  destruct (N.eqb_spec (Client_ptr c') (Client_ptr c)) as [Hp | Hp].
  - intros [= ->] Hf Hl. rewrite Hf. unfold enqueue.
    destruct (Nat.ltb_spec (length (Client_send c)) send_capacity); [| lia].
    cbn. rewrite N.eqb_refl. reflexivity.
  - intros Hc Hf Hl. specialize (IH Hc Hf Hl).
    destruct (EqualFold (Client_gamePin c') gamePin).
    + unfold enqueue. destruct (_ <? _)%nat; cbn.
      * destruct (N.eqb_spec (Client_ptr c') (Client_ptr c)); [contradiction | exact IH].
      * exact IH.
    + cbn. destruct (N.eqb_spec (Client_ptr c') (Client_ptr c)); [contradiction | exact IH].
Qed.

Lemma inbox_deliver gamePin data w c :
  List.find (fun c' => (Client_ptr c' =? Client_ptr c)%N) (Hub_clients (hub w)) = Some c ->
  EqualFold (Client_gamePin c) gamePin = true ->
  (length (Client_send c) < send_capacity)%nat ->
  inbox (Client_ptr c) (deliver gamePin data w) = (inbox (Client_ptr c) w ++ [data])%list.
Proof.
  intros Hc Hf Hl. unfold inbox.
  rewrite (find_deliver gamePin data w c Hc Hf Hl), Hc. reflexivity.
Qed.

Lemma count_msgs_app f l1 l2 :
  count_msgs f (l1 ++ l2) = (count_msgs f l1 + count_msgs f l2)%nat.
Proof. unfold count_msgs. now rewrite List.filter_app, length_app. Qed.

(** ** Timers are never stopped *)

Lemma hub_only_timers_kept w w' : hub_only w w' -> timers_kept w w'.
Proof. intros (_ & _ & Ht & _). unfold timers_kept. now rewrite Ht. Qed.

Lemma storeGameState_timers pin gs : keeps timers_kept (storeGameState pin gs).
Proof. intros w. unfold timers_kept. cbn. reflexivity. Qed.

Lemma getGameState_timers pin : keeps timers_kept (getGameState pin).
Proof. intros w. unfold timers_kept. cbn. reflexivity. Qed.

Lemma spawn_timers pin i t : keeps timers_kept (spawn_runQuestionTimer pin i t).
Proof. intros w. cbn. unfold timers_kept. cbn. now apply prefix_app_r. Qed.

Lemma BroadcastToGame_timers pin t p : keeps timers_kept (BroadcastToGame pin t p).
Proof.
  eapply keeps_weaken; [apply hub_only_timers_kept | apply BroadcastToGame_hub_only].
Qed.

Lemma set_db_timers f : keeps timers_kept (modify (fun w => set_db (f (db w)) w)).
Proof. apply keeps_modify. intros w. unfold timers_kept. reflexivity. Qed.

Lemma hub_only_timers {A} (m : M A) : keeps hub_only m -> keeps timers_kept m.
Proof. apply keeps_weaken, hub_only_timers_kept. Qed.

Lemma Create_Player_timers gameID name score :
  keeps timers_kept (Create_Player gameID name score).
Proof.
  intros w. unfold Create_Player, timers_kept. destruct (valid_text name); reflexivity.
Qed.

Lemma Create_GameAnswer_timers a : keeps timers_kept (Create_GameAnswer a).
Proof.
  intros w. unfold Create_GameAnswer, timers_kept. destruct (existsb _ _); reflexivity.
Qed.

Lemma Update_score_timers playerID points :
  keeps timers_kept (Update_score playerID points).
Proof.
  intros w. unfold Update_score, timers_kept. destruct (forallb _ _); reflexivity.
Qed.

Ltac timers_tac :=
  repeat first
    [ frame_step | apply storeGameState_timers | apply getGameState_timers
    | apply spawn_timers | apply BroadcastToGame_timers | apply set_db_timers
    | apply Create_Player_timers | apply Create_GameAnswer_timers
    | apply Update_score_timers
    | apply hub_only_timers;
      first [ apply Lock_hub_only | apply Unlock_hub_only | apply RLock_hub_only
            | apply RUnlock_hub_only | apply set_clients_hub_only ]
    | apply keeps_modify; intros ?; unfold timers_kept; reflexivity ].

Lemma StartQuestion_timers pin i hub : keeps timers_kept (StartQuestion pin i hub).
Proof. unfold StartQuestion. timers_tac. Qed.

Lemma EndQuestion_timers pin i hub : keeps timers_kept (EndQuestion pin hub i).
Proof. unfold EndQuestion. timers_tac. Qed.

Lemma NextQuestion_timers pin hub : keeps timers_kept (NextQuestion pin hub).
Proof. unfold NextQuestion. timers_tac. apply StartQuestion_timers. Qed.

Lemma StartQuiz_timers pin userID : keeps timers_kept (StartQuiz pin userID).
Proof. unfold StartQuiz. timers_tac. Qed.

Lemma SubmitAnswer_timers pin playerID req h :
  keeps timers_kept (SubmitAnswer pin playerID req h).
Proof.
  unfold SubmitAnswer, SubmitAnswer_reads, SubmitAnswer_writes, GetGameByPin. timers_tac.
Qed.

Lemma UpdateGameStatus_timers pin status : keeps timers_kept (UpdateGameStatus pin status).
Proof. unfold UpdateGameStatus. timers_tac. Qed.

Lemma Hub_Run_register_timers client : keeps timers_kept (Hub_Run_register client).
Proof. unfold Hub_Run_register. timers_tac. Qed.

Lemma Hub_Run_unregister_timers ptr :
  keeps timers_kept (Hub_Run_unregister UpdateGameStatus ptr).
Proof. unfold Hub_Run_unregister. timers_tac. apply UpdateGameStatus_timers. Qed.

Lemma JoinGame_timers req : keeps timers_kept (JoinGame req).
Proof. unfold JoinGame, JoinGame_checks, JoinGame_creates. timers_tac. Qed.

Lemma StartGame_timers userID req : keeps timers_kept (StartGame userID req).
Proof.
  intros w. unfold timers_kept, StartGame, bind, get, ret, modify, generatePin, rand_Read,
    storeGameState. cbn.
  destruct (first_quiz_of_user _ _ _); [| reflexivity]. cbn.
  destruct (create_game _ _ _ _) as [[game d] | e]; reflexivity.
Qed.

(** No call of the service or of the hub stops a timer: a timer leaves the
    list of running timers by its own step only. *)
Lemma perform_timers c w :
  (forall k, c <> CallTimerStep k) -> timers_kept w (perform c w).
Proof.
  intros Hc. destruct c; cbn [perform].
  - apply StartGame_timers.
  - apply StartQuiz_timers.
  - apply StartQuestion_timers.
  - apply NextQuestion_timers.
  - apply EndQuestion_timers.
  - apply JoinGame_timers.
  - apply SubmitAnswer_timers.
  - now destruct (Hc k).
  - apply Hub_Run_register_timers.
  - apply Hub_Run_unregister_timers.
Qed.

(** ** Ending a question *)

(** What [EndQuestion] does for a question of the quiz when the hub is
    free: it reads, and broadcasts [question_end]. *)
Lemma EndQuestion_unlocked w pin i row question :
  Hub_mutex (hub w) = Unlocked ->
  first_game_by_pin (db w) (ToLower pin) = Some row ->
  index (Quiz_Questions (Game_Quiz (preload_Quiz (db w) row))) i = Some question ->
  EndQuestion pin true i w
  = Ret None
      (deliver (ToLower pin)
         (mkMessage "question_end"
            (question_end_payload i question
               (List.find Option_IsCorrect (Question_Options question))
               (List.map to_AnswerResult
                  (find_answers (db w) (Game_ID row) (Question_ID question)))
               (len (Quiz_Questions (Game_Quiz (preload_Quiz (db w) row)))))) w).
Proof.
  intros Hm Hg Hq. unfold EndQuestion, bind, get, ret. cbn -[preload_Quiz]. rewrite Hg.
  pose proof (index_Some_lt _ _ _ Hq) as Hi.
  destruct (Z.geb_spec i (len (Quiz_Questions (Game_Quiz (preload_Quiz (db w) row)))));
    [lia |].
  rewrite Hq. rewrite BroadcastToGame_unlocked by exact Hm. reflexivity.
Qed.

(** The last turn of a timer: whatever the snapshot of the session says,
    the goroutine broadcasts [timer_update] with zero seconds left, leaves
    the list of running timers and ends its question. *)
Lemma runQuestionTimer_expires w k t row question :
  timers w !! k = Some t ->
  Timer_timeLeft t = 1 ->
  Hub_mutex (hub w) = Unlocked ->
  first_game_by_pin (db w) (ToLower (Timer_gamePin t)) = Some row ->
  index (Quiz_Questions (Game_Quiz (preload_Quiz (db w) row))) (Timer_questionIndex t)
  = Some question ->
  exists w1 msg,
    runQuestionTimer_step k w = Ret tt w1
    /\ is_question_end (Timer_questionIndex t) msg = true
    /\ timers w1 = delete k (timers w)
    /\ db w1 = db w
    /\ Hub_clients (hub w1)
       = Hub_clients
           (hub (deliver (ToLower (Timer_gamePin t)) msg
                   (deliver (ToLower (Timer_gamePin t))
                      (mkMessage "timer_update"
                         (timer_update_payload (Timer_questionIndex t) 0)) w))).
Proof.
  intros Hk Ht Hm Hg Hq.
  set (pin := ToLower (Timer_gamePin t)).
  set (tick := mkMessage "timer_update" (timer_update_payload (Timer_questionIndex t) 0)).
  set (msg := mkMessage "question_end"
                (question_end_payload (Timer_questionIndex t) question
                   (List.find Option_IsCorrect (Question_Options question))
                   (List.map to_AnswerResult
                      (find_answers (db w) (Game_ID row) (Question_ID question)))
                   (len (Quiz_Questions (Game_Quiz (preload_Quiz (db w) row)))))).
  assert (Hmsg : is_question_end (Timer_questionIndex t) msg = true).
  { unfold is_question_end, msg. cbn. apply Z.eqb_refl. }
  (* the tick *)
  assert (Htick : exists r,
             runQuestionTimer_tick t w = Ret 0 (deliver pin tick (set_redis r w))).
  { unfold runQuestionTimer_tick, bind, getGameState, storeGameState, ret. rewrite Ht.
    change (wrap_int (1 - 1)) with 0. fold pin.
    destruct (redis w !! redis_key pin) as [gs |];
      [destruct (GameState_CurrentQuestion gs) as [cq |] |].
    - eexists. rewrite BroadcastToGame_unlocked by exact Hm. reflexivity.
    - exists (redis w). rewrite BroadcastToGame_unlocked by exact Hm.
      destruct w; reflexivity.
    - exists (redis w). rewrite BroadcastToGame_unlocked by exact Hm.
      destruct w; reflexivity. }
  destruct Htick as [r Htick].
  unfold runQuestionTimer_step, bind at 1, get. rewrite Hk, Ht. cbn [Z.gtb Z.compare].
  unfold bind at 1. rewrite Htick. cbn [Z.gtb Z.compare].
  unfold bind at 1, modify. fold pin.
  set (w0 := set_timers _ _).
  assert (Hend : EndQuestion pin true (Timer_questionIndex t) w0
                 = Ret None (deliver (ToLower pin) msg w0)).
  { apply (EndQuestion_unlocked w0 pin (Timer_questionIndex t) row question).
    - exact Hm.
    - unfold pin. rewrite ToLower_idem. exact Hg.
    - exact Hq. }
  unfold bind, ret. rewrite Hend.
  eexists. exists msg. split; [reflexivity |]. split; [exact Hmsg |].
  unfold pin. rewrite ToLower_idem. repeat split.
Qed.

(** [C2], as the code has it: [EndQuestion] keeps no record of the
    questions it has ended and changes nothing but the clients' buffers,
    so each call for a question of the quiz broadcasts [question_end]
    again: after two calls a connected client of the session has received
    two. A timer of the question that is down to its last second ends the
    question at its next step, whatever the state of the session is.
    Neither [EndQuestion] nor [NextQuestion], nor any other call of the
    service or the hub, stops a running timer. *)
Theorem EndQuestion_broadcasts_on_every_call w pin i row question c :
  Hub_mutex (hub w) = Unlocked ->
  first_game_by_pin (db w) (ToLower pin) = Some row ->
  index (Quiz_Questions (Game_Quiz (preload_Quiz (db w) row))) i = Some question ->
  List.find (fun c' => (Client_ptr c' =? Client_ptr c)%N) (Hub_clients (hub w)) = Some c ->
  EqualFold (Client_gamePin c) (ToLower pin) = true ->
  (length (Client_send c) + 2 <= send_capacity)%nat ->
  (exists w1 w2,
      EndQuestion pin true i w = Ret None w1
      /\ EndQuestion pin true i w1 = Ret None w2
      /\ hub_only w w2
      /\ count_msgs (is_question_end i) (inbox (Client_ptr c) w1)
         = S (count_msgs (is_question_end i) (inbox (Client_ptr c) w))
      /\ count_msgs (is_question_end i) (inbox (Client_ptr c) w2)
         = S (S (count_msgs (is_question_end i) (inbox (Client_ptr c) w))))
  /\ (forall k t,
         timers w !! k = Some t ->
         Timer_timeLeft t = 1 ->
         ToLower (Timer_gamePin t) = ToLower pin ->
         Timer_questionIndex t = i ->
         exists w1 msg,
           runQuestionTimer_step k w = Ret tt w1
           /\ is_question_end i msg = true
           /\ timers w1 = delete k (timers w)
           /\ Hub_clients (hub w1)
              = Hub_clients
                  (hub (deliver (ToLower pin) msg
                          (deliver (ToLower pin)
                             (mkMessage "timer_update" (timer_update_payload i 0)) w))))
  /\ (forall hub, timers_kept w (world_of (EndQuestion pin hub i w)))
  /\ (forall hub, timers_kept w (world_of (NextQuestion pin hub w)))
  /\ (forall call, (forall k, call <> CallTimerStep k) -> timers_kept w (perform call w)).
Proof.
  intros Hm Hg Hq Hc Hf Hl. split; [| split; [| split; [| split]]].
  - set (msg := mkMessage "question_end"
                  (question_end_payload i question
                     (List.find Option_IsCorrect (Question_Options question))
                     (List.map to_AnswerResult
                        (find_answers (db w) (Game_ID row) (Question_ID question)))
                     (len (Quiz_Questions (Game_Quiz (preload_Quiz (db w) row)))))).
    assert (Hmsg : is_question_end i msg = true).
    { unfold is_question_end, msg. cbn. apply Z.eqb_refl. }
    exists (deliver (ToLower pin) msg w), (deliver (ToLower pin) msg (deliver (ToLower pin) msg w)).
    split; [apply EndQuestion_unlocked; assumption |].
    split; [apply (EndQuestion_unlocked (deliver (ToLower pin) msg w)); assumption |].
    split; [repeat split |].
    pose proof (find_deliver (ToLower pin) msg w c Hc Hf ltac:(lia)) as Hc1.
    pose proof (inbox_deliver (ToLower pin) msg w c Hc Hf ltac:(lia)) as Hi1.
    set (c1 := mkClient (Client_ptr c) (Client_id c) (Client_send c ++ [msg])
                 (Client_gamePin c) (Client_playerID c) (Client_playerName c)) in Hc1.
    assert (Hi2 : inbox (Client_ptr c) (deliver (ToLower pin) msg (deliver (ToLower pin) msg w))
                  = ((inbox (Client_ptr c) w ++ [msg]) ++ [msg])%list).
    { rewrite <- Hi1.
      apply (inbox_deliver (ToLower pin) msg (deliver (ToLower pin) msg w) c1 Hc1 Hf).
      subst c1. cbn [Client_send]. rewrite length_app. cbn [length]. lia. }
    assert (Hone : count_msgs (is_question_end i) [msg] = 1%nat).
    { unfold count_msgs. cbn [List.filter]. now rewrite Hmsg. }
    rewrite Hi2, Hi1, !count_msgs_app, Hone. lia.
  - intros k t Hk Ht Hpin Hidx.
    destruct (runQuestionTimer_expires w k t row question Hk Ht Hm)
      as (w1 & msg & Hrun & Hmsg & Hts & _ & Hcs);
      [rewrite Hpin; exact Hg | rewrite Hidx; exact Hq |].
    rewrite Hpin, Hidx in *. exists w1, msg. repeat split; assumption.
  - intros hub. apply EndQuestion_timers.
  - intros hub. apply NextQuestion_timers.
  - intros call. apply perform_timers.
Qed.

Lemma EndQuestion_broadcasts_on_every_call_witness :
  Hub_mutex (hub Scenario.question0) = Unlocked
  /\ count_msgs (is_question_end 0)
       (inbox 101
          (world_of (EndQuestion "abc123" true 0
                       (world_of (EndQuestion "abc123" true 0 Scenario.question0)))))
     = 2%nat.
Proof.
  split; [reflexivity |].
  destruct (EndQuestion_broadcasts_on_every_call Scenario.question0 "abc123" 0
              (mkGame 1 1 "abc123" "active" zero_Quiz [])
              (mkQuestion 1 1 "Capital of Italy?" 30 1
                 [mkOption 1 1 "Paris" false 1; mkOption 2 1 "Rome" true 2])
              (mkClient 101 "client_alice"
                 [mkMessage "question_start"
                    (question_start_payload 0
                       (mkBroadcastQuestion 1 "Capital of Italy?" 30
                          [mkGameOption 1 "Paris"; mkGameOption 2 "Rome"]) 2)]
                 "abc123" 1 "alice"))
    as [(w1 & w2 & H1 & H2 & _ & _ & H4) _];
    [vm_compute; reflexivity .. | vm_compute; lia |].
  cbn [Client_ptr] in H4.
  rewrite H1. cbn [world_of]. rewrite H2. cbn [world_of]. rewrite H4. reflexivity.
Defined.

(** [C2], refuted as stated: in the scenario the timer of question 0
    reaches zero and ends the question, and a second request to end
    question 0 broadcasts [question_end] for it a second time. Through
    the routes alone: a second POST to the start route starts a second
    timer for question 0, and each of the two timers ends question 0.
    And after the manual advance to question 1 the timer of question 0 is
    still running and, at zero, ends question 0. *)
Lemma question_end_broadcast_twice :
  count_msgs (is_question_end 0) (inbox 101 Scenario.timer0_expired) = 1%nat
  /\ count_msgs (is_question_end 0) (inbox 101 Scenario.ended_twice) = 2%nat
  /\ timers Scenario.started_twice = [mkTimer "abc123" 0 30; mkTimer "abc123" 0 30]
  /\ timers Scenario.both_timers_expired = []
  /\ count_msgs (is_question_end 0) (inbox 101 Scenario.both_timers_expired) = 2%nat
  /\ timers Scenario.question1 = [mkTimer "abc123" 0 30; mkTimer "abc123" 1 20]
  /\ count_msgs (is_question_end 0) (inbox 101 Scenario.question1) = 0%nat
  /\ count_msgs (is_question_end 0) (inbox 101 Scenario.advanced_then_expired) = 1%nat.
Proof. vm_compute. repeat split; reflexivity. Qed.

(** ** Submitting an answer *)

Ltac run_SubmitAnswer :=
  unfold SubmitAnswer, SubmitAnswer_reads, SubmitAnswer_writes, GetGameByPin, bind, get, ret,
    modify, panic, getGameState, storeGameState;
  cbn -[preload_Quiz preload_Players]; rewrite ?ToLower_idem.

Lemma existsb_Player_ID playerID players :
  existsb (fun p => (Player_ID p =? playerID)%N) players = true
  <-> In playerID (List.map Player_ID players).
Proof.
  rewrite existsb_exists, in_map_iff. split.
  - intros (p & Hin & Hp%N.eqb_eq). now exists p.
  - intros (p & Hp & Hin). exists p. split; [exact Hin | now apply N.eqb_eq].
Qed.

(** What the store answers to the insert of an answer and to the update
    of a score. *)
Lemma Create_GameAnswer_accepted a w :
  In (GameAnswer_PlayerID a) (List.map Player_ID (db_players (db w))) ->
  Create_GameAnswer a w = Ret None (set_db (create_game_answer a (db w)) w).
Proof. intros Hin%existsb_Player_ID. unfold Create_GameAnswer. now rewrite Hin. Qed.

Lemma Create_GameAnswer_refused a w :
  ~ In (GameAnswer_PlayerID a) (List.map Player_ID (db_players (db w))) ->
  Create_GameAnswer a w = Ret (Some fk_game_answers_player) w.
Proof.
  intros Hin. unfold Create_GameAnswer.
  destruct (existsb _ _) eqn:He; [| reflexivity].
  now apply existsb_Player_ID in He.
Qed.

Lemma fits_int_spec x : fits_int x = true <-> int_min <= x <= int_max.
Proof. unfold fits_int. rewrite andb_true_iff, !Z.leb_le. reflexivity. Qed.

Lemma forallb_sum_fits playerID points d :
  forallb (fun p => negb (Player_ID p =? playerID)%N || fits_int (Player_Score p + points))
    (db_players d) = true
  <-> sum_fits playerID points d.
Proof.
  unfold sum_fits. rewrite forallb_forall, List.Forall_forall.
  split; intros H p Hin; specialize (H p Hin).
  - intros Hp. apply N.eqb_eq in Hp. rewrite Hp in H. now apply fits_int_spec.
  - destruct (N.eqb_spec (Player_ID p) playerID) as [Hp | Hp]; [| reflexivity].
    cbn. now apply fits_int_spec, H.
Qed.

Lemma Update_score_accepted playerID points w :
  sum_fits playerID points (db w) ->
  Update_score playerID points w = Ret None (set_db (add_score playerID points (db w)) w).
Proof. intros H%forallb_sum_fits. unfold Update_score. now rewrite H. Qed.

Lemma Update_score_refused playerID points w :
  ~ sum_fits playerID points (db w) ->
  Update_score playerID points w = Ret (Some bigint_out_of_range) w.
Proof.
  intros H. unfold Update_score. destruct (forallb _ _) eqn:He; [| reflexivity].
  now apply forallb_sum_fits in He.
Qed.

(** The first part of [SubmitAnswer] changes nothing, and these are its
    results. *)
Lemma SubmitAnswer_reads_same w pin playerID req :
  world_of (SubmitAnswer_reads pin playerID req w) = w.
Proof.
  unfold SubmitAnswer_reads, GetGameByPin, bind, get, ret, panic. cbn.
  destruct (first_game_by_pin _ _) as [game |]; [| reflexivity]. cbn.
  destruct (negb _); [reflexivity |].
  destruct (first_answer _ _ _ _); [reflexivity |].
  destruct (first_question _ _); [| reflexivity].
  destruct (first_option _ _); [| reflexivity].
  destruct (calculatePoints _ _ _); reflexivity.
Qed.

Lemma SubmitAnswer_reads_row w pin playerID req game question option points :
  first_game_by_pin (db w) (ToLower pin) = Some game ->
  Game_Status game = "active" ->
  first_answer (db w) (Game_ID game) playerID (SubmitAnswerRequest_QuestionID req) = None ->
  first_question (db w) (SubmitAnswerRequest_QuestionID req) = Some question ->
  first_option (db w) (SubmitAnswerRequest_OptionID req) = Some option ->
  calculatePoints
    (if SubmitAnswerRequest_TimeSpent req =? 0 then Question_TimeLimit question
     else SubmitAnswerRequest_TimeSpent req)
    (Question_TimeLimit question) (Option_IsCorrect option) = Some points ->
  SubmitAnswer_reads pin playerID req w
  = Ret (Ok (preload_Players (db w) (preload_Quiz (db w) game),
             answer_row (Game_ID game) playerID req question option points)) w.
Proof.
  intros Hg Ha Hnone Hq Ho Hp.
  unfold SubmitAnswer_reads, GetGameByPin, bind, get, ret.
  cbn -[preload_Quiz preload_Players]. rewrite ?ToLower_idem, Hg. cbn.
  rewrite Ha. cbn. rewrite Hnone, Hq, Ho, Hp. reflexivity.
Qed.

(** The second part, when the store accepts both statements. *)
Lemma SubmitAnswer_writes_recorded w pin game a h :
  In (GameAnswer_PlayerID a) (List.map Player_ID (db_players (db w))) ->
  sum_fits (GameAnswer_PlayerID a) (GameAnswer_Points a) (db w) ->
  let w1 := answer_recorded pin a w in
  SubmitAnswer_writes pin (GameAnswer_PlayerID a) game a h w
  = if h then
      bind (BroadcastToGame (ToLower pin) "score_update"
              (score_update_payload (find_players (db w1) (Game_ID game))
                 (GameAnswer_PlayerID a) (GameAnswer_Points a) true))
        (fun _ => ret None) w1
    else Ret None w1.
Proof.
  intros Hin Hfit w1. subst w1. unfold SubmitAnswer_writes.
  unfold bind at 1. rewrite Create_GameAnswer_accepted by exact Hin.
  unfold bind at 1. rewrite Update_score_accepted by exact Hfit.
  unfold answer_recorded, bind, get, ret, getGameState, storeGameState. cbn.
  rewrite redis_key_ToLower.
  destruct (redis w !! redis_key pin) as [gs |]; cbn; destruct h; reflexivity.
Qed.

Lemma SubmitAnswer_game_not_found w pin playerID req h :
  first_game_by_pin (db w) (ToLower pin) = None ->
  SubmitAnswer pin playerID req h w = Ret (Some "game not found") w.
Proof. intros Hg. run_SubmitAnswer. rewrite Hg. reflexivity. Qed.

Lemma SubmitAnswer_not_active w pin playerID req h game :
  first_game_by_pin (db w) (ToLower pin) = Some game ->
  Game_Status game <> "active" ->
  SubmitAnswer pin playerID req h w = Ret (Some "game is not active") w.
Proof.
  intros Hg Ha. run_SubmitAnswer. rewrite Hg. cbn.
  destruct (String.eqb_spec (Game_Status game) "active"); [contradiction | reflexivity].
Qed.

Lemma SubmitAnswer_duplicate w pin playerID req h game a :
  first_game_by_pin (db w) (ToLower pin) = Some game ->
  Game_Status game = "active" ->
  first_answer (db w) (Game_ID game) playerID (SubmitAnswerRequest_QuestionID req) = Some a ->
  SubmitAnswer pin playerID req h w = Ret (Some "answer already submitted") w.
Proof.
  intros Hg Ha Hdup. run_SubmitAnswer. rewrite Hg. cbn. rewrite Ha. cbn. rewrite Hdup.
  reflexivity.
Qed.

Lemma SubmitAnswer_recorded w pin playerID req h game question option points :
  first_game_by_pin (db w) (ToLower pin) = Some game ->
  Game_Status game = "active" ->
  first_answer (db w) (Game_ID game) playerID (SubmitAnswerRequest_QuestionID req) = None ->
  first_question (db w) (SubmitAnswerRequest_QuestionID req) = Some question ->
  first_option (db w) (SubmitAnswerRequest_OptionID req) = Some option ->
  calculatePoints
    (if SubmitAnswerRequest_TimeSpent req =? 0 then Question_TimeLimit question
     else SubmitAnswerRequest_TimeSpent req)
    (Question_TimeLimit question) (Option_IsCorrect option) = Some points ->
  In playerID (List.map Player_ID (db_players (db w))) ->
  sum_fits playerID points (db w) ->
  let w1 := answer_recorded pin (answer_row (Game_ID game) playerID req question option points) w in
  SubmitAnswer pin playerID req h w
  = if h then
      bind (BroadcastToGame (ToLower pin) "score_update"
              (score_update_payload (find_players (db w1) (Game_ID game)) playerID points
                 true))
        (fun _ => ret None) w1
    else Ret None w1.
Proof.
  intros Hg Ha Hnone Hq Ho Hp Hin Hfit w1. subst w1. unfold SubmitAnswer, bind at 1.
  rewrite (SubmitAnswer_reads_row w pin playerID req game question option points)
    by assumption.
  apply (SubmitAnswer_writes_recorded w pin
           (preload_Players (db w) (preload_Quiz (db w) game))
           (answer_row (Game_ID game) playerID req question option points) h);
    assumption.
Qed.

(** A row that names no participant is refused by the store, and
    [SubmitAnswer] returns the store's error; so is a score that leaves
    the range of its column, the answer row then being in the table. *)
Lemma SubmitAnswer_no_participant w pin playerID req h game question option points :
  first_game_by_pin (db w) (ToLower pin) = Some game ->
  Game_Status game = "active" ->
  first_answer (db w) (Game_ID game) playerID (SubmitAnswerRequest_QuestionID req) = None ->
  first_question (db w) (SubmitAnswerRequest_QuestionID req) = Some question ->
  first_option (db w) (SubmitAnswerRequest_OptionID req) = Some option ->
  calculatePoints
    (if SubmitAnswerRequest_TimeSpent req =? 0 then Question_TimeLimit question
     else SubmitAnswerRequest_TimeSpent req)
    (Question_TimeLimit question) (Option_IsCorrect option) = Some points ->
  ~ In playerID (List.map Player_ID (db_players (db w))) ->
  SubmitAnswer pin playerID req h w = Ret (Some fk_game_answers_player) w.
Proof.
  intros Hg Ha Hnone Hq Ho Hp Hin. unfold SubmitAnswer, bind at 1.
  rewrite (SubmitAnswer_reads_row w pin playerID req game question option points)
    by assumption.
  unfold SubmitAnswer_writes, bind at 1.
  rewrite Create_GameAnswer_refused by exact Hin. reflexivity.
Qed.

Lemma SubmitAnswer_out_of_range w pin playerID req h game question option points :
  first_game_by_pin (db w) (ToLower pin) = Some game ->
  Game_Status game = "active" ->
  first_answer (db w) (Game_ID game) playerID (SubmitAnswerRequest_QuestionID req) = None ->
  first_question (db w) (SubmitAnswerRequest_QuestionID req) = Some question ->
  first_option (db w) (SubmitAnswerRequest_OptionID req) = Some option ->
  calculatePoints
    (if SubmitAnswerRequest_TimeSpent req =? 0 then Question_TimeLimit question
     else SubmitAnswerRequest_TimeSpent req)
    (Question_TimeLimit question) (Option_IsCorrect option) = Some points ->
  In playerID (List.map Player_ID (db_players (db w))) ->
  ~ sum_fits playerID points (db w) ->
  SubmitAnswer pin playerID req h w
  = Ret (Some bigint_out_of_range)
      (set_db
         (create_game_answer (answer_row (Game_ID game) playerID req question option points)
            (db w)) w).
Proof.
  intros Hg Ha Hnone Hq Ho Hp Hin Hfit. unfold SubmitAnswer, bind at 1.
  rewrite (SubmitAnswer_reads_row w pin playerID req game question option points)
    by assumption.
  unfold SubmitAnswer_writes, bind at 1.
  rewrite Create_GameAnswer_accepted by exact Hin.
  unfold bind at 1. rewrite Update_score_refused by exact Hfit. reflexivity.
Qed.

Lemma classic_In (playerID : N) (ids : list N) : In playerID ids \/ ~ In playerID ids.
Proof. destruct (in_dec N.eq_dec playerID ids); [now left | now right]. Qed.

Lemma sum_fits_dec playerID points d :
  sum_fits playerID points d \/ ~ sum_fits playerID points d.
Proof.
  destruct (forallb (fun p => negb (Player_ID p =? playerID)%N
                             || fits_int (Player_Score p + points)) (db_players d)) eqn:He.
  - left. now apply forallb_sum_fits.
  - right. intros H%forallb_sum_fits. congruence.
Qed.

(** The only way to success. *)
Lemma SubmitAnswer_success_inv w pin playerID req h w1 :
  SubmitAnswer pin playerID req h w = Ret None w1 ->
  exists game question option points,
    first_game_by_pin (db w) (ToLower pin) = Some game
    /\ Game_Status game = "active"
    /\ first_answer (db w) (Game_ID game) playerID (SubmitAnswerRequest_QuestionID req) = None
    /\ first_question (db w) (SubmitAnswerRequest_QuestionID req) = Some question
    /\ first_option (db w) (SubmitAnswerRequest_OptionID req) = Some option
    /\ calculatePoints
         (if SubmitAnswerRequest_TimeSpent req =? 0 then Question_TimeLimit question
          else SubmitAnswerRequest_TimeSpent req)
         (Question_TimeLimit question) (Option_IsCorrect option) = Some points
    /\ hub_only
         (answer_recorded pin (answer_row (Game_ID game) playerID req question option points) w)
         w1.
Proof.
  intros Hrun.
  destruct (first_game_by_pin (db w) (ToLower pin)) as [game |] eqn:Hg;
    [| rewrite SubmitAnswer_game_not_found in Hrun by assumption; discriminate].
  destruct (String.eqb_spec (Game_Status game) "active") as [Ha | Ha];
    [| rewrite (SubmitAnswer_not_active _ _ _ _ _ game) in Hrun by assumption; discriminate].
  destruct (first_answer (db w) (Game_ID game) playerID (SubmitAnswerRequest_QuestionID req))
    as [a |] eqn:Hnone;
    [rewrite (SubmitAnswer_duplicate _ _ _ _ _ game a) in Hrun by assumption; discriminate |].
  destruct (first_question (db w) (SubmitAnswerRequest_QuestionID req)) as [question |] eqn:Hq;
    [| revert Hrun; run_SubmitAnswer; rewrite Hg; cbn; rewrite Ha; cbn; rewrite Hnone, Hq;
       discriminate].
  destruct (first_option (db w) (SubmitAnswerRequest_OptionID req)) as [option |] eqn:Ho;
    [| revert Hrun; run_SubmitAnswer; rewrite Hg; cbn; rewrite Ha; cbn; rewrite Hnone, Hq, Ho;
       discriminate].
  destruct (calculatePoints
              (if SubmitAnswerRequest_TimeSpent req =? 0 then Question_TimeLimit question
               else SubmitAnswerRequest_TimeSpent req)
              (Question_TimeLimit question) (Option_IsCorrect option)) as [points |] eqn:Hp;
    [| revert Hrun; run_SubmitAnswer; rewrite Hg; cbn; rewrite Ha; cbn;
       rewrite Hnone, Hq, Ho, Hp; discriminate].
  destruct (classic_In playerID (List.map Player_ID (db_players (db w)))) as [Hin | Hin];
    [| rewrite (SubmitAnswer_no_participant w pin playerID req h game question option points)
         in Hrun by assumption; discriminate].
  destruct (sum_fits_dec playerID points (db w)) as [Hfit | Hfit];
    [| rewrite (SubmitAnswer_out_of_range w pin playerID req h game question option points)
         in Hrun by assumption; discriminate].
  exists game, question, option, points. repeat (split; [first [assumption | reflexivity] |]).
  rewrite (SubmitAnswer_recorded w pin playerID req h game question option points) in Hrun
    by assumption.
  destruct h.
  - unfold bind in Hrun.
    match type of Hrun with
    | context [BroadcastToGame ?p ?t ?pl ?w0] =>
        pose proof (BroadcastToGame_hub_only p t pl w0) as Hb;
        destruct (BroadcastToGame p t pl w0) as [[] w2 | w2 | w2]; try discriminate
    end.
    cbn in Hrun, Hb. injection Hrun as <-. exact Hb.
  - injection Hrun as <-. reflexivity.
Qed.

Lemma find_app_None {A} (f : A -> bool) (l : list A) (x : A) :
  List.find f l = None -> f x = true -> List.find f (l ++ [x]) = Some x.
Proof.
  intros Hl Hx. induction l as [| a l IH]; cbn in *; [now rewrite Hx |].
  destruct (f a); [discriminate | auto].
Qed.

Lemma filter_find_None {A} (f : A -> bool) (l : list A) :
  List.find f l = None -> List.filter f l = [].
Proof.
  induction l as [| a l IH]; cbn; [reflexivity |].
  destruct (f a); [discriminate | auto].
Qed.

Lemma db_answer_recorded pin a w :
  db (answer_recorded pin a w)
  = add_score (GameAnswer_PlayerID a) (GameAnswer_Points a) (create_game_answer a (db w)).
Proof. unfold answer_recorded. destruct (redis w !! redis_key pin); reflexivity. Qed.

(** The store after a successful [SubmitAnswer]. *)
Lemma SubmitAnswer_success_db w pin playerID req h w1 :
  SubmitAnswer pin playerID req h w = Ret None w1 ->
  exists game question option points,
    first_game_by_pin (db w) (ToLower pin) = Some game
    /\ Game_Status game = "active"
    /\ first_answer (db w) (Game_ID game) playerID (SubmitAnswerRequest_QuestionID req) = None
    /\ db w1 = add_score playerID points
                 (create_game_answer
                    (answer_row (Game_ID game) playerID req question option points) (db w)).
Proof.
  intros (game & question & option & points & Hg & Ha & Hnone & _ & _ & _ & Hw1)
    %SubmitAnswer_success_inv.
  exists game, question, option, points. repeat (split; [assumption |]).
  destruct Hw1 as (Hdb & _). rewrite Hdb. apply db_answer_recorded.
Qed.

(** [C5], as the code has it: the only condition on the session is its
    durable status. A session that is not active refuses the answer with
    "game is not active" and nothing changes. An active session takes an
    answer for any question row of the store that the id has not answered
    in this session: the snapshot, and with it the question that is
    currently open, is not consulted. What is left to refuse the answer is
    the store: an id that is no row of the participants violates the
    foreign key of the answer, [SubmitAnswer] returns the store's error
    and nothing is recorded; a score that would leave the range of its
    column is refused with the answer row already inserted; otherwise the
    answer is recorded and the score raised. *)
Theorem SubmitAnswer_checks_status_only w pin playerID req h game :
  first_game_by_pin (db w) (ToLower pin) = Some game ->
  (Game_Status game <> "active" ->
   SubmitAnswer pin playerID req h w = Ret (Some "game is not active") w)
  /\ (forall question option points,
        Game_Status game = "active" ->
        first_answer (db w) (Game_ID game) playerID (SubmitAnswerRequest_QuestionID req)
        = None ->
        first_question (db w) (SubmitAnswerRequest_QuestionID req) = Some question ->
        first_option (db w) (SubmitAnswerRequest_OptionID req) = Some option ->
        calculatePoints
          (if SubmitAnswerRequest_TimeSpent req =? 0 then Question_TimeLimit question
           else SubmitAnswerRequest_TimeSpent req)
          (Question_TimeLimit question) (Option_IsCorrect option) = Some points ->
        (~ In playerID (List.map Player_ID (db_players (db w))) ->
         SubmitAnswer pin playerID req h w = Ret (Some fk_game_answers_player) w)
        /\ (In playerID (List.map Player_ID (db_players (db w))) ->
            ~ sum_fits playerID points (db w) ->
            SubmitAnswer pin playerID req h w
            = Ret (Some bigint_out_of_range)
                (set_db
                   (create_game_answer
                      (answer_row (Game_ID game) playerID req question option points) (db w))
                   w))
        /\ (In playerID (List.map Player_ID (db_players (db w))) ->
            sum_fits playerID points (db w) ->
            Hub_mutex (hub w) = Unlocked ->
            exists w1,
              SubmitAnswer pin playerID req h w = Ret None w1
              /\ db w1 = add_score playerID points
                           (create_game_answer
                              (answer_row (Game_ID game) playerID req question option points)
                              (db w)))).
Proof.
  intros Hg. split.
  - intros Ha. now apply (SubmitAnswer_not_active w pin playerID req h game).
  - intros question option points Ha Hnone Hq Ho Hp. split; [| split].
    + intros Hin.
      now apply (SubmitAnswer_no_participant w pin playerID req h game question option points).
    + intros Hin Hfit.
      now apply (SubmitAnswer_out_of_range w pin playerID req h game question option points).
    + intros Hin Hfit Hm.
      rewrite (SubmitAnswer_recorded w pin playerID req h game question option points)
        by assumption.
      set (w0 := answer_recorded pin _ w).
      assert (Hm0 : Hub_mutex (hub w0) = Unlocked).
      { subst w0. unfold answer_recorded. destruct (redis w !! redis_key pin); exact Hm. }
      destruct h.
      * unfold bind. rewrite BroadcastToGame_unlocked by exact Hm0.
        eexists. split; [reflexivity |]. cbn. subst w0. apply db_answer_recorded.
      * eexists. split; [reflexivity |]. subst w0. apply db_answer_recorded.
Qed.

Lemma SubmitAnswer_checks_status_only_witness :
  first_game_by_pin (db Scenario.question0) (ToLower "abc123")
  = Some (mkGame 1 1 "abc123" "active" zero_Quiz [])
  /\ exists w1,
       SubmitAnswer "abc123" 1 (mkSubmitAnswerRequest 1 2 3 10) true Scenario.question0
       = Ret None w1
       /\ db w1
          = add_score 1 125
              (create_game_answer
                 (answer_row 1 1 (mkSubmitAnswerRequest 1 2 3 10)
                    (mkQuestion 2 1 "1 + 2?" 20 2 []) (mkOption 3 2 "3" true 1) 125)
                 (db Scenario.question0)).
Proof.
  assert (Hg : first_game_by_pin (db Scenario.question0) (ToLower "abc123")
               = Some (mkGame 1 1 "abc123" "active" zero_Quiz []))
    by (vm_compute; reflexivity).
  split; [exact Hg |].
  destruct (SubmitAnswer_checks_status_only Scenario.question0 "abc123" 1
              (mkSubmitAnswerRequest 1 2 3 10) true _ Hg) as (_ & H).
  destruct (H (mkQuestion 2 1 "1 + 2?" 20 2 []) (mkOption 3 2 "3" true 1) 125
              ltac:(reflexivity) ltac:(vm_compute; reflexivity) ltac:(vm_compute; reflexivity)
              ltac:(vm_compute; reflexivity) ltac:(vm_compute; reflexivity))
    as (_ & _ & H3).
  apply H3.
  - replace (db_players (db Scenario.question0)) with [mkPlayer 1 1 "alice" 0]
      by (vm_compute; reflexivity).
    left. reflexivity.
  - unfold sum_fits.
    replace (db_players (db Scenario.question0)) with [mkPlayer 1 1 "alice" 0]
      by (vm_compute; reflexivity).
    constructor; [intros _; split; vm_compute; discriminate | constructor].
  - vm_compute. reflexivity.
Defined.

(** [C5], refuted as stated: question 0 (row 1) is the open question, yet
    the answer of alice to the question of index 1 (row 2), which has not
    been opened, is accepted, recorded and rewarded. *)
Lemma answer_to_unopened_question_accepted :
  option_map GameState_CurrentQuestionIndex (snapshot_of "abc123" Scenario.question0) = Some 0
  /\ GameHandler.SubmitAnswer "abc123" (mkSubmitAnswerRequest 1 2 3 10) Scenario.question0
     = Ret 200 Scenario.answered_unopened
  /\ length (answers_of 1 1 2 (db Scenario.answered_unopened)) = 1%nat
  /\ score_of 1 Scenario.question0 = Some 0
  /\ score_of 1 Scenario.answered_unopened = Some 125.
Proof. vm_compute. repeat split; reflexivity. Qed.

(** ** Opening and advancing questions *)

Lemma StartQuestion_opens w pin i h row question gs :
  Hub_mutex (hub w) = Unlocked ->
  first_game_by_pin (db w) (ToLower pin) = Some row ->
  index (Quiz_Questions (Game_Quiz (preload_Quiz (db w) row))) i = Some question ->
  snapshot_of pin w = Some gs ->
  StartQuestion pin i h w
  = Ret None
      (question_started pin i question
         (len (Quiz_Questions (Game_Quiz (preload_Quiz (db w) row)))) gs h w).
Proof.
  intros Hm Hg Hq Hs. unfold snapshot_of in Hs.
  pose proof (index_Some_lt _ _ _ Hq) as Hi.
  unfold StartQuestion, bind, get, ret, getGameState, storeGameState, spawn_runQuestionTimer,
    modify.
  cbn -[preload_Quiz]. rewrite Hg.
  destruct (Z.geb_spec i (len (Quiz_Questions (Game_Quiz (preload_Quiz (db w) row)))));
    [lia |].
  rewrite Hq, redis_key_ToLower, Hs. unfold question_started.
  destruct h; [| reflexivity].
  rewrite BroadcastToGame_unlocked by exact Hm. reflexivity.
Qed.

Lemma NextQuestion_finishes w pin h row gs :
  Hub_mutex (hub w) = Unlocked ->
  first_game_by_pin (db w) (ToLower pin) = Some row ->
  snapshot_of pin w = Some gs ->
  len (Quiz_Questions (Game_Quiz (preload_Quiz (db w) row)))
  <= wrap_int (GameState_CurrentQuestionIndex gs + 1) ->
  NextQuestion pin h w
  = Ret None
      (session_finished pin (Game_ID row)
         (len (Quiz_Questions (Game_Quiz (preload_Quiz (db w) row)))) gs h w).
Proof.
  intros Hm Hg Hs Hi. unfold snapshot_of in Hs.
  unfold NextQuestion, bind, get, ret, getGameState, storeGameState, modify.
  cbn -[preload_Quiz]. rewrite redis_key_ToLower, Hs, Hg.
  destruct (Z.geb_spec (wrap_int (GameState_CurrentQuestionIndex gs + 1))
              (len (Quiz_Questions (Game_Quiz (preload_Quiz (db w) row))))); [| lia].
  unfold session_finished. destruct h; [| reflexivity].
  rewrite BroadcastToGame_unlocked by exact Hm. reflexivity.
Qed.

Lemma NextQuestion_advances w pin h row gs :
  first_game_by_pin (db w) (ToLower pin) = Some row ->
  snapshot_of pin w = Some gs ->
  wrap_int (GameState_CurrentQuestionIndex gs + 1)
  < len (Quiz_Questions (Game_Quiz (preload_Quiz (db w) row))) ->
  NextQuestion pin h w
  = StartQuestion (ToLower pin) (wrap_int (GameState_CurrentQuestionIndex gs + 1)) h w.
Proof.
  intros Hg Hs Hi. unfold snapshot_of in Hs.
  unfold NextQuestion, bind, get, ret, getGameState.
  cbn -[preload_Quiz]. rewrite redis_key_ToLower, Hs, Hg.
  destruct (Z.geb_spec (wrap_int (GameState_CurrentQuestionIndex gs + 1))
              (len (Quiz_Questions (Game_Quiz (preload_Quiz (db w) row))))); [lia |].
  reflexivity.
Qed.

(** ** Creating a session *)

Lemma drawn_pin_length w : String.length (drawn_pin w) = 6%nat.
Proof.
  unfold drawn_pin.
  assert (Hlen : length (take 3 (entropy w ++ repeat 0%N 3)) = 3%nat).
  { rewrite length_take, length_app, repeat_length. lia. }
  destruct (take 3 (entropy w ++ repeat 0%N 3)) as [| a [| b [| c [| ? ?]]]];
    try discriminate Hlen.
  reflexivity.
Qed.

(** Simplification that keeps the drawn code folded. *)
Ltac cbn_StartGame :=
  cbn -[preload_Questions substring hex_EncodeToString take drop repeat app].

Lemma StartGame_collision w userID req row :
  first_quiz_of_user (db w) (StartGameRequest_QuizID req) userID = Some row ->
  pin_taken (drawn_pin w) (db w) = true ->
  StartGame userID req w = Ret (Err duplicate_key) (set_entropy (drop 3 (entropy w)) w).
Proof.
  intros Hq Ht. unfold StartGame, bind, get, ret, generatePin, rand_Read, create_game.
  cbn_StartGame. rewrite Hq. cbn_StartGame.
  fold (drawn_pin w). unfold pin_taken in Ht. rewrite Ht. reflexivity.
Qed.

Lemma StartGame_fresh w userID req row :
  first_quiz_of_user (db w) (StartGameRequest_QuizID req) userID = Some row ->
  pin_taken (drawn_pin w) (db w) = false ->
  let game :=
    mkGame (db_next_game_id (db w)) (StartGameRequest_QuizID req) (drawn_pin w) "waiting"
      zero_Quiz [] in
  exists w',
    StartGame userID req w = Ret (Ok game) w'
    /\ db_games (db w') = (db_games (db w) ++ [game])%list
    /\ entropy w' = drop 3 (entropy w)
    /\ snapshot_of (drawn_pin w) w'
       = Some (mkGameState (Game_ID game) (Game_QuizID game) (drawn_pin w) "waiting" None (-1)
                 [] [] (len (Quiz_Questions (preload_Questions (db w) row))))
    /\ db_game_answers (db w') = db_game_answers (db w).
Proof.
  intros Hq Ht game. unfold StartGame, bind, get, ret, generatePin, rand_Read, create_game,
    modify, storeGameState, snapshot_of.
  cbn_StartGame. rewrite Hq. cbn_StartGame.
  fold (drawn_pin w). unfold pin_taken in Ht. rewrite Ht. cbn_StartGame.
  eexists. split; [reflexivity |]. cbn_StartGame.
  rewrite redis_key_ToLower, lookup_insert_eq. repeat split.
Qed.

Lemma pin_taken_false pin d :
  pin_taken pin d = false -> Forall (fun g => Game_Pin g <> pin) (db_games d).
Proof.
  unfold pin_taken. intros H. apply List.Forall_forall. intros g Hg Heq.
  assert (Hex : existsb (fun g => String.eqb (Game_Pin g) pin) (db_games d) = true).
  { apply List.existsb_exists. exists g. split; [exact Hg |]. now apply String.eqb_eq. }
  congruence.
Qed.

Lemma StartGame_no_quiz w userID req :
  first_quiz_of_user (db w) (StartGameRequest_QuizID req) userID = None ->
  StartGame userID req w = Ret (Err "quiz not found") w.
Proof. intros Hq. unfold StartGame, bind, get, ret. cbn. now rewrite Hq. Qed.

(** [C8], as the code has it: [StartGame] draws one code of six
    hexadecimal digits and does not look for it among the sessions. The
    unique index of the store on [pin] is what detects a collision: the
    insert is refused, [StartGame] returns that error without a second
    draw and no session is created. When the code is free the session is
    created with it, so the code of a session that [StartGame] returns
    differs from the code of every session already in the store. *)
Theorem StartGame_draws_one_code w userID req row :
  first_quiz_of_user (db w) (StartGameRequest_QuizID req) userID = Some row ->
  String.length (drawn_pin w) = 6%nat
  /\ (pin_taken (drawn_pin w) (db w) = true ->
      StartGame userID req w = Ret (Err duplicate_key) (set_entropy (drop 3 (entropy w)) w))
  /\ (pin_taken (drawn_pin w) (db w) = false ->
      exists game w',
        StartGame userID req w = Ret (Ok game) w'
        /\ Game_Pin game = drawn_pin w
        /\ Forall (fun g => Game_Pin g <> Game_Pin game) (db_games (db w))
        /\ db_games (db w') = (db_games (db w) ++ [game])%list
        /\ entropy w' = drop 3 (entropy w)).
Proof.
  intros Hq. split; [apply drawn_pin_length |]. split.
  - intros Ht. now apply (StartGame_collision w userID req row).
  - intros Ht.
    destruct (StartGame_fresh w userID req row Hq Ht) as (w' & Hrun & Hgames & He & _ & _).
    eexists. exists w'. split; [exact Hrun |]. repeat split; try assumption.
    cbn. now apply pin_taken_false.
Qed.

Lemma StartGame_draws_one_code_witness :
  first_quiz_of_user (db Scenario.initial) 1 7 = Some (mkQuiz 1 7 [])
  /\ pin_taken (drawn_pin Scenario.initial) (db Scenario.initial) = false
  /\ exists game w',
       StartGame 7 (mkStartGameRequest 1) Scenario.initial = Ret (Ok game) w'
       /\ Game_Pin game = "abc123".
Proof.
  assert (Hq : first_quiz_of_user (db Scenario.initial)
                 (StartGameRequest_QuizID (mkStartGameRequest 1)) 7
               = Some (mkQuiz 1 7 [])) by reflexivity.
  split; [exact Hq |]. split; [reflexivity |].
  destruct (StartGame_draws_one_code Scenario.initial 7 (mkStartGameRequest 1) _ Hq)
    as (_ & _ & Hfresh).
  destruct (Hfresh eq_refl) as (game & w' & Hrun & Hpin & _).
  exists game, w'. split; [exact Hrun | exact Hpin].
Defined.

(** [C8], refuted as stated: the session abc123 exists and the entropy
    source yields ab c1 23 again. [StartGame] fails with the error of the
    unique index; it has consumed three bytes only, although the next
    three, 00 00 01, make a code that is free. *)
Lemma StartGame_collision_not_retried :
  status_of "abc123" Scenario.created = Some "waiting"
  /\ drawn_pin Scenario.created = "abc123"
  /\ StartGame 7 (mkStartGameRequest 1) Scenario.created
     = Ret (Err duplicate_key) (set_entropy [0; 0; 1]%N Scenario.created)
  /\ drawn_pin (set_entropy [0; 0; 1]%N Scenario.created) = "000001"
  /\ pin_taken "000001" (db Scenario.created) = false.
Proof. vm_compute. repeat split; reflexivity. Qed.

(** ** The status and the index of a session *)

Lemma find_map_stable {A} (p : A -> bool) (f : A -> A) (l : list A) :
  (forall x, p (f x) = p x) ->
  List.find p (List.map f l) = option_map f (List.find p l).
Proof.
  intros Hp. induction l as [| a l IH]; cbn; [reflexivity |].
  rewrite Hp. destruct (p a); [reflexivity | exact IH].
Qed.

Lemma status_of_update_status pin row status w w' :
  first_game_by_pin (db w) (ToLower pin) = Some row ->
  db w' = update_status (Game_ID row) status (db w) ->
  status_of pin w' = Some status.
Proof.
  intros Hg Hdb. unfold status_of, first_game_by_pin in *. rewrite Hdb.
  cbn [update_status db_games].
  rewrite find_map_stable.
  - rewrite Hg. cbn. now rewrite N.eqb_refl.
  - intros g. destruct (Game_ID g =? Game_ID row)%N; reflexivity.
Qed.

Lemma db_question_started pin i question total gs h w :
  db (question_started pin i question total gs h w) = db w.
Proof. unfold question_started. destruct h; reflexivity. Qed.

Lemma snapshot_question_started pin i question total gs h w :
  snapshot_of pin (question_started pin i question total gs h w)
  = Some (set_CurrentQuestion (Some (question_snapshot question))
            (set_CurrentQuestionIndex i gs)).
Proof.
  unfold question_started, snapshot_of. destruct h; cbn; apply lookup_insert_eq.
Qed.

Lemma db_session_finished pin gameID total gs h w :
  db (session_finished pin gameID total gs h w) = update_status gameID "finished" (db w).
Proof. unfold session_finished. destruct h; reflexivity. Qed.

Lemma snapshot_session_finished pin gameID total gs h w :
  snapshot_of pin (session_finished pin gameID total gs h w)
  = Some (set_CurrentQuestionIndex total
            (set_CurrentQuestion None (set_Status "finished" gs))).
Proof.
  unfold session_finished, snapshot_of. destruct h; cbn; apply lookup_insert_eq.
Qed.

Lemma snapshot_of_ToLower pin w : snapshot_of (ToLower pin) w = snapshot_of pin w.
Proof. unfold snapshot_of. now rewrite redis_key_ToLower. Qed.

Lemma status_of_same_db pin w w' : db w' = db w -> status_of pin w' = status_of pin w.
Proof. unfold status_of. now intros ->. Qed.

Lemma StartQuiz_activates w pin userID row quiz :
  first_game_by_pin (db w) (ToLower pin) = Some row ->
  first_quiz_of_user (db w) (Game_QuizID row) userID = Some quiz ->
  exists game w',
    StartQuiz pin userID w = Ret (Ok game) w'
    /\ Game_Status game = "active"
    /\ db w' = update_status (Game_ID row) "active" (db w)
    /\ option_map GameState_Status (snapshot_of pin w') = Some "active".
Proof.
  intros Hg Hq. unfold StartQuiz, bind, get, ret, modify, getGameState, storeGameState,
    snapshot_of.
  cbn -[preload_Quiz]. rewrite Hg. cbn -[preload_Quiz].
  change (Game_QuizID (preload_Quiz (db w) row)) with (Game_QuizID row).
  change (Game_ID (preload_Quiz (db w) row)) with (Game_ID row).
  rewrite Hq. cbn -[preload_Quiz].
  eexists. eexists. split; [reflexivity |]. cbn -[preload_Quiz].
  rewrite redis_key_ToLower, lookup_insert_eq.
  repeat split. destruct (redis w !! redis_key pin); reflexivity.
Qed.

Lemma JoinGame_not_joinable w req game :
  first_game_by_pin (db w) (ToLower (JoinGameRequest_Pin req)) = Some game ->
  Game_Status game <> "waiting" -> Game_Status game <> "active" ->
  JoinGame req w
  = Ret (Err ("game has status '" ++ Game_Status game ++ "' - cannot join")) w.
Proof.
  intros Hg Hw Ha. unfold JoinGame, bind, get, ret. cbn. rewrite Hg.
  destruct (String.eqb_spec (Game_Status game) "waiting"); [contradiction |].
  destruct (String.eqb_spec (Game_Status game) "active"); [contradiction |].
  reflexivity.
Qed.

Lemma NextQuestion_no_snapshot w pin h :
  snapshot_of pin w = None -> NextQuestion pin h w = Ret (Some "game state not found") w.
Proof.
  intros Hs. unfold snapshot_of in Hs. unfold NextQuestion, bind, getGameState.
  rewrite redis_key_ToLower, Hs. reflexivity.
Qed.

Lemma StartQuestion_negative w pin i h row :
  first_game_by_pin (db w) (ToLower pin) = Some row ->
  i < 0 -> StartQuestion pin i h w = Panic w.
Proof.
  intros Hg Hi. unfold StartQuestion, bind, get, ret, panic. cbn -[preload_Quiz]. rewrite Hg.
  destruct (Z.geb_spec i (len (Quiz_Questions (Game_Quiz (preload_Quiz (db w) row)))));
    [unfold len in *; lia |].
  unfold index. destruct (Z.ltb_spec i 0); [reflexivity | lia].
Qed.

(** [C3], as the code has it: on a finished session the calls of the
    participants are refused and change nothing; the calls of the owner
    are not. [StartQuiz] looks at the owner only: in any status, finished
    included, it succeeds and sets the status to active. [NextQuestion]
    never looks at the status, it goes by the index of the cached
    snapshot. Without a snapshot it fails with "game state not found" and
    changes nothing. With a snapshot whose index plus one is not below the
    number of questions, as it is once the session is finished, it
    succeeds once more: the status is finished and the index the number of
    questions. With a snapshot whose index plus one is a question of the
    quiz, as it is once the snapshot has been rebuilt with the index -1,
    it opens that question and leaves the status as it is, finished
    included. With an index plus one below zero it panics. *)
Theorem finished_session_calls w pin row :
  first_game_by_pin (db w) (ToLower pin) = Some row ->
  let total := len (Quiz_Questions (Game_Quiz (preload_Quiz (db w) row))) in
  (Game_Status row = "finished" ->
   forall name,
     JoinGame (mkJoinGameRequest pin name) w
     = Ret (Err "game has status 'finished' - cannot join") w)
  /\ (Game_Status row = "finished" ->
      forall playerID req h,
        SubmitAnswer pin playerID req h w = Ret (Some "game is not active") w)
  /\ (forall userID quiz,
         first_quiz_of_user (db w) (Game_QuizID row) userID = Some quiz ->
         exists game w',
           StartQuiz pin userID w = Ret (Ok game) w' /\ status_of pin w' = Some "active")
  /\ (forall h,
         snapshot_of pin w = None ->
         NextQuestion pin h w = Ret (Some "game state not found") w)
  /\ (forall h gs,
         snapshot_of pin w = Some gs ->
         total <= wrap_int (GameState_CurrentQuestionIndex gs + 1) ->
         Hub_mutex (hub w) = Unlocked ->
         exists w',
           NextQuestion pin h w = Ret None w'
           /\ status_of pin w' = Some "finished"
           /\ snapshot_of pin w'
              = Some (set_CurrentQuestionIndex total
                        (set_CurrentQuestion None (set_Status "finished" gs))))
  /\ (forall h gs,
         snapshot_of pin w = Some gs ->
         0 <= wrap_int (GameState_CurrentQuestionIndex gs + 1) < total ->
         Hub_mutex (hub w) = Unlocked ->
         exists question w',
           index (Quiz_Questions (Game_Quiz (preload_Quiz (db w) row)))
             (wrap_int (GameState_CurrentQuestionIndex gs + 1)) = Some question
           /\ NextQuestion pin h w = Ret None w'
           /\ status_of pin w' = status_of pin w
           /\ snapshot_of pin w'
              = Some (set_CurrentQuestion (Some (question_snapshot question))
                        (set_CurrentQuestionIndex
                           (wrap_int (GameState_CurrentQuestionIndex gs + 1)) gs)))
  /\ (forall h gs,
         snapshot_of pin w = Some gs ->
         wrap_int (GameState_CurrentQuestionIndex gs + 1) < 0 ->
         NextQuestion pin h w = Panic w).
Proof.
  intros Hg total. split; [| split; [| split; [| split; [| split; [| split]]]]].
  - intros Hf name.
    rewrite (JoinGame_not_joinable w (mkJoinGameRequest pin name) row Hg)
      by (rewrite Hf; discriminate).
    rewrite Hf. reflexivity.
  - intros Hf playerID req h. apply (SubmitAnswer_not_active w pin playerID req h row Hg).
    rewrite Hf. discriminate.
  - intros userID quiz Hq.
    destruct (StartQuiz_activates w pin userID row quiz Hg Hq) as (game & w' & Hrun & _ & Hdb & _).
    exists game, w'. split; [exact Hrun |].
    apply (status_of_update_status pin row "active" w w' Hg Hdb).
  - intros h. apply NextQuestion_no_snapshot.
  - intros h gs Hs Hge Hm.
    rewrite (NextQuestion_finishes w pin h row gs Hm Hg Hs Hge).
    eexists. split; [reflexivity |]. split.
    + eapply status_of_update_status; [exact Hg | apply db_session_finished].
    + apply snapshot_session_finished.
  - intros h gs Hs Hi Hm.
    destruct (index_lt_Some (Quiz_Questions (Game_Quiz (preload_Quiz (db w) row)))
                (wrap_int (GameState_CurrentQuestionIndex gs + 1)) Hi) as [question Hq].
    exists question. eexists. split; [exact Hq |].
    rewrite (NextQuestion_advances w pin h row gs Hg Hs) by apply Hi.
    rewrite (StartQuestion_opens w (ToLower pin) _ h row question gs Hm)
      by (rewrite ?ToLower_idem, ?snapshot_of_ToLower; assumption).
    split; [reflexivity |]. split.
    + apply status_of_same_db, db_question_started.
    + rewrite <- snapshot_of_ToLower. apply snapshot_question_started.
  - intros h gs Hs Hi.
    assert (Hlen : 0 <= total) by apply Zle_0_nat.
    rewrite (NextQuestion_advances w pin h row gs Hg Hs) by (fold total; lia).
    apply (StartQuestion_negative w (ToLower pin) _ h row); [| exact Hi].
    now rewrite ToLower_idem.
Qed.

Lemma finished_session_calls_witness :
  first_game_by_pin (db Scenario.finished) (ToLower "abc123")
  = Some (mkGame 1 1 "abc123" "finished" zero_Quiz [])
  /\ JoinGame (mkJoinGameRequest "abc123" "bob") Scenario.finished
     = Ret (Err "game has status 'finished' - cannot join") Scenario.finished
  /\ (exists w',
        NextQuestion "abc123" true Scenario.finished = Ret None w'
        /\ status_of "abc123" w' = Some "finished")
  /\ (exists w',
        NextQuestion "abc123" true Scenario.rebuilt = Ret None w'
        /\ status_of "abc123" w' = Some "finished"
        /\ option_map GameState_CurrentQuestionIndex (snapshot_of "abc123" w') = Some 0).
Proof.
  assert (Hg : first_game_by_pin (db Scenario.finished) (ToLower "abc123")
               = Some (mkGame 1 1 "abc123" "finished" zero_Quiz []))
    by (vm_compute; reflexivity).
  assert (Hr : first_game_by_pin (db Scenario.rebuilt) (ToLower "abc123")
               = Some (mkGame 1 1 "abc123" "finished" zero_Quiz []))
    by (vm_compute; reflexivity).
  split; [exact Hg |].
  destruct (finished_session_calls Scenario.finished "abc123" _ Hg)
    as (Hjoin & _ & _ & _ & Hnext & _).
  split; [exact (Hjoin eq_refl "bob") |]. split.
  - destruct (Hnext true
                (mkGameState 1 1 "abc123" "finished" None 2 [mkGamePlayer 1 "alice" 0] [] 2))
      as (w' & Hrun & Hstatus & _);
      [vm_compute; reflexivity | vm_compute; discriminate | vm_compute; reflexivity |].
    exists w'. split; assumption.
  - destruct (finished_session_calls Scenario.rebuilt "abc123" _ Hr)
      as (_ & _ & _ & _ & _ & Hopen & _).
    destruct (Hopen true
                (mkGameState 1 1 "abc123" "finished" None (-1) [mkGamePlayer 1 "alice" 0] [] 2))
      as (question & w' & _ & Hrun & Hstatus & Hsnap);
      [vm_compute; reflexivity | split; vm_compute; [discriminate | reflexivity]
      | vm_compute; reflexivity |].
    exists w'. split; [exact Hrun |]. split.
    + rewrite Hstatus. vm_compute. reflexivity.
    + rewrite Hsnap. reflexivity.
Defined.

(** [C3], refuted as stated: the session is finished; a POST of the owner
    to the start route is answered with 200, the status is active again
    and question 0 is open; a POST to the next route on the finished
    session is answered with 200 and broadcasts [game_end] a second
    time. And once the snapshot of the finished session has run out and
    been rebuilt, a POST to the next route opens question 0 and starts its
    timer, while the status stays finished. *)
Lemma finished_session_reactivated :
  status_of "abc123" Scenario.finished = Some "finished"
  /\ GameHandler.StartQuiz (Some 7%N) "abc123" Scenario.finished
     = Ret 200 Scenario.reactivated
  /\ status_of "abc123" Scenario.reactivated = Some "active"
  /\ option_map GameState_CurrentQuestionIndex (snapshot_of "abc123" Scenario.reactivated)
     = Some 0
  /\ GameHandler.NextQuestion (Some 7%N) "abc123" Scenario.finished
     = Ret 200 Scenario.advanced_again
  /\ count_msgs (is_type "game_end") (inbox 101 Scenario.finished) = 1%nat
  /\ count_msgs (is_type "game_end") (inbox 101 Scenario.advanced_again) = 2%nat
  /\ GameHandler.NextQuestion (Some 7%N) "abc123" Scenario.expired = Ret 400 Scenario.expired
  /\ GameHandler.NextQuestion (Some 7%N) "abc123" Scenario.rebuilt = Ret 200 Scenario.reopened
  /\ status_of "abc123" Scenario.reopened = Some "finished"
  /\ option_map GameState_CurrentQuestionIndex (snapshot_of "abc123" Scenario.reopened)
     = Some 0
  /\ length (timers Scenario.reopened) = S (length (timers Scenario.rebuilt)).
Proof. vm_compute. repeat split; reflexivity. Qed.

(** A created session starts with the index at -1. *)
Lemma StartGame_index w userID req game w' :
  StartGame userID req w = Ret (Ok game) w' ->
  option_map GameState_CurrentQuestionIndex (snapshot_of (Game_Pin game) w') = Some (-1).
Proof.
  intros Hrun.
  destruct (first_quiz_of_user (db w) (StartGameRequest_QuizID req) userID) as [row |] eqn:Hq;
    [| rewrite StartGame_no_quiz in Hrun by assumption; discriminate].
  destruct (pin_taken (drawn_pin w) (db w)) eqn:Ht;
    [rewrite (StartGame_collision w userID req row) in Hrun by assumption; discriminate |].
  destruct (StartGame_fresh w userID req row Hq Ht) as (w1 & Hrun1 & _ & _ & Hs & _).
  rewrite Hrun1 in Hrun. injection Hrun as <- <-. cbn [Game_Pin]. rewrite Hs. reflexivity.
Qed.

(** [C6], as the code has it: a created session has the index -1. A
    [NextQuestion] on a session whose index is at least -1 and below the
    number of questions succeeds and raises the index by exactly one; when
    the index thereby reaches the number of questions the session is
    finished, otherwise its status is as before. [StartQuestion] stores
    the index it is given, whatever the current index is. *)
Theorem current_question_index_steps w pin h row gs :
  Hub_mutex (hub w) = Unlocked ->
  first_game_by_pin (db w) (ToLower pin) = Some row ->
  snapshot_of pin w = Some gs ->
  len (Quiz_Questions (Game_Quiz (preload_Quiz (db w) row))) <= int_max ->
  (forall userID req game w0,
      StartGame userID req w = Ret (Ok game) w0 ->
      option_map GameState_CurrentQuestionIndex (snapshot_of (Game_Pin game) w0) = Some (-1))
  /\ (-1 <= GameState_CurrentQuestionIndex gs
            < len (Quiz_Questions (Game_Quiz (preload_Quiz (db w) row))) ->
      exists w' gs',
        NextQuestion pin h w = Ret None w'
        /\ snapshot_of pin w' = Some gs'
        /\ GameState_CurrentQuestionIndex gs' = GameState_CurrentQuestionIndex gs + 1
        /\ (GameState_CurrentQuestionIndex gs + 1
            = len (Quiz_Questions (Game_Quiz (preload_Quiz (db w) row))) ->
            status_of pin w' = Some "finished" /\ GameState_Status gs' = "finished")
        /\ (GameState_CurrentQuestionIndex gs + 1
            < len (Quiz_Questions (Game_Quiz (preload_Quiz (db w) row))) ->
            status_of pin w' = status_of pin w
            /\ GameState_Status gs' = GameState_Status gs))
  /\ (forall i,
         0 <= i < len (Quiz_Questions (Game_Quiz (preload_Quiz (db w) row))) ->
         exists w' gs',
           StartQuestion pin i h w = Ret None w'
           /\ snapshot_of pin w' = Some gs'
           /\ GameState_CurrentQuestionIndex gs' = i).
Proof.
  intros Hm Hg Hs Hmax.
  set (total := len (Quiz_Questions (Game_Quiz (preload_Quiz (db w) row)))) in *.
  split; [| split].
  - intros userID req game w0. apply StartGame_index.
  - intros Hi.
    assert (Hwrap : wrap_int (GameState_CurrentQuestionIndex gs + 1)
                    = GameState_CurrentQuestionIndex gs + 1).
    { apply wrap_int_small. unfold int_min, int_max in *. lia. }
    destruct (Z.eq_dec (GameState_CurrentQuestionIndex gs + 1) total) as [Hlast | Hmore].
    + rewrite (NextQuestion_finishes w pin h row gs Hm Hg Hs)
        by (fold total; rewrite Hwrap; lia).
      eexists. eexists. split; [reflexivity |].
      split; [apply snapshot_session_finished |].
      split; [symmetry; exact Hlast |]. split; [| lia].
      intros _. split; [| reflexivity].
      eapply status_of_update_status; [exact Hg | apply db_session_finished].
    + rewrite (NextQuestion_advances w pin h row gs Hg Hs)
        by (fold total; rewrite Hwrap; lia).
      rewrite Hwrap.
      destruct (index_lt_Some (Quiz_Questions (Game_Quiz (preload_Quiz (db w) row)))
                  (GameState_CurrentQuestionIndex gs + 1)) as [question Hq];
        [fold total; lia |].
      rewrite (StartQuestion_opens w (ToLower pin) _ h row question gs Hm)
        by (rewrite ?ToLower_idem, ?snapshot_of_ToLower; assumption).
      eexists. eexists. split; [reflexivity |].
      split; [rewrite <- snapshot_of_ToLower; apply snapshot_question_started |].
      split; [reflexivity |]. split; [lia |].
      intros _. split; [| reflexivity].
      apply status_of_same_db, db_question_started.
  - intros i Hi.
    destruct (index_lt_Some (Quiz_Questions (Game_Quiz (preload_Quiz (db w) row))) i Hi)
      as [question Hq].
    rewrite (StartQuestion_opens w pin i h row question gs Hm Hg Hq Hs).
    eexists. eexists. split; [reflexivity |].
    split; [apply snapshot_question_started | reflexivity].
Qed.

Lemma current_question_index_steps_witness :
  Hub_mutex (hub Scenario.question0) = Unlocked
  /\ option_map GameState_CurrentQuestionIndex (snapshot_of "abc123" Scenario.question0)
     = Some 0
  /\ exists w' gs',
       NextQuestion "abc123" true Scenario.question0 = Ret None w'
       /\ snapshot_of "abc123" w' = Some gs'
       /\ GameState_CurrentQuestionIndex gs' = 1.
Proof.
  split; [reflexivity |]. split; [vm_compute; reflexivity |].
  assert (Hs : snapshot_of "abc123" Scenario.question0
               = Some (mkGameState 1 1 "abc123" "active"
                         (Some (mkGameQuestion 1 "Capital of Italy?" 30
                                  [mkGameOption 1 "Paris"; mkGameOption 2 "Rome"] 30))
                         0 [mkGamePlayer 1 "alice" 0] [] 2))
    by (vm_compute; reflexivity).
  destruct (current_question_index_steps Scenario.question0 "abc123" true
              (mkGame 1 1 "abc123" "active" zero_Quiz []) _ eq_refl
              ltac:(vm_compute; reflexivity) Hs ltac:(vm_compute; easy))
    as (_ & Hnext & _).
  destruct Hnext as (w' & gs' & Hrun & Hs' & Hi & _); [vm_compute; easy |].
  exists w', gs'. repeat split; assumption.
Defined.

(** [C6], refuted as stated: question 1 is open; a second POST to the
    start route is served, and the index is 0 again. *)
Lemma restart_resets_index :
  option_map GameState_CurrentQuestionIndex (snapshot_of "abc123" Scenario.question1)
  = Some 1
  /\ GameHandler.StartQuiz (Some 7%N) "abc123" Scenario.question1 = Ret 200 Scenario.restarted
  /\ status_of "abc123" Scenario.restarted = Some "active"
  /\ option_map GameState_CurrentQuestionIndex (snapshot_of "abc123" Scenario.restarted)
     = Some 0.
Proof. vm_compute. repeat split; reflexivity. Qed.

(** ** Joining *)

Lemma first_player_by_name_None d gameID name :
  first_player_by_name d gameID name = None <->
  (forall p, In p (db_players d) -> Player_GameID p = gameID -> Player_Name p <> name).
Proof.
  unfold first_player_by_name. rewrite find_None_iff. split.
  - intros H p Hp Hg Hn. specialize (H p Hp). rewrite Hg, Hn, N.eqb_refl, String.eqb_refl in H.
    discriminate.
  - intros H p Hp. destruct (N.eqb_spec (Player_GameID p) gameID) as [Hg | ]; [| reflexivity].
    destruct (String.eqb_spec (Player_Name p) name) as [Hn |]; [| reflexivity].
    exfalso. exact (H p Hp Hg Hn).
Qed.

Lemma JoinGame_name_taken w req game p :
  first_game_by_pin (db w) (ToLower (JoinGameRequest_Pin req)) = Some game ->
  Game_Status game = "waiting" \/ Game_Status game = "active" ->
  first_player_by_name (db w) (Game_ID game) (JoinGameRequest_Name req) = Some p ->
  JoinGame req w = Ret (Err "player name already taken") w.
Proof.
  intros Hg Hs Hn. unfold JoinGame, JoinGame_checks, bind, get, ret. cbn. rewrite Hg, Hn.
  destruct Hs as [-> | ->]; reflexivity.
Qed.

(** The two parts of [JoinGame]. *)
Lemma JoinGame_checks_passed w req game :
  first_game_by_pin (db w) (ToLower (JoinGameRequest_Pin req)) = Some game ->
  Game_Status game = "waiting" \/ Game_Status game = "active" ->
  first_player_by_name (db w) (Game_ID game) (JoinGameRequest_Name req) = None ->
  JoinGame_checks req w = Ret (Ok game) w.
Proof.
  intros Hg Hs Hn. unfold JoinGame_checks, bind, get, ret. cbn. rewrite Hg, Hn.
  destruct Hs as [-> | ->]; reflexivity.
Qed.

Lemma JoinGame_creates_refused w req game :
  valid_text (JoinGameRequest_Name req) = false ->
  JoinGame_creates req game w = Ret (Err invalid_byte_sequence) w.
Proof.
  intros Hv. unfold JoinGame_creates, bind, Create_Player. rewrite Hv. reflexivity.
Qed.

Lemma JoinGame_creates_joined w req game :
  valid_text (JoinGameRequest_Name req) = true ->
  let player :=
    mkPlayer (db_next_player_id (db w)) (Game_ID game) (JoinGameRequest_Name req) 0 in
  let gs :=
    match snapshot_of (Game_Pin game) w with
    | Some gs => gs
    | None =>
        mkGameState (Game_ID game) (Game_QuizID game) (ToLower (Game_Pin game))
          (Game_Status game) None (-1) [] [] 0
    end in
  JoinGame_creates req game w
  = Ret (Ok player)
      (set_redis
         (<[redis_key (Game_Pin game) :=
              set_Players
                (GameState_Players gs
                 ++ [mkGamePlayer (db_next_player_id (db w)) (JoinGameRequest_Name req) 0])
                gs]> (redis w))
         (set_db (snd (create_player (Game_ID game) (JoinGameRequest_Name req) 0 (db w))) w)).
Proof.
  intros Hv player gs. subst player gs.
  unfold JoinGame_creates, bind, Create_Player, getGameState, storeGameState, ret, snapshot_of.
  rewrite Hv. cbn. rewrite redis_key_ToLower.
  destruct (redis w !! redis_key (Game_Pin game)); reflexivity.
Qed.

Lemma JoinGame_unstorable w req game :
  first_game_by_pin (db w) (ToLower (JoinGameRequest_Pin req)) = Some game ->
  Game_Status game = "waiting" \/ Game_Status game = "active" ->
  first_player_by_name (db w) (Game_ID game) (JoinGameRequest_Name req) = None ->
  valid_text (JoinGameRequest_Name req) = false ->
  JoinGame req w = Ret (Err invalid_byte_sequence) w.
Proof.
  intros Hg Hs Hn Hv. unfold JoinGame, bind at 1.
  rewrite (JoinGame_checks_passed w req game Hg Hs Hn).
  now apply JoinGame_creates_refused.
Qed.

Lemma JoinGame_joined w req game :
  first_game_by_pin (db w) (ToLower (JoinGameRequest_Pin req)) = Some game ->
  Game_Status game = "waiting" \/ Game_Status game = "active" ->
  first_player_by_name (db w) (Game_ID game) (JoinGameRequest_Name req) = None ->
  valid_text (JoinGameRequest_Name req) = true ->
  let player :=
    mkPlayer (db_next_player_id (db w)) (Game_ID game) (JoinGameRequest_Name req) 0 in
  let gs :=
    match snapshot_of (Game_Pin game) w with
    | Some gs => gs
    | None =>
        mkGameState (Game_ID game) (Game_QuizID game) (ToLower (Game_Pin game))
          (Game_Status game) None (-1) [] [] 0
    end in
  exists w',
    JoinGame req w = Ret (Ok player) w'
    /\ db_players (db w') = (db_players (db w) ++ [player])%list
    /\ snapshot_of (Game_Pin game) w'
       = Some (set_Players
                 (GameState_Players gs
                  ++ [mkGamePlayer (db_next_player_id (db w)) (JoinGameRequest_Name req) 0])
                 gs).
Proof.
  intros Hg Hs Hn Hv player gs. unfold JoinGame, bind at 1.
  rewrite (JoinGame_checks_passed w req game Hg Hs Hn).
  rewrite (JoinGame_creates_joined w req game Hv).
  eexists. split; [reflexivity |]. split; [reflexivity |].
  unfold snapshot_of. cbn. apply lookup_insert_eq.
Qed.

(** [C10], as the code has it: for a session that exists, a [JoinGame]
    that runs alone succeeds exactly when the status is waiting or active,
    no participant of the session has the requested name and the store
    takes the name as text. On success the participant is the new row of
    the store, with the next id, the session, the name and score 0, and
    the entry with that id, that name and score 0 is appended to the
    players of the stored snapshot (a new snapshot with index -1 and no
    questions counted when there was none). A finished session refuses
    the join with its status in the error, a name that a participant of
    the session has is refused as taken, and a name that the store
    refuses comes back as the store's error; nothing changes then. *)
Theorem JoinGame_spec (w : World) (req : JoinGameRequest) (game : Game) :
  first_game_by_pin (db w) (ToLower (JoinGameRequest_Pin req)) = Some game ->
  let gs :=
    match snapshot_of (Game_Pin game) w with
    | Some gs => gs
    | None =>
        mkGameState (Game_ID game) (Game_QuizID game) (ToLower (Game_Pin game))
          (Game_Status game) None (-1) [] [] 0
    end in
  ((exists player w', JoinGame req w = Ret (Ok player) w') <->
   (Game_Status game = "waiting" \/ Game_Status game = "active")
   /\ (forall p, In p (db_players (db w)) -> Player_GameID p = Game_ID game ->
                 Player_Name p <> JoinGameRequest_Name req)
   /\ valid_text (JoinGameRequest_Name req) = true)
  /\ (forall player w', JoinGame req w = Ret (Ok player) w' ->
        player
        = mkPlayer (db_next_player_id (db w)) (Game_ID game) (JoinGameRequest_Name req) 0
        /\ db_players (db w') = (db_players (db w) ++ [player])%list
        /\ snapshot_of (Game_Pin game) w'
           = Some (set_Players
                     (GameState_Players gs
                      ++ [mkGamePlayer (db_next_player_id (db w))
                            (JoinGameRequest_Name req) 0])
                     gs))
  /\ (Game_Status game = "finished" ->
      JoinGame req w = Ret (Err "game has status 'finished' - cannot join") w)
  /\ ((Game_Status game = "waiting" \/ Game_Status game = "active") ->
      (exists p, In p (db_players (db w)) /\ Player_GameID p = Game_ID game
                 /\ Player_Name p = JoinGameRequest_Name req) ->
      JoinGame req w = Ret (Err "player name already taken") w)
  /\ ((Game_Status game = "waiting" \/ Game_Status game = "active") ->
      (forall p, In p (db_players (db w)) -> Player_GameID p = Game_ID game ->
                 Player_Name p <> JoinGameRequest_Name req) ->
      valid_text (JoinGameRequest_Name req) = false ->
      JoinGame req w = Ret (Err invalid_byte_sequence) w).
Proof.
  intros Hg gs.
  assert (Htaken : (Game_Status game = "waiting" \/ Game_Status game = "active") ->
                   (exists p, In p (db_players (db w)) /\ Player_GameID p = Game_ID game
                              /\ Player_Name p = JoinGameRequest_Name req) ->
                   JoinGame req w = Ret (Err "player name already taken") w).
  { intros Hs (p & Hin & Hgame & Hname).
    destruct (first_player_by_name (db w) (Game_ID game) (JoinGameRequest_Name req))
      as [taken |] eqn:Hn;
      [exact (JoinGame_name_taken w req game taken Hg Hs Hn) |].
    exfalso.
    exact (proj1 (first_player_by_name_None (db w) (Game_ID game) (JoinGameRequest_Name req))
             Hn p Hin Hgame Hname). }
  cut (((exists player w', JoinGame req w = Ret (Ok player) w') <->
        (Game_Status game = "waiting" \/ Game_Status game = "active")
        /\ (forall p, In p (db_players (db w)) -> Player_GameID p = Game_ID game ->
                      Player_Name p <> JoinGameRequest_Name req)
        /\ valid_text (JoinGameRequest_Name req) = true)
       /\ (forall player w', JoinGame req w = Ret (Ok player) w' ->
             player
             = mkPlayer (db_next_player_id (db w)) (Game_ID game) (JoinGameRequest_Name req) 0
             /\ db_players (db w') = (db_players (db w) ++ [player])%list
             /\ snapshot_of (Game_Pin game) w'
                = Some (set_Players
                          (GameState_Players gs
                           ++ [mkGamePlayer (db_next_player_id (db w))
                                 (JoinGameRequest_Name req) 0])
                          gs))
       /\ (Game_Status game = "finished" ->
           JoinGame req w = Ret (Err "game has status 'finished' - cannot join") w)
       /\ ((Game_Status game = "waiting" \/ Game_Status game = "active") ->
           (forall p, In p (db_players (db w)) -> Player_GameID p = Game_ID game ->
                      Player_Name p <> JoinGameRequest_Name req) ->
           valid_text (JoinGameRequest_Name req) = false ->
           JoinGame req w = Ret (Err invalid_byte_sequence) w)).
  { intros (H1 & H2 & H3 & H4). repeat (split; [assumption |]). assumption. }
  clear Htaken.
  pose proof (first_player_by_name_None (db w) (Game_ID game) (JoinGameRequest_Name req))
    as Hfree.
  destruct (String.eqb_spec (Game_Status game) "waiting") as [Hw | Hw];
    [assert (Hs : Game_Status game = "waiting" \/ Game_Status game = "active") by tauto |
     destruct (String.eqb_spec (Game_Status game) "active") as [Ha | Ha];
     [assert (Hs : Game_Status game = "waiting" \/ Game_Status game = "active") by tauto |]].
  3: { (* neither waiting nor active: refused *)
    rewrite (JoinGame_not_joinable w req game Hg Hw Ha).
    split; [| split; [| split]].
    - split; [intros (player & w' & [=]) | intros [[? | ?] _]; contradiction].
    - intros player w' [=].
    - intros ->. reflexivity.
    - intros [? | ?]; contradiction. }
  all: destruct (first_player_by_name (db w) (Game_ID game) (JoinGameRequest_Name req))
         as [taken |] eqn:Hn.
  1, 3: (* the name is taken: refused *)
    rewrite (JoinGame_name_taken w req game taken Hg Hs Hn);
    (split; [| split; [| split]]);
    [ split; [intros (player & w' & [=]) | intros (_ & Hall%Hfree & _); discriminate]
    | intros player w' [=]
    | intros Hf; exfalso; destruct Hs as [Hs | Hs]; rewrite Hf in Hs; discriminate
    | intros _ Hall%Hfree; discriminate ].
  all: destruct (valid_text (JoinGameRequest_Name req)) eqn:Hv.
  2, 4: (* the store refuses the name *)
    rewrite (JoinGame_unstorable w req game Hg Hs Hn Hv);
    (split; [| split; [| split]]);
    [ split; [intros (player & w' & [=]) | intros (_ & _ & [=])]
    | intros player w' [=]
    | intros Hf; exfalso; destruct Hs as [Hs | Hs]; rewrite Hf in Hs; discriminate
    | reflexivity ].
  all: (* joined *)
    destruct (JoinGame_joined w req game Hg Hs Hn Hv) as (w1 & Hrun & Hplayers & Hsnap);
    rewrite Hrun; (split; [| split; [| split]]);
    [ split; [intros _; split; [exact Hs | split; [now apply Hfree | reflexivity]]
             | intros _; eauto]
    | intros player w' [= <- <-]; repeat split; assumption
    | intros Hf; exfalso; destruct Hs as [Hs | Hs]; rewrite Hf in Hs; discriminate
    | intros _ _ [=] ].
Qed.

Lemma JoinGame_spec_witness :
  first_game_by_pin (db Scenario.created) (ToLower "ABC123")
  = Some (mkGame 1 1 "abc123" "waiting" zero_Quiz [])
  /\ exists w',
       JoinGame (mkJoinGameRequest "ABC123" "alice") Scenario.created
       = Ret (Ok (mkPlayer 1 1 "alice" 0)) w'
       /\ db_players (db w') = [mkPlayer 1 1 "alice" 0]
       /\ option_map GameState_Players (snapshot_of "abc123" w')
          = Some [mkGamePlayer 1 "alice" 0].
Proof.
  assert (Hg : first_game_by_pin (db Scenario.created)
                 (ToLower (JoinGameRequest_Pin (mkJoinGameRequest "ABC123" "alice")))
               = Some (mkGame 1 1 "abc123" "waiting" zero_Quiz []))
    by (vm_compute; reflexivity).
  split; [exact Hg |].
  destruct (JoinGame_spec Scenario.created (mkJoinGameRequest "ABC123" "alice") _ Hg)
    as (Hiff & Hok & _).
  destruct (proj2 Hiff) as (player & w' & Hrun).
  { split; [left; reflexivity |]. split; [intros p [] | reflexivity]. }
  destruct (Hok player w' Hrun) as (Hplayer & Hrows & Hsnap).
  exists w'. split; [rewrite Hrun, Hplayer; reflexivity |].
  split; [rewrite Hrows, Hplayer; reflexivity |].
  change (snapshot_of "abc123" w')
    with (snapshot_of (Game_Pin (mkGame 1 1 "abc123" "waiting" zero_Quiz [])) w').
  rewrite Hsnap. reflexivity.
Defined.

(** [C10], refuted as stated. The session is waiting and nobody in it
    bears the name that holds the byte 0, yet the join fails: the store
    refuses the name. And two requests for the free name carol that
    overlap both pass the check of the name before either row is
    inserted: both succeed, and the session has two participants of that
    name. *)
Lemma JoinGame_free_name_refused_or_doubled :
  status_of "abc123" Scenario.created = Some "waiting"
  /\ first_player_by_name (db Scenario.created) 1 Scenario.nul_name = None
  /\ JoinGame (mkJoinGameRequest "abc123" Scenario.nul_name) Scenario.created
     = Ret (Err invalid_byte_sequence) Scenario.created
  /\ first_player_by_name (db Scenario.joined) 1 "carol" = None
  /\ JoinGame_overlapping Scenario.carol Scenario.carol Scenario.joined
     = Ret (Ok (mkPlayer 2 1 "carol" 0), Ok (mkPlayer 3 1 "carol" 0)) Scenario.carol_twice
  /\ db_players (db Scenario.carol_twice)
     = [mkPlayer 1 1 "alice" 0; mkPlayer 2 1 "carol" 0; mkPlayer 3 1 "carol" 0].
Proof. vm_compute. repeat split; reflexivity. Qed.

(** ** The creator's connection goes away *)

(** The status update that the hub asks for leaves the hub alone. *)
Lemma UpdateGameStatus_hub gamePin status w :
  hub (world_of (UpdateGameStatus gamePin status w)) = hub w.
Proof.
  unfold UpdateGameStatus, bind, get, ret, modify, getGameState, storeGameState. cbn.
  destruct (first_game_by_pin (db w) (ToLower gamePin)); [| reflexivity]. cbn.
  destruct (redis w !! redis_key (ToLower gamePin)); reflexivity.
Qed.

(** [C7]: the connection with the sentinel id 0 goes away while the hub
    is free. [Hub.Run] takes the write lock of the hub's mutex, removes
    the client and asks the service to finish the session. Whatever the
    service does (it does not touch the hub), the remaining clients are
    sent nothing: their buffers are as before. When the service reports
    success, [Hub.Run] calls [BroadcastToGame], which asks for the read
    lock of the mutex that [Hub.Run] holds for writing, and the call never
    returns: instead of one [game_end] the clients get none, and the
    mutex stays locked. *)
Theorem creator_disconnect_never_delivers
    (ugs : string -> string -> M (option error)) ptr c w :
  (forall p s w0, hub (world_of (ugs p s w0)) = hub w0) ->
  Hub_mutex (hub w) = Unlocked ->
  List.find (fun c' => (Client_ptr c' =? ptr)%N) (Hub_clients (hub w)) = Some c ->
  Client_playerID c = 0%N ->
  Hub_gameService (hub w) = true ->
  let remaining := List.filter (fun c' => negb (Client_ptr c' =? ptr)%N) (Hub_clients (hub w)) in
  let locked := set_clients remaining (set_mutex WriteLocked w) in
  Hub_clients (hub (world_of (Hub_Run_unregister ugs ptr w))) = remaining
  /\ (forall w1,
         ugs (Client_gamePin c) "finished" locked = Ret None w1 ->
         Hub_Run_unregister ugs ptr w = Blocked w1).
Proof.
  intros Hugs Hm Hc Hid Hgs remaining locked.
  assert (Hrun : Hub_Run_unregister ugs ptr w
                 = match ugs (Client_gamePin c) "finished" locked with
                   | Ret (Some _) w1 => Unlock w1
                   | Ret None w1 =>
                       bind (BroadcastToGame (Client_gamePin c) "game_end"
                               (creator_left_payload
                                  "Quiz creator has left the game. The quiz has ended."
                                  "creator_disconnected"))
                         (fun _ => Unlock) w1
                   | Panic w1 => Panic w1
                   | Blocked w1 => Blocked w1
                   end).
  { unfold Hub_Run_unregister, bind at 1 2, Lock, get. rewrite Hm.
    change (Hub_clients (hub (set_mutex WriteLocked w))) with (Hub_clients (hub w)).
    change (Hub_gameService (hub (set_mutex WriteLocked w))) with (Hub_gameService (hub w)).
    rewrite Hc, Hid, Hgs. cbn [N.eqb].
    unfold bind, modify. fold remaining. fold locked.
    destruct (ugs (Client_gamePin c) "finished" locked) as [[e |] w1 | w1 | w1];
      reflexivity. }
  pose proof (Hugs (Client_gamePin c) "finished" locked) as Hhub.
  rewrite Hrun.
  destruct (ugs (Client_gamePin c) "finished" locked) as [[e |] w1 | w1 | w1];
    cbn [world_of] in Hhub.
  - split; [| discriminate]. unfold Unlock. rewrite Hhub. cbn. rewrite Hhub. reflexivity.
  - assert (Hlocked : Hub_mutex (hub w1) = WriteLocked) by (rewrite Hhub; reflexivity).
    unfold bind. rewrite (BroadcastToGame_write_locked _ _ _ w1 Hlocked).
    split; [cbn; rewrite Hhub; reflexivity |].
    intros w2 [= <-]. reflexivity.
  - split; [cbn; rewrite Hhub; reflexivity | discriminate].
  - split; [cbn; rewrite Hhub; reflexivity | discriminate].
Qed.

Lemma creator_disconnect_never_delivers_witness :
  Hub_mutex (hub Scenario.with_creator) = Unlocked
  /\ List.map Client_playerID (Hub_clients (hub Scenario.with_creator)) = [7; 1; 0]%N
  /\ Hub_Run_unregister UpdateGameStatus 102 Scenario.with_creator
     = Blocked Scenario.creator_left
  /\ List.map Client_playerID (Hub_clients (hub Scenario.creator_left)) = [7; 1]%N
  /\ count_msgs (is_type "game_end") (inbox 101 Scenario.creator_left) = 0%nat.
Proof.
  split; [reflexivity |]. split; [vm_compute; reflexivity |].
  destruct (creator_disconnect_never_delivers UpdateGameStatus 102 Scenario.creator
              Scenario.with_creator UpdateGameStatus_hub)
    as [Hclients Hblocked]; [vm_compute; reflexivity .. |].
  split; [| split; [vm_compute; reflexivity | vm_compute; reflexivity]].
  apply Hblocked. vm_compute. reflexivity.
Defined.

(** The scenario, evaluated: alice and the connection with the sentinel id
    are registered for the active session abc123, and the latter goes
    away. With the status update modelled from the spec the session is
    set to finished, yet no [game_end] reaches alice, the mutex stays
    write-locked and a later broadcast blocks as well. *)
Example creator_disconnect_blocks_hub :
  status_of "abc123" Scenario.with_creator = Some "active"
  /\ List.map Client_playerID (Hub_clients (hub Scenario.with_creator)) = [7; 1; 0]%N
  /\ Hub_Run_unregister UpdateGameStatus 102 Scenario.with_creator
     = Blocked Scenario.creator_left
  /\ status_of "abc123" Scenario.creator_left = Some "finished"
  /\ count_msgs (is_type "game_end") (inbox 101 Scenario.creator_left) = 0%nat
  /\ Hub_mutex (hub Scenario.creator_left) = WriteLocked
  /\ BroadcastToGame "abc123" "timer_update" (timer_update_payload 0 29) Scenario.creator_left
     = Blocked Scenario.creator_left.
Proof. vm_compute. repeat split; reflexivity. Qed.

(** ** The correct option stays hidden while a question is open *)

Lemma map_filter_comm {A B} (f : A -> B) (p : B -> bool) (l : list A) :
  List.map f (List.filter (fun x => p (f x)) l) = List.filter p (List.map f l).
Proof.
  induction l as [| a l IH]; cbn; [reflexivity |].
  destruct (p (f a)); cbn; now rewrite IH.
Qed.

Lemma hide_preload_Options d q :
  hide_Question (preload_Options d q)
  = mkQuestion (Question_ID q) (Question_QuizID q) (Question_Text q) (Question_TimeLimit q)
      (Question_Order q)
      (List.filter (fun o => (Option_QuestionID o =? Question_ID q)%N)
         (List.map hide_Option (db_options d))).
Proof.
  unfold hide_Question, preload_Options. cbn. f_equal.
  apply (map_filter_comm hide_Option (fun o => (Option_QuestionID o =? Question_ID q)%N)).
Qed.

Lemma hide_preload_Quiz d1 d2 row :
  hide_IsCorrect d1 = hide_IsCorrect d2 ->
  List.map hide_Question (Quiz_Questions (Game_Quiz (preload_Quiz d1 row)))
  = List.map hide_Question (Quiz_Questions (Game_Quiz (preload_Quiz d2 row))).
Proof.
  intros [= Hz Hq Ho _ _ _ _ _ _]. unfold preload_Quiz. cbn [Game_Quiz]. rewrite Hz.
  destruct (List.find _ (db_quizzes d2)) as [z |]; [| reflexivity].
  unfold preload_Questions. cbn [Quiz_Questions]. rewrite !List.map_map, Hq.
  apply List.map_ext. intros q. now rewrite !hide_preload_Options, Ho.
Qed.

Lemma to_GameOption_hide l :
  List.map to_GameOption (List.map hide_Option l) = List.map to_GameOption l.
Proof. rewrite List.map_map. apply List.map_ext. intros o. reflexivity. Qed.

Lemma question_snapshot_hide q1 q2 :
  hide_Question q1 = hide_Question q2 ->
  question_snapshot q1 = question_snapshot q2
  /\ Question_TimeLimit q1 = Question_TimeLimit q2
  /\ forall i total, question_start_message i q1 total = question_start_message i q2 total.
Proof.
  intros [= Hid Hz Ht Hl Ho Hopts].
  assert (Hgo : List.map to_GameOption (Question_Options q1)
                = List.map to_GameOption (Question_Options q2)).
  { rewrite <- (to_GameOption_hide (Question_Options q1)), Hopts. apply to_GameOption_hide. }
  unfold question_snapshot, question_start_message. rewrite Hid, Ht, Hl, Hgo. auto.
Qed.

Lemma index_map {A B} (f : A -> B) (l : list A) i :
  index (List.map f l) i = option_map f (index l i).
Proof.
  unfold index. destruct (i <? 0); [reflexivity |].
  change (List.map f l) with (f <$> l). rewrite list_lookup_fmap.
  destruct (l !! Z.to_nat i); reflexivity.
Qed.

Lemma len_map {A B} (f : A -> B) (l : list A) : len (List.map f l) = len l.
Proof. unfold len. now rewrite List.length_map. Qed.

(** What a broadcast does is decided by the hub alone. *)
Lemma BroadcastToGame_hub_decides p t pl wa wb :
  hub wa = hub wb ->
  match BroadcastToGame p t pl wa, BroadcastToGame p t pl wb with
  | Ret _ wa', Ret _ wb' | Panic wa', Panic wb' | Blocked wa', Blocked wb' =>
      hub wa' = hub wb'
  | _, _ => False
  end.
Proof.
  destruct wa as [da ra ha ta ea], wb as [db_ rb hb tb eb]. cbn. intros ->.
  destruct hb as [cs m gs].
  unfold BroadcastToGame, ListAllClients, bind, RLock, RUnlock, get, modify, ret. cbn.
  destruct m as [| | n]; cbn; [| reflexivity |].
  - destruct (send_to_game p _ cs) as [cs' k]. cbn. destruct (k <? 3); reflexivity.
  - destruct (send_to_game p _ cs) as [cs' k]. cbn.
    destruct (n + 1)%positive as [q | q |]; cbn; destruct (k <? 3); cbn; try reflexivity.
    all: destruct q; cbn; reflexivity.
Qed.

Lemma first_game_by_pin_hide d1 d2 pin :
  hide_IsCorrect d1 = hide_IsCorrect d2 ->
  first_game_by_pin d1 pin = first_game_by_pin d2 pin.
Proof. intros [= _ _ _ Hg _ _ _ _ _]. unfold first_game_by_pin. now rewrite Hg. Qed.

(** [C9]: two runs of [StartQuestion] from worlds that differ in nothing
    but the correctness flags of the options end alike: same result, same
    stored snapshots, same messages queued for every client, same timers.
    When the question is opened, the snapshot stored for the session is
    [question_snapshot] and the message broadcast [question_start_message]
    of the question, whose options are [GameOption]s: an id and a text. *)
Theorem StartQuestion_hides_IsCorrect w1 w2 pin i h :
  same_but_IsCorrect w1 w2 ->
  ends_alike (StartQuestion pin i h w1) (StartQuestion pin i h w2)
  /\ (forall row question gs,
         Hub_mutex (hub w1) = Unlocked ->
         first_game_by_pin (db w1) (ToLower pin) = Some row ->
         index (Quiz_Questions (Game_Quiz (preload_Quiz (db w1) row))) i = Some question ->
         snapshot_of pin w1 = Some gs ->
         StartQuestion pin i h w1
         = Ret None
             (question_started pin i question
                (len (Quiz_Questions (Game_Quiz (preload_Quiz (db w1) row)))) gs h w1)).
Proof.
  intros (Hdb & Hr & Hh & Ht).
  split; [| intros row question gs; apply StartQuestion_opens].
  pose proof (first_game_by_pin_hide _ _ (ToLower pin) Hdb) as Hg.
  unfold StartQuestion, bind, get, getGameState, storeGameState, ret, modify,
    spawn_runQuestionTimer, panic.
  rewrite Hg.
  destruct (first_game_by_pin (db w2) (ToLower pin)) as [row |]; [| cbn; auto].
  pose proof (hide_preload_Quiz _ _ row Hdb) as Hqs.
  set (qs1 := Quiz_Questions (Game_Quiz (preload_Quiz (db w1) row))) in *.
  set (qs2 := Quiz_Questions (Game_Quiz (preload_Quiz (db w2) row))) in *.
  assert (Hlen : len qs1 = len qs2).
  { rewrite <- (len_map hide_Question qs1), Hqs. apply len_map. }
  rewrite Hlen. destruct (i >=? len qs2); [cbn; auto |].
  assert (Hidx : option_map hide_Question (index qs1 i)
                 = option_map hide_Question (index qs2 i)).
  { rewrite <- !index_map. now rewrite Hqs. }
  destruct (index qs1 i) as [q1 |], (index qs2 i) as [q2 |]; try discriminate Hidx;
    [| cbn; auto].
  assert (Hq : hide_Question q1 = hide_Question q2)
    by (cbn [option_map] in Hidx; congruence).
  destruct (question_snapshot_hide q1 q2 Hq) as (Hsnap & Hlimit & Hmsg).
  rewrite Hr.
  destruct (redis w2 !! redis_key (ToLower pin)) as [gs |]; [| cbn; auto].
  fold (question_snapshot q1). fold (question_snapshot q2).
  change (question_start_payload i
            (mkBroadcastQuestion (Question_ID q1) (Question_Text q1) (Question_TimeLimit q1)
               (GameQuestion_Options (question_snapshot q1))) (len qs2))
    with (Message_Payload (question_start_message i q1 (len qs2))).
  change (question_start_payload i
            (mkBroadcastQuestion (Question_ID q2) (Question_Text q2) (Question_TimeLimit q2)
               (GameQuestion_Options (question_snapshot q2))) (len qs2))
    with (Message_Payload (question_start_message i q2 (len qs2))).
  rewrite Hmsg, Hsnap, Hlimit, Hr.
  set (stored := <[redis_key (ToLower pin) := _]> (redis w2)).
  destruct h; [| cbn; auto].
  set (payload := Message_Payload (question_start_message i q2 (len qs2))).
  pose proof (BroadcastToGame_hub_decides (ToLower pin) "question_start" payload
                (set_redis stored w1) (set_redis stored w2) Hh) as Hsame.
  pose proof (BroadcastToGame_hub_only (ToLower pin) "question_start" payload
                (set_redis stored w1)) as (_ & Hr1 & Ht1 & _).
  pose proof (BroadcastToGame_hub_only (ToLower pin) "question_start" payload
                (set_redis stored w2)) as (_ & Hr2 & Ht2 & _).
  destruct (BroadcastToGame _ _ _ (set_redis stored w1)) as [[] wa | wa | wa],
           (BroadcastToGame _ _ _ (set_redis stored w2)) as [[] wb | wb | wb];
    try contradiction; cbn in *; repeat split; congruence.
Qed.

Lemma StartQuestion_hides_IsCorrect_witness :
  same_but_IsCorrect Scenario.connected Scenario.connected_flipped
  /\ db Scenario.connected <> db Scenario.connected_flipped
  /\ ends_alike (StartQuestion "abc123" 0 true Scenario.connected)
       (StartQuestion "abc123" 0 true Scenario.connected_flipped).
Proof.
  assert (Hsame : same_but_IsCorrect Scenario.connected Scenario.connected_flipped)
    by (vm_compute; repeat split; reflexivity).
  split; [exact Hsame |]. split; [vm_compute; discriminate |].
  exact (proj1 (StartQuestion_hides_IsCorrect Scenario.connected Scenario.connected_flipped
                  "abc123" 0 true Hsame)).
Defined.


(** ** The store only grows *)

#[local] Instance store_grows_refl : Reflexive store_grows.
Proof. intros w. split; eauto. Qed.

#[local] Instance store_grows_trans : Transitive store_grows.
Proof.
  intros w1 w2 w3 [Hg12 Ha12] [Hg23 Ha23]. split.
  - intros pin row H1. destruct (Hg12 pin row H1) as (row2 & H2 & Hid2).
    destruct (Hg23 pin row2 H2) as (row3 & H3 & Hid3). exists row3. split; congruence.
  - intros g p q a H1. eauto.
Qed.

Lemma store_grows_same_db w w' : db w' = db w -> store_grows w w'.
Proof. intros H. unfold store_grows. rewrite H. split; eauto. Qed.

Lemma hub_only_store_grows w w' : hub_only w w' -> store_grows w w'.
Proof. intros (H & _). now apply store_grows_same_db. Qed.

Lemma find_app_Some {A} (f : A -> bool) (l l' : list A) (x : A) :
  List.find f l = Some x -> List.find f (l ++ l') = Some x.
Proof.
  induction l as [| a l IH]; cbn; [discriminate |].
  destruct (f a); [trivial | exact IH].
Qed.

Lemma store_grows_update_status id status w :
  store_grows w (set_db (update_status id status (db w)) w).
Proof.
  split; [| intros g p q a H; exact H].
  intros pin row H. unfold first_game_by_pin in *. cbn [db set_db update_status db_games].
  rewrite find_map_stable, H.
  - cbn. eexists. split; [reflexivity |]. destruct (Game_ID row =? id)%N; reflexivity.
  - intros g. destruct (Game_ID g =? id)%N; reflexivity.
Qed.

Lemma store_grows_create_game_answer a w :
  store_grows w (set_db (create_game_answer a (db w)) w).
Proof.
  split; [intros pin row H; eauto |].
  intros g p q a0 H. unfold first_answer in *. cbn. now apply find_app_Some.
Qed.

Lemma store_grows_add_score playerID points w :
  store_grows w (set_db (add_score playerID points (db w)) w).
Proof. split; [intros pin row H; eauto | intros g p q a H; exact H]. Qed.

Lemma storeGameState_store pin gs : keeps store_grows (storeGameState pin gs).
Proof. intros w. now apply store_grows_same_db. Qed.

Lemma getGameState_store pin : keeps store_grows (getGameState pin).
Proof. intros w. now apply store_grows_same_db. Qed.

Lemma spawn_store pin i t : keeps store_grows (spawn_runQuestionTimer pin i t).
Proof. intros w. now apply store_grows_same_db. Qed.

Lemma hub_only_store {A} (m : M A) : keeps hub_only m -> keeps store_grows m.
Proof. apply keeps_weaken, hub_only_store_grows. Qed.

Lemma set_timers_store f : keeps store_grows (modify (fun w => set_timers (f w) w)).
Proof. apply keeps_modify. intros w. now apply store_grows_same_db. Qed.

Lemma Create_Player_store gameID name score :
  keeps store_grows (Create_Player gameID name score).
Proof.
  intros w. unfold Create_Player. destruct (valid_text name); [| reflexivity].
  split; [intros pin row H; eauto | intros g p q a H; exact H].
Qed.

Lemma Create_GameAnswer_store a : keeps store_grows (Create_GameAnswer a).
Proof.
  intros w. unfold Create_GameAnswer. destruct (existsb _ _); [| reflexivity].
  apply store_grows_create_game_answer.
Qed.

Lemma Update_score_store playerID points : keeps store_grows (Update_score playerID points).
Proof.
  intros w. unfold Update_score. destruct (forallb _ _); [| reflexivity].
  apply store_grows_add_score.
Qed.

Ltac store_tac :=
  repeat first
    [ frame_step
    | apply Create_Player_store | apply Create_GameAnswer_store | apply Update_score_store
    | apply storeGameState_store | apply getGameState_store | apply spawn_store
    | apply set_timers_store
    | apply hub_only_store;
      first [ apply BroadcastToGame_hub_only | apply Lock_hub_only | apply Unlock_hub_only
            | apply RLock_hub_only | apply RUnlock_hub_only | apply set_clients_hub_only ]
    | apply keeps_modify; intros ?;
      first [ apply store_grows_update_status | apply store_grows_create_game_answer
            | apply store_grows_add_score | apply store_grows_same_db; reflexivity ] ].

Lemma StartQuestion_store pin i h : keeps store_grows (StartQuestion pin i h).
Proof. unfold StartQuestion. store_tac. Qed.

Lemma EndQuestion_store pin h i : keeps store_grows (EndQuestion pin h i).
Proof. unfold EndQuestion. store_tac. Qed.

Lemma NextQuestion_store pin h : keeps store_grows (NextQuestion pin h).
Proof. unfold NextQuestion. store_tac. apply StartQuestion_store. Qed.

Lemma StartQuiz_store pin userID : keeps store_grows (StartQuiz pin userID).
Proof. unfold StartQuiz. store_tac. Qed.

Lemma SubmitAnswer_store pin playerID req h : keeps store_grows (SubmitAnswer pin playerID req h).
Proof.
  unfold SubmitAnswer, SubmitAnswer_reads, SubmitAnswer_writes, GetGameByPin. store_tac.
Qed.

Lemma runQuestionTimer_step_store k : keeps store_grows (runQuestionTimer_step k).
Proof.
  unfold runQuestionTimer_step, runQuestionTimer_tick. store_tac; apply EndQuestion_store.
Qed.

Lemma UpdateGameStatus_store pin status : keeps store_grows (UpdateGameStatus pin status).
Proof. unfold UpdateGameStatus. store_tac. Qed.

Lemma Hub_Run_register_store client : keeps store_grows (Hub_Run_register client).
Proof. unfold Hub_Run_register. store_tac. Qed.

Lemma Hub_Run_unregister_store ptr :
  keeps store_grows (Hub_Run_unregister UpdateGameStatus ptr).
Proof. unfold Hub_Run_unregister. store_tac. apply UpdateGameStatus_store. Qed.

Lemma JoinGame_store req : keeps store_grows (JoinGame req).
Proof. unfold JoinGame, JoinGame_checks, JoinGame_creates. store_tac. Qed.

Lemma StartGame_store userID req : keeps store_grows (StartGame userID req).
Proof.
  intros w.
  destruct (first_quiz_of_user (db w) (StartGameRequest_QuizID req) userID) as [row |] eqn:Hq;
    [| rewrite StartGame_no_quiz by assumption; reflexivity].
  destruct (pin_taken (drawn_pin w) (db w)) eqn:Ht.
  - rewrite (StartGame_collision w userID req row) by assumption.
    now apply store_grows_same_db.
  - destruct (StartGame_fresh w userID req row Hq Ht) as (w' & -> & Hgames & _ & _ & Hanswers).
    cbn [world_of]. split.
    + intros pin g H. unfold first_game_by_pin in *. rewrite Hgames.
      exists g. split; [now apply find_app_Some | reflexivity].
    + intros g p q a H. unfold first_answer in *. now rewrite Hanswers.
Qed.

Lemma perform_store c w : store_grows w (perform c w).
Proof.
  destruct c; cbn [perform].
  - apply StartGame_store.
  - apply StartQuiz_store.
  - apply StartQuestion_store.
  - apply NextQuestion_store.
  - apply EndQuestion_store.
  - apply JoinGame_store.
  - apply SubmitAnswer_store.
  - apply runQuestionTimer_step_store.
  - apply Hub_Run_register_store.
  - apply Hub_Run_unregister_store.
Qed.

Lemma perform_all_store cs w : store_grows w (perform_all cs w).
Proof.
  revert w. induction cs as [| c cs IH]; intros w; cbn; [reflexivity |].
  etransitivity; [apply perform_store | apply IH].
Qed.

(** ** One answer for a participant and a question *)

(** Requests that run one after the other. Once [SubmitAnswer] has
    succeeded for a (session, participant, question), the store holds
    exactly one answer row for the triple, where it held none, and a
    submission for the same triple that starts afterwards, whatever
    option and time it carries, is refused and changes nothing, so the
    score stays the one the first submission left: refused with "answer
    already submitted" when it comes next, and, after any calls in
    between, with that error or, when the session is no longer active,
    with "game is not active". *)
Theorem SubmitAnswer_second_rejected w pin playerID req h w1 :
  SubmitAnswer pin playerID req h w = Ret None w1 ->
  (exists game,
      first_game_by_pin (db w1) (ToLower pin) = Some game
      /\ answers_of (Game_ID game) playerID (SubmitAnswerRequest_QuestionID req) (db w) = []
      /\ length (answers_of (Game_ID game) playerID (SubmitAnswerRequest_QuestionID req)
                   (db w1)) = 1%nat)
  /\ (forall req' h',
         SubmitAnswerRequest_QuestionID req' = SubmitAnswerRequest_QuestionID req ->
         SubmitAnswer pin playerID req' h' w1 = Ret (Some "answer already submitted") w1)
  /\ (forall calls req' h',
         SubmitAnswerRequest_QuestionID req' = SubmitAnswerRequest_QuestionID req ->
         exists e,
           SubmitAnswer pin playerID req' h' (perform_all calls w1)
           = Ret (Some e) (perform_all calls w1)
           /\ (e = "answer already submitted" \/ e = "game is not active")).
Proof.
  intros (game & question & option & points & Hg & Ha & Hnone & Hdb)%SubmitAnswer_success_db.
  set (qid := SubmitAnswerRequest_QuestionID req) in *.
  set (row := answer_row (Game_ID game) playerID req question option points) in *.
  set (stored := mkGameAnswer (db_next_game_answer_id (db w)) (Game_ID game) playerID qid
                   (SubmitAnswerRequest_OptionID req) (GameAnswer_IsCorrect row)
                   (GameAnswer_TimeSpent row) points zero_Player).
  assert (Hmatch : (GameAnswer_GameID stored =? Game_ID game)%N
                   && (GameAnswer_PlayerID stored =? playerID)%N
                   && (GameAnswer_QuestionID stored =? qid)%N = true).
  { cbn. now rewrite !N.eqb_refl. }
  assert (Hg1 : first_game_by_pin (db w1) (ToLower pin) = Some game).
  { rewrite Hdb. exact Hg. }
  assert (Hanswers : db_game_answers (db w1) = (db_game_answers (db w) ++ [stored])%list).
  { rewrite Hdb. reflexivity. }
  assert (Hfound : first_answer (db w1) (Game_ID game) playerID qid = Some stored).
  { unfold first_answer. rewrite Hanswers. apply find_app_None; [exact Hnone | exact Hmatch]. }
  split; [| split].
  - exists game. split; [exact Hg1 |].
    unfold answers_of. rewrite Hanswers, List.filter_app.
    rewrite (filter_find_None _ _ Hnone). cbn [List.filter app].
    rewrite Hmatch. split; reflexivity.
  - intros req' h' Hreq.
    apply (SubmitAnswer_duplicate w1 pin playerID req' h' game stored); [exact Hg1 | exact Ha |].
    rewrite Hreq. exact Hfound.
  - intros calls req' h' Hreq.
    destruct (perform_all_store calls w1) as [Hgames Hkept].
    destruct (Hgames _ _ Hg1) as (game2 & Hg2 & Hid).
    specialize (Hkept _ _ _ _ Hfound). rewrite <- Hid in Hkept.
    destruct (String.eqb_spec (Game_Status game2) "active") as [Ha2 | Ha2].
    + exists "answer already submitted". split; [| left; reflexivity].
      apply (SubmitAnswer_duplicate _ pin playerID req' h' game2 stored);
        [exact Hg2 | exact Ha2 |].
      rewrite Hreq. exact Hkept.
    + exists "game is not active". split; [| right; reflexivity].
      now apply (SubmitAnswer_not_active _ pin playerID req' h' game2).
Qed.

Lemma SubmitAnswer_second_rejected_witness :
  SubmitAnswer "abc123" 1 (mkSubmitAnswerRequest 1 1 2 10) true Scenario.question0
  = Ret None Scenario.answered_once
  /\ SubmitAnswer "abc123" 1 (mkSubmitAnswerRequest 1 1 1 3) true Scenario.answered_once
     = Ret (Some "answer already submitted") Scenario.answered_once
  /\ score_of 1 Scenario.answered_once = Some 133.
Proof.
  assert (H1 : SubmitAnswer "abc123" 1 (mkSubmitAnswerRequest 1 1 2 10) true Scenario.question0
               = Ret None Scenario.answered_once) by (vm_compute; reflexivity).
  split; [exact H1 |]. split; [| vm_compute; reflexivity].
  exact (proj1 (proj2 (SubmitAnswer_second_rejected Scenario.question0 "abc123" 1
                         (mkSubmitAnswerRequest 1 1 2 10) true Scenario.answered_once H1))
           (mkSubmitAnswerRequest 1 1 1 3) true eq_refl).
Defined.

(** ** Awards *)

(** [X1]: among correct answers to one question a quicker answer never
    earns less, and no correct answer earns less than the base of 100
    points: for a time limit and times spent of ordinary size the award is
    antitone in the time spent. *)
Theorem calculatePoints_quicker_never_less timeLimit timeSpent1 timeSpent2 :
  0 < timeLimit < 2 ^ 31 ->
  - 2 ^ 31 <= timeSpent1 -> timeSpent1 <= timeSpent2 -> timeSpent2 < 2 ^ 31 ->
  exists points1 points2,
    calculatePoints timeSpent1 timeLimit true = Some points1
    /\ calculatePoints timeSpent2 timeLimit true = Some points2
    /\ 100 <= points2 <= points1.
Proof.
  intros Hl H1 H12 H2.
  rewrite !calculatePoints_formula by lia.
  eexists. eexists. split; [reflexivity |]. split; [reflexivity |].
  assert (50 * (timeLimit - timeSpent2) / timeLimit
          <= 50 * (timeLimit - timeSpent1) / timeLimit)
    by (apply Z.div_le_mono; lia).
  lia.
Qed.

Lemma calculatePoints_quicker_never_less_witness :
  exists points1 points2,
    calculatePoints 5 30 true = Some points1
    /\ calculatePoints 20 30 true = Some points2
    /\ 100 <= points2 <= points1.
Proof.
  apply (calculatePoints_quicker_never_less 30 5 20); vm_compute; easy.
Defined.

(** The award of a correct answer whose time spent is positive stays
    below the full bonus. *)
Lemma calculatePoints_below_full timeSpent timeLimit points :
  0 < timeLimit < 2 ^ 31 -> 0 < timeSpent < 2 ^ 31 ->
  calculatePoints timeSpent timeLimit true = Some points ->
  100 <= points <= 149.
Proof.
  intros Hl Hs. rewrite calculatePoints_formula by lia. intros [= <-].
  assert (50 * (timeLimit - timeSpent) / timeLimit < 50)
    by (apply Z.div_lt_upper_bound; lia).
  lia.
Qed.

(** [X2]: what a successful [SubmitAnswer] awards. For a question with a
    time limit of ordinary size and a time spent that is not negative, the
    row it inserts and the score it adds carry 0 points for an incorrect
    option and between 100 and 149 points for a correct one: a time spent
    of 0 is taken for the whole time limit and earns exactly 100, so the
    full bonus of 50 is never paid. *)
Theorem SubmitAnswer_award w pin playerID req h w1 question option :
  first_question (db w) (SubmitAnswerRequest_QuestionID req) = Some question ->
  first_option (db w) (SubmitAnswerRequest_OptionID req) = Some option ->
  0 < Question_TimeLimit question < 2 ^ 31 ->
  0 <= SubmitAnswerRequest_TimeSpent req < 2 ^ 31 ->
  SubmitAnswer pin playerID req h w = Ret None w1 ->
  exists game points,
    first_game_by_pin (db w) (ToLower pin) = Some game
    /\ db w1
       = add_score playerID points
           (create_game_answer
              (answer_row (Game_ID game) playerID req question option points) (db w))
    /\ (if Option_IsCorrect option then 100 <= points <= 149 else points = 0)
    /\ (Option_IsCorrect option = true -> SubmitAnswerRequest_TimeSpent req = 0 ->
        points = 100).
Proof.
  intros Hq Ho Hl Hs Hrun.
  destruct (SubmitAnswer_success_inv _ _ _ _ _ _ Hrun)
    as (game & question' & option' & points & Hg & _ & _ & Hq' & Ho' & Hp & Hw).
  rewrite Hq in Hq'. injection Hq' as <-. rewrite Ho in Ho'. injection Ho' as <-.
  exists game, points. split; [exact Hg |]. split.
  { destruct Hw as (Hdb & _). rewrite Hdb. apply db_answer_recorded. }
  destruct (Option_IsCorrect option).
  - destruct (Z.eqb_spec (SubmitAnswerRequest_TimeSpent req) 0) as [H0 | H0].
    + rewrite calculatePoints_full_time in Hp by lia. injection Hp as <-.
      split; [lia | reflexivity].
    + split; [| intros _ H; contradiction].
      apply (calculatePoints_below_full _ _ _ Hl) in Hp; lia.
  - rewrite calculatePoints_incorrect in Hp. injection Hp as <-.
    split; [reflexivity | discriminate].
Qed.

Lemma SubmitAnswer_award_witness :
  exists game points,
    first_game_by_pin (db Scenario.question0) (ToLower "abc123") = Some game
    /\ db Scenario.answered_once
       = add_score 1 points
           (create_game_answer
              (answer_row (Game_ID game) 1 (mkSubmitAnswerRequest 1 1 2 10)
                 (mkQuestion 1 1 "Capital of Italy?" 30 1 []) (mkOption 2 1 "Rome" true 2)
                 points)
              (db Scenario.question0))
    /\ 100 <= points <= 149.
Proof.
  destruct (SubmitAnswer_award Scenario.question0 "abc123" 1 (mkSubmitAnswerRequest 1 1 2 10)
              true Scenario.answered_once
              (mkQuestion 1 1 "Capital of Italy?" 30 1 []) (mkOption 2 1 "Rome" true 2))
    as (game & points & Hg & Hdb & Hp & _);
    [vm_compute; reflexivity | vm_compute; reflexivity | vm_compute; easy | vm_compute; easy
    | vm_compute; reflexivity |].
  exists game, points. split; [exact Hg |]. split; [exact Hdb | exact Hp].
Defined.

(** ** Broadcasts stay within the session *)

Lemma send_to_game_others gamePin data clients :
  List.filter (fun c => negb (in_session gamePin c)) (fst (send_to_game gamePin data clients))
  = List.filter (fun c => negb (in_session gamePin c)) clients.
Proof.
  induction clients as [| c cs IH]; [reflexivity |]. cbn [send_to_game].
  destruct (send_to_game gamePin data cs) as [cs' n]. cbn [fst] in IH.
  unfold in_session in *. destruct (EqualFold (Client_gamePin c) gamePin) eqn:Hc.
  - destruct (enqueue data c) as [c' |] eqn:He; cbn [fst List.filter].
    + unfold enqueue in He. destruct (_ <? _)%nat; [| discriminate]. injection He as <-.
      cbn [Client_gamePin]. rewrite Hc. cbn [negb]. exact IH.
    + rewrite Hc. cbn [negb]. exact IH.
  - cbn [fst List.filter]. rewrite Hc. cbn [negb]. now rewrite IH.
Qed.

Lemma send_to_game_session gamePin data clients :
  List.filter (in_session gamePin) (fst (send_to_game gamePin data clients))
  = List.map (push data)
      (List.filter (fun c => in_session gamePin c && has_room c) clients).
Proof.
  induction clients as [| c cs IH]; [reflexivity |]. cbn [send_to_game].
  destruct (send_to_game gamePin data cs) as [cs' n]. cbn [fst] in IH.
  unfold in_session, has_room, enqueue in *.
  destruct (EqualFold (Client_gamePin c) gamePin) eqn:Hc; cbn [andb List.filter].
  - destruct (_ <? _)%nat; cbn [fst List.filter List.map].
    + cbn [Client_gamePin]. rewrite Hc. cbn [andb]. now rewrite IH.
    + rewrite Hc. cbn [andb]. exact IH.
  - cbn [fst List.filter]. rewrite Hc. cbn [andb]. exact IH.
Qed.

(** [X4]: a broadcast stays within its session. With the mutex free,
    [BroadcastToGame] returns and changes nothing but the clients of the
    hub: the clients of other sessions are the same clients in the same
    order with the same buffers, and of the clients of the session (the
    code compared without regard to case) those with room in their buffer
    have the message appended while those whose buffer is full are
    dropped from the hub. *)
Theorem BroadcastToGame_session_only w gamePin messageType payload :
  Hub_mutex (hub w) = Unlocked ->
  exists w',
    BroadcastToGame gamePin messageType payload w = Ret tt w'
    /\ hub_only w w'
    /\ Hub_mutex (hub w') = Unlocked
    /\ List.filter (fun c => negb (in_session gamePin c)) (Hub_clients (hub w'))
       = List.filter (fun c => negb (in_session gamePin c)) (Hub_clients (hub w))
    /\ List.filter (in_session gamePin) (Hub_clients (hub w'))
       = List.map (push (mkMessage messageType payload))
           (List.filter (fun c => in_session gamePin c && has_room c) (Hub_clients (hub w))).
Proof.
  intros Hm. eexists. split; [apply BroadcastToGame_unlocked, Hm |].
  split; [repeat split |]. split; [exact Hm |].
  unfold deliver. cbn [hub set_clients set_hub Hub_clients].
  split; [apply send_to_game_others | apply send_to_game_session].
Qed.

Lemma BroadcastToGame_session_only_witness :
  exists w',
    BroadcastToGame "ABC123" "timer_update" (timer_update_payload 0 29) Scenario.question0
    = Ret tt w'
    /\ List.map Message_Type (inbox 101 w') = ["question_start"; "timer_update"].
Proof.
  destruct (BroadcastToGame_session_only Scenario.question0 "ABC123" "timer_update"
              (timer_update_payload 0 29))
    as (w' & Hrun & _); [reflexivity |].
  exists w'. split; [exact Hrun |].
  revert Hrun. vm_compute. intros [= <-]. reflexivity.
Defined.

(** The clients that are left when a broadcast has run. *)
Lemma BroadcastToGame_clients w gamePin messageType payload :
  Hub_clients (hub (world_of (BroadcastToGame gamePin messageType payload w)))
  = match Hub_mutex (hub w) with
    | WriteLocked => Hub_clients (hub w)
    | _ => fst (send_to_game gamePin (mkMessage messageType payload) (Hub_clients (hub w)))
    end.
Proof.
  destruct w as [d r [cs m gs] ts e].
  unfold BroadcastToGame, ListAllClients, bind, RLock, RUnlock, get, modify, ret. cbn.
  destruct m as [| | n]; cbn; [| reflexivity |].
  - destruct (send_to_game gamePin _ cs) as [cs' k]. cbn. destruct (k <? 3); reflexivity.
  - destruct (send_to_game gamePin _ cs) as [cs' k]. cbn.
    destruct (n + 1)%positive as [q | q |]; cbn; destruct (k <? 3); cbn; try reflexivity.
    all: destruct q; cbn; reflexivity.
Qed.

Lemma send_to_game_bounded gamePin data clients :
  buffers_bounded clients ->
  buffers_bounded (fst (send_to_game gamePin data clients))
  /\ (length (fst (send_to_game gamePin data clients)) <= length clients)%nat.
Proof.
  unfold buffers_bounded. induction 1 as [| c cs Hc Hcs IH]; [split; [constructor | reflexivity] |].
  cbn [send_to_game]. destruct (send_to_game gamePin data cs) as [cs' n]. cbn [fst] in *.
  destruct IH as [IH1 IH2].
  destruct (EqualFold (Client_gamePin c) gamePin).
  - unfold enqueue. destruct (Nat.ltb_spec (length (Client_send c)) send_capacity);
      cbn [fst length].
    + split; [| lia]. constructor; [| exact IH1].
      cbn [Client_send]. rewrite length_app. cbn. lia.
    + split; [exact IH1 | lia].
  - cbn [fst length]. split; [constructor; assumption | lia].
Qed.

(** [X5]: a broadcast never overfills a buffer and never adds a client.
    Whatever the state of the mutex, when every buffer held at most 256
    messages before [BroadcastToGame] then every buffer does afterwards,
    and the hub has no more clients than before. *)
Theorem BroadcastToGame_buffers_bounded w gamePin messageType payload :
  buffers_bounded (Hub_clients (hub w)) ->
  let w' := world_of (BroadcastToGame gamePin messageType payload w) in
  buffers_bounded (Hub_clients (hub w'))
  /\ (length (Hub_clients (hub w')) <= length (Hub_clients (hub w)))%nat.
Proof.
  intros Hb w'. subst w'. rewrite BroadcastToGame_clients.
  destruct (Hub_mutex (hub w)); try (now apply send_to_game_bounded).
  split; [exact Hb | reflexivity].
Qed.

Lemma BroadcastToGame_buffers_bounded_witness :
  buffers_bounded (Hub_clients (hub Scenario.question0))
  /\ buffers_bounded
       (Hub_clients
          (hub (world_of (BroadcastToGame "abc123" "timer_update" (timer_update_payload 0 29)
                            Scenario.question0)))).
Proof.
  assert (Hb : buffers_bounded (Hub_clients (hub Scenario.question0))).
  { unfold buffers_bounded. apply Forall_forall. intros c Hc. apply Nat.leb_le.
    revert c Hc. apply Forall_forall. vm_compute. repeat constructor. }
  split; [exact Hb |].
  apply (BroadcastToGame_buffers_bounded Scenario.question0 "abc123" "timer_update"
           (timer_update_payload 0 29) Hb).
Defined.

(** ** Registering and unregistering *)

Lemma filter_other_ptr ptr clients :
  List.find (fun c => (Client_ptr c =? ptr)%N) clients = None ->
  List.filter (fun c => negb (Client_ptr c =? ptr)%N) clients = clients.
Proof.
  induction clients as [| c cs IH]; [reflexivity |]. cbn.
  destruct (Client_ptr c =? ptr)%N; [discriminate |]. cbn. intros H. now rewrite IH.
Qed.

Lemma existsb_find_None {A} (f : A -> bool) (l : list A) :
  List.find f l = None -> existsb f l = false.
Proof.
  induction l as [| a l IH]; [reflexivity |]. cbn. destruct (f a); [discriminate | exact IH].
Qed.

(** [X6]: registering and unregistering undo each other. With the mutex
    free and for a connection that is not registered yet and does not carry
    the sentinel id 0, the register branch of [Hub.Run] followed by the
    unregister branch gives back the world it started from, whatever the
    service does on a status update; registering the same connection twice
    is registering it once; and unregistering a connection that is not
    registered changes nothing. *)
Theorem Hub_Run_register_unregister
    (UpdateGameStatus : string -> string -> M (option error)) w client :
  Hub_mutex (hub w) = Unlocked ->
  List.find (fun c => (Client_ptr c =? Client_ptr client)%N) (Hub_clients (hub w)) = None ->
  Client_playerID client <> 0%N ->
  (Hub_Run_register client;;; Hub_Run_unregister UpdateGameStatus (Client_ptr client)) w
  = Ret tt w
  /\ (Hub_Run_register client;;; Hub_Run_register client) w = Hub_Run_register client w
  /\ Hub_Run_unregister UpdateGameStatus (Client_ptr client) w = Ret tt w.
Proof.
  destruct w as [d r [cs m gs] ts e]. cbn [hub Hub_mutex Hub_clients]. intros -> Hfresh Hid.
  apply N.eqb_neq in Hid.
  unfold Hub_Run_register, Hub_Run_unregister, bind, Lock, Unlock, get, modify, ret.
  cbn. rewrite (existsb_find_None _ _ Hfresh). cbn.
  rewrite existsb_app, (existsb_find_None _ _ Hfresh). cbn. rewrite N.eqb_refl. cbn.
  rewrite (find_app_None _ _ _ Hfresh (N.eqb_refl _)). cbn. rewrite Hid. cbn.
  rewrite List.filter_app. cbn. rewrite N.eqb_refl. cbn.
  rewrite (filter_other_ptr _ _ Hfresh), app_nil_r, Hfresh. cbn.
  repeat split.
Qed.

Lemma Hub_Run_register_unregister_witness :
  (Hub_Run_register Scenario.alice;;; Hub_Run_unregister (fun _ _ => ret None) 101)
    Scenario.joined
  = Ret tt Scenario.joined.
Proof.
  apply (proj1 (Hub_Run_register_unregister (fun _ _ => ret None) Scenario.joined
                  Scenario.alice
                  eq_refl eq_refl ltac:(discriminate))).
Defined.

(** ** Who is connected *)

Lemma existsb_in_session_id gamePin playerID clients :
  existsb (fun c => EqualFold (Client_gamePin c) gamePin && (Client_playerID c =? playerID)%N)
    clients = true
  <-> In playerID
        (List.map Client_playerID
           (List.filter (fun c => EqualFold (Client_gamePin c) gamePin) clients)).
Proof.
  rewrite existsb_exists, in_map_iff. split.
  - intros (c & Hc & H). apply andb_true_iff in H as [Hp Hi]. apply N.eqb_eq in Hi.
    exists c. split; [exact Hi |]. apply filter_In. now split.
  - intros (c & Hi & Hc). apply filter_In in Hc as [Hc Hp]. exists c. split; [exact Hc |].
    rewrite Hp, Hi, N.eqb_refl. reflexivity.
Qed.

(** [X7]: the views of the hub agree. With the mutex free,
    [IsPlayerConnected], [IsCreatorConnected] and [GetConnectedPlayers]
    return and leave the world as it was; a player is connected to a
    session exactly when its id is among the connected players of the
    session, and the creator is connected exactly when the sentinel id 0
    is. Once the register branch of [Hub.Run] has taken a new connection,
    its player is connected to its session, however the code is cased. *)
Theorem IsPlayerConnected_agrees w gamePin playerID :
  Hub_mutex (hub w) = Unlocked ->
  exists ids connected,
    GetConnectedPlayers gamePin w = Ret ids w
    /\ IsPlayerConnected gamePin playerID w = Ret connected w
    /\ (connected = true <-> In playerID ids)
    /\ IsCreatorConnected gamePin w = IsPlayerConnected gamePin 0 w
    /\ (forall client,
           List.find (fun c => (Client_ptr c =? Client_ptr client)%N) (Hub_clients (hub w))
           = None ->
           EqualFold (Client_gamePin client) gamePin = true ->
           Client_playerID client = playerID ->
           exists w',
             Hub_Run_register client w = Ret tt w'
             /\ IsPlayerConnected gamePin playerID w' = Ret true w').
Proof.
  destruct w as [d r [cs m gs] ts e]. cbn [hub Hub_mutex Hub_clients]. intros ->.
  exists (List.map Client_playerID
            (List.filter (fun c => EqualFold (Client_gamePin c) gamePin) cs)),
    (existsb
       (fun c => EqualFold (Client_gamePin c) gamePin && (Client_playerID c =? playerID)%N) cs).
  split; [reflexivity |]. split; [reflexivity |].
  split; [apply existsb_in_session_id |]. split; [reflexivity |].
  intros client Hfresh Hpin Hid.
  unfold Hub_Run_register, IsPlayerConnected, bind, Lock, Unlock, RLock, RUnlock, get, modify,
    ret.
  cbn. rewrite (existsb_find_None _ _ Hfresh). cbn.
  eexists. split; [reflexivity |]. cbn.
  rewrite existsb_app. cbn. rewrite Hpin, Hid, N.eqb_refl. cbn.
  rewrite orb_true_r. reflexivity.
Qed.

Lemma IsPlayerConnected_agrees_witness :
  exists ids connected,
    GetConnectedPlayers "ABC123" Scenario.question0 = Ret ids Scenario.question0
    /\ IsPlayerConnected "ABC123" 1 Scenario.question0 = Ret connected Scenario.question0
    /\ (connected = true <-> In 1%N ids).
Proof.
  destruct (IsPlayerConnected_agrees Scenario.question0 "ABC123" 1 eq_refl)
    as (ids & connected & H1 & H2 & H3 & _).
  exists ids, connected. split; [exact H1 |]. split; [exact H2 | exact H3].
Defined.

(** ** A timer runs down *)

Lemma runQuestionTimer_tick_unlocked w t :
  Hub_mutex (hub w) = Unlocked ->
  1 <= Timer_timeLeft t <= int_max ->
  runQuestionTimer_tick t w
  = Ret (Timer_timeLeft t - 1)
      (deliver (ToLower (Timer_gamePin t))
         (timer_update_message (Timer_questionIndex t) (Timer_timeLeft t - 1))
         (timer_ticked (Timer_gamePin t) (Timer_timeLeft t - 1) w)).
Proof.
  intros Hm Ht. unfold runQuestionTimer_tick, timer_ticked, bind, getGameState,
    storeGameState, ret.
  rewrite wrap_int_small by (unfold int_min, int_max in *; lia).
  rewrite !redis_key_ToLower.
  destruct (redis w !! redis_key (Timer_gamePin t)) as [gs |];
    [destruct (GameState_CurrentQuestion gs) as [cq |] |];
    rewrite BroadcastToGame_unlocked by exact Hm; reflexivity.
Qed.

Lemma hub_timer_ticked pin timeLeft w : hub (timer_ticked pin timeLeft w) = hub w.
Proof.
  unfold timer_ticked. destruct (redis w !! redis_key pin) as [gs |]; [| reflexivity].
  destruct (GameState_CurrentQuestion gs); reflexivity.
Qed.

Lemma db_timer_ticked pin timeLeft w : db (timer_ticked pin timeLeft w) = db w.
Proof.
  unfold timer_ticked. destruct (redis w !! redis_key pin) as [gs |]; [| reflexivity].
  destruct (GameState_CurrentQuestion gs); reflexivity.
Qed.

Lemma timers_timer_ticked pin timeLeft w : timers (timer_ticked pin timeLeft w) = timers w.
Proof.
  unfold timer_ticked. destruct (redis w !! redis_key pin) as [gs |]; [| reflexivity].
  destruct (GameState_CurrentQuestion gs); reflexivity.
Qed.

Lemma entropy_timer_ticked pin timeLeft w : entropy (timer_ticked pin timeLeft w) = entropy w.
Proof.
  unfold timer_ticked. destruct (redis w !! redis_key pin) as [gs |]; [| reflexivity].
  destruct (GameState_CurrentQuestion gs); reflexivity.
Qed.

(** A later refresh of the time left overwrites an earlier one. *)
Lemma redis_timer_ticked_twice pin a b w w1 :
  redis w1 = redis (timer_ticked pin a w) ->
  redis (timer_ticked pin b w1) = redis (timer_ticked pin b w).
Proof.
  unfold timer_ticked. intros H.
  destruct (redis w !! redis_key pin) as [gs |] eqn:Hgs;
    [destruct (GameState_CurrentQuestion gs) as [cq |] eqn:Hcq |].
  - cbn in H. rewrite H, lookup_insert_eq. cbn. now rewrite insert_insert_eq.
  - rewrite H, Hgs, Hcq. exact H.
  - rewrite H, Hgs. exact H.
Qed.

Lemma deliver_all_fields pin msgs w :
  db (deliver_all pin msgs w) = db w
  /\ redis (deliver_all pin msgs w) = redis w
  /\ timers (deliver_all pin msgs w) = timers w
  /\ entropy (deliver_all pin msgs w) = entropy w
  /\ Hub_mutex (hub (deliver_all pin msgs w)) = Hub_mutex (hub w).
Proof.
  revert w. induction msgs as [| m ms IH]; intros w; [repeat split |].
  cbn [deliver_all List.fold_left]. specialize (IH (deliver pin m w)).
  unfold deliver_all in IH. destruct IH as (-> & -> & -> & -> & ->). repeat split.
Qed.

Lemma hub_deliver_all pin msgs wa wb :
  hub wa = hub wb -> hub (deliver_all pin msgs wa) = hub (deliver_all pin msgs wb).
Proof.
  revert wa wb. induction msgs as [| m ms IH]; intros wa wb H; [exact H |].
  cbn [deliver_all List.fold_left]. apply IH. unfold deliver, set_clients. cbn. now rewrite H.
Qed.

Lemma delete_insert_same {A} (l : list A) k x : delete k (<[k := x]> l) = delete k l.
Proof.
  revert k. induction l as [| a l IH]; intros [| k]; cbn; try reflexivity.
  f_equal. apply IH.
Qed.

Lemma inbox_deliver_all gamePin msgs w c :
  List.find (fun c' => (Client_ptr c' =? Client_ptr c)%N) (Hub_clients (hub w)) = Some c ->
  EqualFold (Client_gamePin c) gamePin = true ->
  (length (Client_send c) + length msgs <= send_capacity)%nat ->
  inbox (Client_ptr c) (deliver_all gamePin msgs w) = (inbox (Client_ptr c) w ++ msgs)%list.
Proof.
  revert w c. induction msgs as [| m ms IH]; intros w c Hc Hp Hl.
  - cbn. now rewrite app_nil_r.
  - cbn [deliver_all List.fold_left]. cbn [length] in Hl.
    pose proof (find_deliver gamePin m w c Hc Hp ltac:(lia)) as Hc'.
    specialize (IH (deliver gamePin m w) (push m c)). cbn [Client_ptr push] in IH.
    unfold deliver_all in IH. rewrite IH.
    + rewrite (inbox_deliver gamePin m w c Hc Hp) by lia. now rewrite <- app_assoc.
    + exact Hc'.
    + exact Hp.
    + cbn [Client_send push]. rewrite length_app. cbn. lia.
Qed.

Lemma length_countdown i n : length (countdown i n) = n.
Proof. induction n as [| n IH]; cbn; [reflexivity | now rewrite IH]. Qed.

(** [X8]: a question timer that is left to run counts down and ends its
    question once. Let the timer hold [n] seconds, [0 < n], for a question
    of the quiz of its session, with the hub's mutex free. Its [n] steps
    return; they broadcast [timer_update] for [n - 1], ..., 0 seconds
    followed by one [question_end] for the question, in this order (a
    connected client of the session whose buffer has room receives exactly
    these); the timer is gone from the running timers while the others
    stay; the store is untouched; and if the snapshot of the session holds
    a current question, whichever it is, its time left is 0. *)
Theorem runQuestionTimer_counts_down w k t row question :
  timers w !! k = Some t ->
  0 < Timer_timeLeft t <= int_max ->
  Hub_mutex (hub w) = Unlocked ->
  first_game_by_pin (db w) (ToLower (Timer_gamePin t)) = Some row ->
  index (Quiz_Questions (Game_Quiz (preload_Quiz (db w) row))) (Timer_questionIndex t)
  = Some question ->
  let n := Z.to_nat (Timer_timeLeft t) in
  let msgs :=
    (countdown (Timer_questionIndex t) n
     ++ [question_end_message (db w) row (Timer_questionIndex t) question])%list in
  exists w',
    times n (runQuestionTimer_step k) w = Ret tt w'
    /\ timers w' = delete k (timers w)
    /\ db w' = db w
    /\ redis w' = redis (timer_ticked (Timer_gamePin t) 0 w)
    /\ hub w' = hub (deliver_all (ToLower (Timer_gamePin t)) msgs w)
    /\ (forall c,
           List.find (fun c' => (Client_ptr c' =? Client_ptr c)%N) (Hub_clients (hub w))
           = Some c ->
           EqualFold (Client_gamePin c) (Timer_gamePin t) = true ->
           (length (Client_send c) + n + 1 <= send_capacity)%nat ->
           inbox (Client_ptr c) w' = (inbox (Client_ptr c) w ++ msgs)%list).
Proof.
  intros Hk Ht Hm Hg Hq n msgs.
  assert (Hmain : exists w',
             times n (runQuestionTimer_step k) w = Ret tt w'
             /\ timers w' = delete k (timers w)
             /\ db w' = db w
             /\ redis w' = redis (timer_ticked (Timer_gamePin t) 0 w)
             /\ hub w' = hub (deliver_all (ToLower (Timer_gamePin t)) msgs w)).
  { subst msgs. remember n as m eqn:Hn. subst n.
    assert (Hn' : Timer_timeLeft t = Z.of_nat m) by lia.
    destruct m as [| m]; [lia |]. clear Hn.
    revert w t Hk Ht Hm Hg Hq Hn'.
    induction m as [| m IH]; intros w t Hk Ht Hm Hg Hq Hn.
    - (* the last second *)
      cbn [times]. unfold bind at 1.
      unfold runQuestionTimer_step, bind at 1, get. rewrite Hk.
      replace (Timer_timeLeft t >? 0) with true by (symmetry; apply Z.gtb_lt; lia).
      unfold bind at 1. rewrite runQuestionTimer_tick_unlocked by (trivial; lia).
      replace (Timer_timeLeft t - 1) with 0 by lia. cbn [Z.gtb Z.compare].
      unfold bind at 1, modify.
      set (w0 := set_timers _ _). unfold bind.
      rewrite (EndQuestion_unlocked w0 (ToLower (Timer_gamePin t)) (Timer_questionIndex t)
                 row question).
      + cbn [ret]. eexists. split; [reflexivity |].
        subst w0. rewrite ToLower_idem.
        split; [cbn; now rewrite timers_timer_ticked |].
        split; [cbn; now rewrite db_timer_ticked |].
        split; [reflexivity |].
        cbn. rewrite db_timer_ticked, hub_timer_ticked. reflexivity.
      + subst w0. cbn. rewrite hub_timer_ticked. exact Hm.
      + subst w0. cbn. rewrite db_timer_ticked, ToLower_idem. exact Hg.
      + subst w0. cbn. rewrite db_timer_ticked. exact Hq.
    - (* a second that is not the last *)
      cbn [times]. unfold bind at 1.
      unfold runQuestionTimer_step at 1, bind at 1, get. rewrite Hk.
      replace (Timer_timeLeft t >? 0) with true by (symmetry; apply Z.gtb_lt; lia).
      unfold bind at 1. rewrite runQuestionTimer_tick_unlocked by (trivial; lia).
      replace (Timer_timeLeft t - 1 >? 0) with true by (symmetry; apply Z.gtb_lt; lia).
      unfold modify.
      set (t' := mkTimer (Timer_gamePin t) (Timer_questionIndex t) (Timer_timeLeft t - 1)).
      set (w1 := set_timers _ _).
      assert (Hdb1 : db w1 = db w) by (subst w1; cbn; apply db_timer_ticked).
      destruct (IH w1 t') as (w' & Hrun & Htimers & Hdb & Hredis & Hhub).
      + subst w1. cbn. rewrite timers_timer_ticked.
        apply list_lookup_insert_eq. now apply lookup_lt_Some in Hk.
      + cbn. lia.
      + subst w1. cbn. rewrite hub_timer_ticked. exact Hm.
      + rewrite Hdb1. exact Hg.
      + rewrite Hdb1. exact Hq.
      + cbn. lia.
      + exists w'. split; [exact Hrun |].
        split.
        { rewrite Htimers. subst w1. cbn. rewrite timers_timer_ticked.
          apply delete_insert_same. }
        split; [congruence |].
        split.
        { rewrite Hredis. cbn [Timer_gamePin t'].
          apply (redis_timer_ticked_twice _ (Timer_timeLeft t - 1)). reflexivity. }
        rewrite Hhub. cbn [Timer_gamePin Timer_questionIndex t'].
        rewrite Hdb1.
        change (countdown (Timer_questionIndex t) (S (S m)))
          with (timer_update_message (Timer_questionIndex t) (Z.of_nat (S m))
                :: countdown (Timer_questionIndex t) (S m)).
        cbn [app deliver_all List.fold_left].
        apply hub_deliver_all. subst w1. cbn. rewrite hub_timer_ticked.
        replace (Timer_timeLeft t - 1) with (Z.of_nat (S m)) by lia. reflexivity. }
  destruct Hmain as (w' & Hrun & Htimers & Hdb & Hredis & Hhub).
  exists w'. repeat (split; [assumption |]).
  intros c Hc Hp Hl. unfold inbox at 1. rewrite Hhub.
  change (inbox (Client_ptr c) (deliver_all (ToLower (Timer_gamePin t)) msgs w)
          = (inbox (Client_ptr c) w ++ msgs)%list).
  apply inbox_deliver_all; [exact Hc | |].
  - unfold EqualFold in *. now rewrite ToLower_idem.
  - subst msgs. rewrite length_app, length_countdown. cbn. lia.
Qed.

Lemma runQuestionTimer_counts_down_witness :
  exists w',
    times 30 (runQuestionTimer_step 0) Scenario.question0 = Ret tt w'
    /\ timers w' = []
    /\ length (inbox 101 w') = 32%nat.
Proof.
  destruct (runQuestionTimer_counts_down Scenario.question0 0 (mkTimer "abc123" 0 30)
              (mkGame 1 1 "abc123" "active" zero_Quiz [])
              (mkQuestion 1 1 "Capital of Italy?" 30 1
                 [mkOption 1 1 "Paris" false 1; mkOption 2 1 "Rome" true 2]))
    as (w' & Hrun & Htimers & _ & _ & _ & Hinbox);
    [reflexivity | vm_compute; split; [reflexivity | easy] | reflexivity
    | vm_compute; reflexivity | vm_compute; reflexivity |].
  exists w'. split; [exact Hrun |]. split; [exact Htimers |].
  specialize (Hinbox
                (mkClient 101 "client_alice"
                   [mkMessage "question_start"
                      (question_start_payload 0
                         (mkBroadcastQuestion 1 "Capital of Italy?" 30
                            [mkGameOption 1 "Paris"; mkGameOption 2 "Rome"]) 2)]
                   "abc123" 1 "alice")).
  cbn [Client_ptr] in Hinbox. rewrite Hinbox; [reflexivity .. | vm_compute; lia].
Defined.

(** ** A timer without time *)

(** [X9]: a timer that starts without time ends its question at once.
    When the time left of a timer is not positive (the time limit of its
    question was zero or negative), its first step sends no
    [timer_update]: it leaves the running timers and broadcasts
    [question_end] for its question, changing nothing else. *)
Theorem runQuestionTimer_no_time w k t row question :
  timers w !! k = Some t ->
  Timer_timeLeft t <= 0 ->
  Hub_mutex (hub w) = Unlocked ->
  first_game_by_pin (db w) (ToLower (Timer_gamePin t)) = Some row ->
  index (Quiz_Questions (Game_Quiz (preload_Quiz (db w) row))) (Timer_questionIndex t)
  = Some question ->
  runQuestionTimer_step k w
  = Ret tt
      (deliver (ToLower (Timer_gamePin t))
         (question_end_message (db w) row (Timer_questionIndex t) question)
         (set_timers (delete k (timers w)) w)).
Proof.
  intros Hk Ht Hm Hg Hq. unfold runQuestionTimer_step, bind at 1, get. rewrite Hk.
  replace (Timer_timeLeft t >? 0) with false
    by (symmetry; rewrite Z.gtb_ltb; apply Z.ltb_ge; lia).
  unfold bind, modify, ret.
  rewrite (EndQuestion_unlocked _ (ToLower (Timer_gamePin t)) (Timer_questionIndex t) row
             question);
    [now rewrite ToLower_idem | exact Hm | now rewrite ToLower_idem | exact Hq].
Qed.

Lemma runQuestionTimer_no_time_witness :
  exists w',
    runQuestionTimer_step 0 Edge.opened = Ret tt w'
    /\ timers w' = []
    /\ List.map Message_Type (inbox 101 w') = ["question_start"; "question_end"].
Proof.
  eexists. split.
  - apply (runQuestionTimer_no_time Edge.opened 0 (mkTimer "abc123" 0 0)
             (mkGame 1 1 "abc123" "active" zero_Quiz [])
             (mkQuestion 1 1 "Ready?" 0 1
                [mkOption 1 1 "yes" true 1; mkOption 2 1 "no" false 2]));
      vm_compute; first [reflexivity | easy].
  - vm_compute. split; reflexivity.
Defined.

(** ** Invariants of the store *)

#[local] Instance preserves_refl I : Reflexive (preserves I).
Proof. intros w H. exact H. Qed.

#[local] Instance preserves_trans I : Transitive (preserves I).
Proof. intros w1 w2 w3 H12 H23 H. auto. Qed.

Section Invariant.
Variable I : DB -> Prop.
Hypothesis I_update_status :
  forall id status d,
    status = "active" \/ status = "finished" -> I d -> I (update_status id status d).
Hypothesis I_create_game_answer : forall a d, I d -> I (create_game_answer a d).
Hypothesis I_add_score : forall playerID points d, I d -> I (add_score playerID points d).
Hypothesis I_create_player :
  forall gameID name d,
    first_player_by_name d gameID name = None -> I d ->
    I (snd (create_player gameID name 0 d)).
Hypothesis I_create_game :
  forall quizID pin d game d',
    create_game quizID pin "waiting" d = Ok (game, d') -> I d -> I d'.

Lemma preserves_same_db w w' : db w' = db w -> preserves I w w'.
Proof. intros H. unfold preserves. now rewrite H. Qed.

Lemma hub_only_preserves {A} (m : M A) : keeps hub_only m -> keeps (preserves I) m.
Proof. apply keeps_weaken. intros w w' (H & _). now apply preserves_same_db. Qed.

Lemma storeGameState_preserves pin gs : keeps (preserves I) (storeGameState pin gs).
Proof. intros w. now apply preserves_same_db. Qed.

Lemma getGameState_preserves pin : keeps (preserves I) (getGameState pin).
Proof. intros w. now apply preserves_same_db. Qed.

Lemma spawn_preserves pin i t : keeps (preserves I) (spawn_runQuestionTimer pin i t).
Proof. intros w. now apply preserves_same_db. Qed.

Lemma set_timers_preserves f : keeps (preserves I) (modify (fun w => set_timers (f w) w)).
Proof. apply keeps_modify. intros w. now apply preserves_same_db. Qed.

Lemma Create_GameAnswer_preserves a : keeps (preserves I) (Create_GameAnswer a).
Proof.
  intros w. unfold Create_GameAnswer. destruct (existsb _ _); [| reflexivity].
  intros H. now apply I_create_game_answer.
Qed.

Lemma Update_score_preserves playerID points :
  keeps (preserves I) (Update_score playerID points).
Proof.
  intros w. unfold Update_score. destruct (forallb _ _); [| reflexivity].
  intros H. now apply I_add_score.
Qed.

Ltac preserves_tac :=
  repeat first
    [ frame_step
    | apply Create_GameAnswer_preserves | apply Update_score_preserves
    | apply storeGameState_preserves | apply getGameState_preserves | apply spawn_preserves
    | apply set_timers_preserves
    | apply hub_only_preserves;
      first [ apply BroadcastToGame_hub_only | apply Lock_hub_only | apply Unlock_hub_only
            | apply RLock_hub_only | apply RUnlock_hub_only | apply set_clients_hub_only ]
    | apply keeps_modify; intros ? ?;
      first [ apply I_update_status; [auto | assumption]
            | apply I_create_game_answer; assumption
            | apply I_add_score; assumption
            | assumption ] ].

Lemma StartQuestion_preserves pin i h : keeps (preserves I) (StartQuestion pin i h).
Proof. unfold StartQuestion. preserves_tac. Qed.

Lemma EndQuestion_preserves pin h i : keeps (preserves I) (EndQuestion pin h i).
Proof. unfold EndQuestion. preserves_tac. Qed.

Lemma NextQuestion_preserves pin h : keeps (preserves I) (NextQuestion pin h).
Proof. unfold NextQuestion. preserves_tac. apply StartQuestion_preserves. Qed.

Lemma StartQuiz_preserves pin userID : keeps (preserves I) (StartQuiz pin userID).
Proof. unfold StartQuiz. preserves_tac. Qed.

Lemma SubmitAnswer_preserves pin playerID req h :
  keeps (preserves I) (SubmitAnswer pin playerID req h).
Proof.
  unfold SubmitAnswer, SubmitAnswer_reads, SubmitAnswer_writes, GetGameByPin. preserves_tac.
Qed.

Lemma runQuestionTimer_step_preserves k : keeps (preserves I) (runQuestionTimer_step k).
Proof.
  unfold runQuestionTimer_step, runQuestionTimer_tick. preserves_tac;
    apply EndQuestion_preserves.
Qed.

Lemma Hub_Run_register_preserves client : keeps (preserves I) (Hub_Run_register client).
Proof. unfold Hub_Run_register. preserves_tac. Qed.

Lemma JoinGame_preserves req : keeps (preserves I) (JoinGame req).
Proof.
  intros w.
  unfold JoinGame, JoinGame_checks, JoinGame_creates, Create_Player, bind, get, ret,
    getGameState, storeGameState.
  cbn.
  destruct (first_game_by_pin (db w) (ToLower (JoinGameRequest_Pin req))) as [game |];
    [| reflexivity].
  destruct (negb _ && negb _); [reflexivity |].
  destruct (first_player_by_name _ _ _) eqn:Hn; [reflexivity |]. cbn.
  destruct (valid_text _); [| reflexivity]. cbn.
  intros H. apply (I_create_player _ _ _ Hn H).
Qed.

Lemma StartGame_preserves userID req : keeps (preserves I) (StartGame userID req).
Proof.
  intros w. unfold StartGame, bind, get, ret, modify, generatePin, rand_Read,
    storeGameState.
  cbn -[create_game].
  destruct (first_quiz_of_user _ _ _); [| reflexivity]. cbn -[create_game].
  destruct (create_game _ _ _ _) as [[game d] | e] eqn:Hc;
    [| now apply preserves_same_db].
  cbn. intros H. exact (I_create_game _ _ _ _ _ Hc H).
Qed.

Lemma perform_preserves c w : service_call c -> I (db w) -> I (db (perform c w)).
Proof.
  intros Hc. destruct c; cbn [perform].
  - apply StartGame_preserves.
  - apply StartQuiz_preserves.
  - apply StartQuestion_preserves.
  - apply NextQuestion_preserves.
  - apply EndQuestion_preserves.
  - apply JoinGame_preserves.
  - apply SubmitAnswer_preserves.
  - apply runQuestionTimer_step_preserves.
  - apply Hub_Run_register_preserves.
  - destruct Hc.
Qed.

Lemma perform_all_preserves cs w :
  Forall service_call cs -> I (db w) -> I (db (perform_all cs w)).
Proof.
  intros Hcs. revert w. induction Hcs as [| c cs Hc _ IH]; intros w H; [exact H |].
  cbn. apply IH. now apply perform_preserves.
Qed.

End Invariant.

Lemma names_unique_create_player gameID name d :
  first_player_by_name d gameID name = None -> names_unique d ->
  names_unique (snd (create_player gameID name 0 d)).
Proof.
  unfold names_unique. cbn. intros Hn Hu. rewrite List.map_app. cbn.
  apply NoDup_app. split; [exact Hu |]. split; [| apply NoDup_singleton].
  intros key Hin Hnew. apply list_elem_of_singleton in Hnew. subst key.
  apply list_elem_of_In, in_map_iff in Hin. destruct Hin as (p & [= Hg Hname] & Hp).
  exact (proj1 (first_player_by_name_None d gameID name) Hn p Hp Hg Hname).
Qed.

Lemma keys_add_score {K} (key : Player -> K) playerID points players :
  (forall p s, key (mkPlayer (Player_ID p) (Player_GameID p) (Player_Name p) s) = key p) ->
  List.map key
    (List.map
       (fun p => if (Player_ID p =? playerID)%N
                 then mkPlayer (Player_ID p) (Player_GameID p) (Player_Name p)
                        (Player_Score p + points)
                 else p) players)
  = List.map key players.
Proof.
  intros Hkey. rewrite List.map_map. apply List.map_ext. intros p.
  destruct (Player_ID p =? playerID)%N; [apply Hkey | reflexivity].
Qed.

Lemma create_game_inv quizID pin status d game d' :
  create_game quizID pin status d = Ok (game, d') ->
  pin_taken pin d = false
  /\ game = mkGame (db_next_game_id d) quizID pin status zero_Quiz []
  /\ db_games d' = (db_games d ++ [game])%list
  /\ db_players d' = db_players d
  /\ db_next_player_id d' = db_next_player_id d.
Proof.
  unfold create_game, pin_taken. destruct (existsb _ _); [discriminate |].
  intros [= <- <-]. repeat split.
Qed.

(** Calls that run one after the other keep the names unique within
    every session: [JoinGame] refuses a name that a participant of the
    session has (compared exactly, case included), and no other call of
    the engine adds a participant or renames one. *)
Lemma names_unique_kept cs w :
  Forall service_call cs -> names_unique (db w) -> names_unique (db (perform_all cs w)).
Proof.
  apply perform_all_preserves.
  - intros id status d _ H. exact H.
  - intros a d H. exact H.
  - intros playerID points d H. unfold names_unique in *. cbn.
    now rewrite keys_add_score.
  - apply names_unique_create_player.
  - intros quizID pin d game d' Hc H. apply create_game_inv in Hc.
    destruct Hc as (_ & _ & _ & Hp & _). unfold names_unique. now rewrite Hp.
Qed.

(** [X11]: the status of a session is always one of waiting, active and
    finished: a session is created waiting, and the calls of the engine
    set it to active or finished only. *)
Theorem statuses_valid_kept cs w :
  Forall service_call cs -> statuses_valid (db w) -> statuses_valid (db (perform_all cs w)).
Proof.
  apply perform_all_preserves.
  - intros id status d Hs H. unfold statuses_valid in *. cbn.
    apply List.Forall_map. revert H. apply List.Forall_impl. intros g Hg.
    destruct (Game_ID g =? id)%N; [| exact Hg]. cbn. unfold valid_status. tauto.
  - intros a d H. exact H.
  - intros playerID points d H. exact H.
  - intros gameID name d _ H. exact H.
  - intros quizID pin d game d' Hc H. apply create_game_inv in Hc.
    destruct Hc as (_ & -> & Hg & _). unfold statuses_valid in *. rewrite Hg.
    apply Forall_app. split; [exact H |]. constructor; [| constructor].
    cbn. unfold valid_status. tauto.
Qed.

Lemma statuses_valid_kept_witness :
  statuses_valid
    (db (perform_all
           [CallStartGame 7 (mkStartGameRequest 1); CallStartGame 7 (mkStartGameRequest 1);
            CallNextQuestion "abc123" true; CallNextQuestion "abc123" true]
           Scenario.question0)).
Proof.
  apply statuses_valid_kept; [repeat constructor |].
  vm_compute. repeat (apply List.Forall_cons; [auto |]). apply List.Forall_nil.
Defined.

(** [X12]: no two sessions ever bear the same code. [Create] refuses a
    session whose code is in the table, and no call of the engine changes
    the code of a session: if the codes are unique, they still are after
    any sequence of calls. *)
Theorem pins_unique_kept cs w :
  Forall service_call cs -> pins_unique (db w) -> pins_unique (db (perform_all cs w)).
Proof.
  apply perform_all_preserves.
  - intros id status d _ H. unfold pins_unique in *. cbn.
    rewrite List.map_map.
    erewrite List.map_ext; [exact H |].
    intros g. destruct (Game_ID g =? id)%N; reflexivity.
  - intros a d H. exact H.
  - intros playerID points d H. exact H.
  - intros gameID name d _ H. exact H.
  - intros quizID pin d game d' Hc H. apply create_game_inv in Hc.
    destruct Hc as (Hfree & -> & Hg & _). unfold pins_unique in *. rewrite Hg.
    rewrite List.map_app. cbn.
    apply NoDup_app. split; [exact H |]. split; [| apply NoDup_singleton].
    intros p Hin Hnew. apply list_elem_of_singleton in Hnew. subst p.
    apply list_elem_of_In, in_map_iff in Hin. destruct Hin as (g & Hpin & Hin).
    apply pin_taken_false in Hfree. rewrite List.Forall_forall in Hfree.
    exact (Hfree g Hin Hpin).
Qed.

Lemma pins_unique_kept_witness :
  pins_unique
    (db (perform_all
           [CallStartGame 7 (mkStartGameRequest 1); CallStartGame 7 (mkStartGameRequest 1)]
           Scenario.created)).
Proof.
  apply pins_unique_kept; [repeat constructor |].
  vm_compute. apply NoDup_singleton.
Defined.

(** The ids of the participants stay unique, and below the next value of
    their sequence. *)
Lemma player_ids_unique_kept cs w :
  Forall service_call cs -> player_ids_unique (db w) ->
  player_ids_unique (db (perform_all cs w)).
Proof.
  apply perform_all_preserves.
  - intros id status d _ H. exact H.
  - intros a d H. exact H.
  - intros playerID points d [Hu Hb]. split; cbn.
    + now rewrite keys_add_score.
    + apply List.Forall_map. revert Hb. apply List.Forall_impl. intros p Hp.
      destruct (Player_ID p =? playerID)%N; exact Hp.
  - intros gameID name d _ [Hu Hb]. split; cbn.
    + rewrite List.map_app. cbn. apply NoDup_app. split; [exact Hu |].
      split; [| apply NoDup_singleton].
      intros id Hin Hnew. apply list_elem_of_singleton in Hnew. subst id.
      apply list_elem_of_In, in_map_iff in Hin. destruct Hin as (p & Hid & Hin).
      rewrite List.Forall_forall in Hb. specialize (Hb p Hin). lia.
    + apply Forall_app. split.
      * revert Hb. apply List.Forall_impl. intros p Hp. lia.
      * constructor; [cbn; lia | constructor].
  - intros quizID pin d game d' Hc [Hu Hb]. apply create_game_inv in Hc.
    destruct Hc as (_ & _ & _ & Hp & Hn). unfold player_ids_unique. now rewrite Hp, Hn.
Qed.

(** ** No division by zero *)

Lemma BroadcastToGame_no_panic gamePin messageType payload w w' :
  BroadcastToGame gamePin messageType payload w <> Panic w'.
Proof.
  destruct w as [d r [cs m gs] ts e].
  unfold BroadcastToGame, ListAllClients, bind, RLock, RUnlock, get, modify, ret. cbn.
  destruct m as [| | n]; cbn; [| discriminate |].
  - destruct (send_to_game gamePin _ cs) as [cs' k]. cbn. destruct (k <? 3); discriminate.
  - destruct (send_to_game gamePin _ cs) as [cs' k]. cbn.
    destruct (n + 1)%positive as [q | q |] eqn:Hn; cbn.
    + destruct (k <? 3); cbn; [| discriminate]. destruct q; cbn; discriminate.
    + destruct (k <? 3); cbn; [| discriminate]. destruct q; cbn; discriminate.
    + lia.
Qed.

Lemma SubmitAnswer_writes_no_panic pin playerID game a h w w' :
  SubmitAnswer_writes pin playerID game a h w <> Panic w'.
Proof.
  unfold SubmitAnswer_writes, bind, Create_GameAnswer, Update_score, getGameState,
    storeGameState, get, ret.
  destruct (existsb _ _); [| discriminate].
  cbn -[BroadcastToGame]. destruct (forallb _ _); [| discriminate].
  cbn -[BroadcastToGame].
  destruct (redis w !! redis_key (ToLower pin)); cbn -[BroadcastToGame];
    (destruct h; [| discriminate]);
    match goal with
    | |- context [BroadcastToGame ?p ?t ?pl ?w0] =>
        pose proof (BroadcastToGame_no_panic p t pl w0) as Hb;
        destruct (BroadcastToGame p t pl w0); [discriminate | | discriminate]
    end;
    intros [= <-]; eapply Hb; reflexivity.
Qed.

Lemma SubmitAnswer_reads_no_panic pin playerID req w w' :
  time_limits_set (db w) -> SubmitAnswer_reads pin playerID req w <> Panic w'.
Proof.
  intros Hlim. unfold SubmitAnswer_reads, GetGameByPin, bind, get, ret, panic. cbn.
  destruct (first_game_by_pin _ _) as [game |]; [| discriminate]. cbn.
  destruct (negb _); [discriminate |].
  destruct (first_answer _ _ _ _); [discriminate |].
  destruct (first_question _ _) as [question |] eqn:Hq; [| discriminate].
  destruct (first_option _ _) as [option |]; [| discriminate].
  destruct (calculatePoints _ _ _) as [points |] eqn:Hp; [discriminate |].
  exfalso. unfold calculatePoints in Hp.
  destruct (negb (Option_IsCorrect option)); [discriminate |].
  destruct (Z.eqb_spec (Question_TimeLimit question) 0) as [H0 | H0]; [| discriminate].
  apply List.find_some in Hq as [Hin _].
  unfold time_limits_set in Hlim. rewrite List.Forall_forall in Hlim.
  exact (Hlim question Hin H0).
Qed.

Lemma create_options_questions questionID options tx :
  db_questions (QuizService.tables (QuizService.create_options questionID options tx))
  = db_questions (QuizService.tables tx).
Proof.
  unfold QuizService.create_options. revert tx.
  induction options as [| o os IH]; intros tx; cbn [List.fold_left]; [reflexivity |].
  rewrite IH. reflexivity.
Qed.

Lemma create_questions_time_limits quizID questions tx :
  time_limits_set (QuizService.tables tx) ->
  time_limits_set (QuizService.tables (snd (QuizService.create_questions quizID questions tx))).
Proof.
  revert tx. induction questions as [| qReq rest IH]; intros tx Hlim; [exact Hlim |].
  cbn [QuizService.create_questions].
  set (created := QuizService.create_question _ _ _ _ tx).
  assert (Hcreated : time_limits_set (QuizService.tables (snd created))).
  { subst created. unfold time_limits_set, QuizService.create_question in *. cbn.
    apply Forall_app. split; [exact Hlim |]. constructor; [| constructor]. cbn.
    destruct (Z.eqb_spec (QuizService.CreateQuestionRequest_TimeLimit qReq) 0);
      [discriminate | assumption]. }
  destruct created as [question tx1]. cbn [snd] in Hcreated.
  destruct (negb _); [exact Hcreated |].
  apply IH. unfold time_limits_set. now rewrite create_options_questions.
Qed.

Lemma CreateQuiz_time_limits userID req s :
  time_limits_set (QuizService.tables s) ->
  time_limits_set (QuizService.tables (snd (QuizService.CreateQuiz userID req s))).
Proof.
  intros Hlim. unfold QuizService.CreateQuiz.
  destruct (QuizService.create_quiz userID s) as [quiz tx] eqn:Hquiz.
  assert (Htx : time_limits_set (QuizService.tables tx)).
  { unfold QuizService.create_quiz in Hquiz. injection Hquiz as _ <-. exact Hlim. }
  pose proof (create_questions_time_limits (Quiz_ID quiz)
                (QuizService.CreateQuizRequest_Questions req) tx Htx) as Hqs.
  destruct (QuizService.create_questions _ _ tx) as [[err |] tx1]; cbn [snd] in *;
    [exact Hlim | exact Hqs].
Qed.

(** [X3]: the division of [calculatePoints] never meets a zero. [CreateQuiz]
    writes no question with the time limit 0, for the store puts 30 in
    the place of a zero; and no call of the engine touches the questions.
    So from a store in which no question has the time limit 0, after a
    [CreateQuiz] and any calls of the engine, [SubmitAnswer] does not
    panic, whatever answer is submitted. *)
Theorem SubmitAnswer_never_divides_by_zero
    userID quiz s w calls pin playerID req h :
  time_limits_set (QuizService.tables s) ->
  db w = QuizService.tables (snd (QuizService.CreateQuiz userID quiz s)) ->
  Forall service_call calls ->
  time_limits_set (db (perform_all calls w))
  /\ forall w', SubmitAnswer pin playerID req h (perform_all calls w) <> Panic w'.
Proof.
  intros Hs Hw Hcalls.
  assert (Hlim : time_limits_set (db (perform_all calls w))).
  { apply (perform_all_preserves time_limits_set); try exact Hcalls.
    - intros id status d _ H. exact H.
    - intros a d H. exact H.
    - intros p points d H. exact H.
    - intros gameID name d _ H. exact H.
    - intros quizID pin0 d game d' Hc H. unfold create_game in Hc.
      destruct (existsb _ _); [discriminate |]. injection Hc as _ <-. exact H.
    - rewrite Hw. now apply CreateQuiz_time_limits. }
  split; [exact Hlim |].
  intros w'. unfold SubmitAnswer, bind.
  pose proof (SubmitAnswer_reads_no_panic pin playerID req (perform_all calls w)) as Hreads.
  destruct (SubmitAnswer_reads pin playerID req (perform_all calls w))
    as [[[game a] | err] w1 | w1 | w1].
  - apply SubmitAnswer_writes_no_panic.
  - discriminate.
  - intros _. now apply (Hreads w1).
  - discriminate.
Qed.

Lemma SubmitAnswer_never_divides_by_zero_witness :
  first_question (db (perform_all Edge.timeless_calls Edge.timeless_created)) 3
  = Some (mkQuestion 3 2 "Ready?" 30 1 [])
  /\ (forall w',
        SubmitAnswer "abc123" 1 (mkSubmitAnswerRequest 1 3 5 0) true
          (perform_all Edge.timeless_calls Edge.timeless_created)
        <> Panic w')
  /\ score_of 1
       (world_of
          (SubmitAnswer "abc123" 1 (mkSubmitAnswerRequest 1 3 5 0) true
             (perform_all Edge.timeless_calls Edge.timeless_created)))
     = Some 100.
Proof.
  split; [vm_compute; reflexivity |]. split; [| vm_compute; reflexivity].
  destruct (SubmitAnswer_never_divides_by_zero 7 Edge.timeless Edge.store
              Edge.timeless_created Edge.timeless_calls
              "abc123" 1 (mkSubmitAnswerRequest 1 3 5 0) true)
    as [_ Hrun].
  - unfold time_limits_set.
    replace (db_questions (QuizService.tables Edge.store)) with Scenario.questions
      by reflexivity.
    repeat constructor; discriminate.
  - reflexivity.
  - repeat constructor.
  - exact Hrun.
Defined.

(** ** The snapshot's players and the store's *)

Lemma first_game_by_pin_update_status d pin id status row :
  first_game_by_pin d pin = Some row ->
  exists row',
    first_game_by_pin (update_status id status d) pin = Some row'
    /\ Game_ID row' = Game_ID row.
Proof.
  intros H. unfold first_game_by_pin in *. cbn [update_status db_games].
  rewrite find_map_stable, H.
  - cbn. eexists. split; [reflexivity |]. destruct (Game_ID row =? id)%N; reflexivity.
  - intros g. destruct (Game_ID g =? id)%N; reflexivity.
Qed.

(** [X13]: when [StartQuiz] has activated a session, the players of its
    snapshot are the participants that the store holds for the session,
    each with its id, its name and its score, whatever the snapshot held
    before and even when there was none. *)
Theorem StartQuiz_players_in_step w pin userID game w' :
  StartQuiz pin userID w = Ret (Ok game) w' ->
  exists row gs,
    first_game_by_pin (db w') (ToLower pin) = Some row
    /\ snapshot_of pin w' = Some gs
    /\ Permutation (GameState_Players gs)
         (List.map (fun p => mkGamePlayer (Player_ID p) (Player_Name p) (Player_Score p))
            (find_players (db w') (Game_ID row))).
Proof.
  unfold StartQuiz, bind, get, ret, modify, getGameState, storeGameState.
  cbn -[preload_Quiz].
  destruct (first_game_by_pin (db w) (ToLower pin)) as [row |] eqn:Hg; [| discriminate].
  cbn -[preload_Quiz].
  change (Game_QuizID (preload_Quiz (db w) row)) with (Game_QuizID row).
  change (Game_ID (preload_Quiz (db w) row)) with (Game_ID row).
  destruct (first_quiz_of_user (db w) (Game_QuizID row) userID); [| discriminate].
  cbn -[preload_Quiz]. intros [= _ <-].
  destruct (first_game_by_pin_update_status (db w) (ToLower pin) (Game_ID row) "active" row Hg)
    as (row' & Hg' & Hid).
  unfold snapshot_of. cbn -[preload_Quiz update_status].
  exists row'. eexists. split; [exact Hg' |].
  rewrite redis_key_ToLower, lookup_insert_eq. split; [reflexivity |].
  rewrite Hid. destruct (redis w !! redis_key pin); reflexivity.
Qed.

Lemma StartQuiz_players_in_step_witness :
  exists row gs,
    first_game_by_pin (db (world_of (StartQuiz "ABC123" 7 Scenario.answered_once)))
      (ToLower "ABC123") = Some row
    /\ snapshot_of "ABC123" (world_of (StartQuiz "ABC123" 7 Scenario.answered_once)) = Some gs
    /\ Permutation (GameState_Players gs) [mkGamePlayer 1 "alice" 133].
Proof.
  destruct (StartQuiz "ABC123" 7 Scenario.answered_once) as [[game | e] w' | w' | w'] eqn:Hrun;
    try (vm_compute in Hrun; discriminate).
  destruct (StartQuiz_players_in_step Scenario.answered_once "ABC123" 7 game w' Hrun)
    as (row & gs & Hg & Hs & Hp).
  exists row, gs. split; [exact Hg |]. split; [exact Hs |].
  assert (Hrow : row = mkGame 1 1 "abc123" "active" zero_Quiz []).
  { vm_compute in Hrun. injection Hrun as _ <-. vm_compute in Hg. now injection Hg as <-. }
  assert (Hw' : db_players (db w') = [mkPlayer 1 1 "alice" 133]).
  { vm_compute in Hrun. now injection Hrun as _ <-. }
  unfold find_players in Hp. rewrite Hw', Hrow in Hp. exact Hp.
Defined.

(** [X14]: a join that runs alone keeps the snapshot in step. When the
    players of the snapshot of a session are the participants that the
    store holds for it, each with its id, its name and its score, they
    still are after a [JoinGame] into the session: the new participant is
    added to both. *)
Theorem JoinGame_players_in_step w req player w' :
  players_in_step (JoinGameRequest_Pin req) w ->
  JoinGame req w = Ret (Ok player) w' ->
  exists row gs,
    first_game_by_pin (db w') (ToLower (JoinGameRequest_Pin req)) = Some row
    /\ snapshot_of (JoinGameRequest_Pin req) w' = Some gs
    /\ Permutation (GameState_Players gs)
         (List.map (fun p => mkGamePlayer (Player_ID p) (Player_Name p) (Player_Score p))
            (find_players (db w') (Game_ID row))).
Proof.
  intros (row & gs & Hg & Hs & Hp).
  unfold JoinGame, JoinGame_checks, JoinGame_creates, Create_Player, bind, get, ret,
    getGameState, storeGameState.
  cbn.
  rewrite Hg. destruct (negb _ && negb _); [discriminate |].
  destruct (first_player_by_name _ _ _); [discriminate |]. cbn.
  destruct (valid_text _); [| discriminate]. cbn.
  assert (Hkey : redis_key (ToLower (Game_Pin row)) = redis_key (JoinGameRequest_Pin req)).
  { unfold first_game_by_pin in Hg. apply List.find_some in Hg as [_ Hpin].
    apply String.eqb_eq in Hpin. unfold redis_key. now rewrite ToLower_idem, Hpin. }
  rewrite Hkey. unfold snapshot_of in Hs. rewrite Hs. intros [= _ <-].
  exists row. eexists. split; [exact Hg |]. unfold snapshot_of. cbn.
  rewrite lookup_insert_eq. split; [reflexivity |]. cbn.
  unfold find_players in *. cbn. rewrite List.filter_app, List.map_app. cbn.
  rewrite N.eqb_refl. cbn. now apply Permutation_app_tail.
Qed.

Lemma JoinGame_players_in_step_witness :
  exists row gs,
    first_game_by_pin
      (db (world_of (JoinGame (mkJoinGameRequest "abc123" "bob") Scenario.question0)))
      (ToLower "abc123") = Some row
    /\ snapshot_of "abc123"
         (world_of (JoinGame (mkJoinGameRequest "abc123" "bob") Scenario.question0)) = Some gs
    /\ Permutation (GameState_Players gs) [mkGamePlayer 1 "alice" 0; mkGamePlayer 2 "bob" 0].
Proof.
  destruct (JoinGame (mkJoinGameRequest "abc123" "bob") Scenario.question0)
    as [[player | e] w' | w' | w'] eqn:Hrun;
    try (vm_compute in Hrun; discriminate).
  destruct (JoinGame_players_in_step Scenario.question0 (mkJoinGameRequest "abc123" "bob")
              player w') as (row & gs & Hg & Hs & Hp); [| exact Hrun |].
  { exists (mkGame 1 1 "abc123" "active" zero_Quiz []). eexists.
    split; [vm_compute; reflexivity |]. split; [vm_compute; reflexivity |].
    vm_compute. apply Permutation_refl. }
  exists row, gs. split; [exact Hg |]. split; [exact Hs |].
  assert (Hrow : row = mkGame 1 1 "abc123" "active" zero_Quiz []).
  { vm_compute in Hrun. injection Hrun as _ <-. vm_compute in Hg. now injection Hg as <-. }
  assert (Hw' : db_players (db w') = [mkPlayer 1 1 "alice" 0; mkPlayer 2 1 "bob" 0]).
  { vm_compute in Hrun. now injection Hrun as _ <-. }
  unfold find_players in Hp. rewrite Hw', Hrow in Hp. exact Hp.
Defined.

(** ** Only the owner controls a session *)

(** [X16]: only the owner of the quiz controls a session. For a user who
    does not own the quiz of the session, [CheckGameOwnership] and
    [StartQuiz] fail, the start route answers 400 and the next route 401,
    and nothing has changed: the session is neither activated nor
    advanced, no question is opened and no timer started. For the owner
    [CheckGameOwnership] returns nil. *)
Theorem only_owner_controls w pin userID game :
  pin <> "" ->
  first_game_by_pin (db w) (ToLower pin) = Some game ->
  match first_quiz_of_user (db w) (Game_QuizID game) userID with
  | None =>
      CheckGameOwnership pin userID w = Ret (Some "unauthorized to control this game") w
      /\ StartQuiz pin userID w = Ret (Err "unauthorized to start this game") w
      /\ GameHandler.StartQuiz (Some userID) pin w = Ret 400 w
      /\ GameHandler.NextQuestion (Some userID) pin w = Ret 401 w
  | Some _ => CheckGameOwnership pin userID w = Ret None w
  end.
Proof.
  intros Hpin Hg.
  assert (Hne : (pin =? "")%string = false) by now apply String.eqb_neq.
  destruct (first_quiz_of_user (db w) (Game_QuizID game) userID) eqn:Hq.
  - unfold CheckGameOwnership, bind, get, ret. cbn. now rewrite Hg, Hq.
  - assert (H1 : CheckGameOwnership (ToLower pin) userID w
                 = Ret (Some "unauthorized to control this game") w).
    { unfold CheckGameOwnership, bind, get, ret. cbn. now rewrite ToLower_idem, Hg, Hq. }
    assert (H2 : StartQuiz (ToLower pin) userID w
                 = Ret (Err "unauthorized to start this game") w).
    { unfold StartQuiz, bind, get, ret. cbn -[preload_Quiz]. rewrite ToLower_idem, Hg.
      cbn -[preload_Quiz].
      change (Game_QuizID (preload_Quiz (db w) game)) with (Game_QuizID game).
      now rewrite Hq. }
    split; [| split; [| split]].
    + unfold CheckGameOwnership, bind, get, ret. cbn. now rewrite Hg, Hq.
    + unfold StartQuiz, bind, get, ret. cbn -[preload_Quiz]. rewrite Hg.
      cbn -[preload_Quiz].
      change (Game_QuizID (preload_Quiz (db w) game)) with (Game_QuizID game).
      now rewrite Hq.
    + unfold GameHandler.StartQuiz. rewrite Hne. unfold bind at 1. now rewrite H2.
    + unfold GameHandler.NextQuestion. rewrite Hne. unfold bind at 1. now rewrite H1.
Qed.

Lemma only_owner_controls_witness :
  GameHandler.StartQuiz (Some 8%N) "abc123" Scenario.connected = Ret 400 Scenario.connected
  /\ GameHandler.NextQuestion (Some 8%N) "abc123" Scenario.question0
     = Ret 401 Scenario.question0.
Proof.
  assert (H1 := only_owner_controls Scenario.connected "abc123" 8
                  (mkGame 1 1 "abc123" "waiting" zero_Quiz [])
                  ltac:(discriminate) ltac:(vm_compute; reflexivity)).
  assert (H2 := only_owner_controls Scenario.question0 "abc123" 8
                  (mkGame 1 1 "abc123" "active" zero_Quiz [])
                  ltac:(discriminate) ltac:(vm_compute; reflexivity)).
  assert (Hq1 : first_quiz_of_user (db Scenario.connected)
                  (Game_QuizID (mkGame 1 1 "abc123" "waiting" zero_Quiz [])) 8 = None)
    by (vm_compute; reflexivity).
  assert (Hq2 : first_quiz_of_user (db Scenario.question0)
                  (Game_QuizID (mkGame 1 1 "abc123" "active" zero_Quiz [])) 8 = None)
    by (vm_compute; reflexivity).
  rewrite Hq1 in H1. rewrite Hq2 in H2.
  destruct H1 as (_ & _ & H1 & _). destruct H2 as (_ & _ & _ & H2).
  split; [exact H1 | exact H2].
Defined.

(** ** Question indices out of range *)

(** [X17]: the bounds of the question index. For a session that exists,
    [StartQuestion] and [EndQuestion] refuse an index that is not below
    the number of questions of the quiz with an error and change nothing;
    a negative index passes the comparison and panics at the slice access,
    again with nothing changed. *)
Theorem question_index_bounds w pin i h row :
  first_game_by_pin (db w) (ToLower pin) = Some row ->
  let total := len (Quiz_Questions (Game_Quiz (preload_Quiz (db w) row))) in
  (total <= i ->
   StartQuestion pin i h w = Ret (Some "question index out of range") w
   /\ EndQuestion pin h i w = Ret (Some "invalid question index") w)
  /\ (i < 0 -> StartQuestion pin i h w = Panic w /\ EndQuestion pin h i w = Panic w).
Proof.
  intros Hg total. subst total.
  unfold StartQuestion, EndQuestion, bind, get, ret, panic. cbn -[preload_Quiz].
  rewrite Hg. split.
  - intros Hi.
    destruct (Z.geb_spec i (len (Quiz_Questions (Game_Quiz (preload_Quiz (db w) row)))));
      [split; reflexivity | lia].
  - intros Hi.
    destruct (Z.geb_spec i (len (Quiz_Questions (Game_Quiz (preload_Quiz (db w) row)))));
      [unfold len in *; lia |].
    unfold index. destruct (Z.ltb_spec i 0) as [_ | Hge]; [split; reflexivity | lia].
Qed.

Lemma question_index_bounds_witness :
  StartQuestion "abc123" 2 true Scenario.question0
  = Ret (Some "question index out of range") Scenario.question0
  /\ EndQuestion "abc123" true (-1) Scenario.question0 = Panic Scenario.question0.
Proof.
  destruct (question_index_bounds Scenario.question0 "abc123" 2 true
              (mkGame 1 1 "abc123" "active" zero_Quiz []))
    as [Hhigh _]; [vm_compute; reflexivity |].
  destruct (question_index_bounds Scenario.question0 "abc123" (-1) true
              (mkGame 1 1 "abc123" "active" zero_Quiz []))
    as [_ Hlow]; [vm_compute; reflexivity |].
  split; [apply Hhigh; vm_compute; discriminate | apply Hlow; reflexivity].
Defined.

(** ** The start route *)

(** The world that [StartQuiz] leaves for the owner of the quiz. *)
Lemma StartQuiz_owner w pin userID row quiz :
  first_game_by_pin (db w) (ToLower pin) = Some row ->
  first_quiz_of_user (db w) (Game_QuizID row) userID = Some quiz ->
  exists game gs,
    StartQuiz pin userID w
    = Ret (Ok game)
        (set_redis (<[redis_key pin := gs]> (redis w))
           (set_db (update_status (Game_ID row) "active" (db w)) w))
    /\ GameState_Status gs = "active".
Proof.
  intros Hg Hq. unfold StartQuiz, bind, get, ret, modify, getGameState, storeGameState.
  cbn -[preload_Quiz]. rewrite Hg. cbn -[preload_Quiz].
  change (Game_QuizID (preload_Quiz (db w) row)) with (Game_QuizID row).
  change (Game_ID (preload_Quiz (db w) row)) with (Game_ID row).
  rewrite Hq. cbn -[preload_Quiz]. rewrite redis_key_ToLower.
  eexists. eexists. split; [reflexivity |].
  destruct (redis w !! redis_key pin); reflexivity.
Qed.

Lemma preload_Quiz_update_status d id status row row' :
  Game_QuizID row' = Game_QuizID row ->
  Game_Quiz (preload_Quiz (update_status id status d) row') = Game_Quiz (preload_Quiz d row).
Proof. intros H. unfold preload_Quiz. cbn. now rewrite H. Qed.

Lemma first_game_by_pin_update_status_row d pin id status row :
  first_game_by_pin d pin = Some row ->
  exists row',
    first_game_by_pin (update_status id status d) pin = Some row'
    /\ Game_ID row' = Game_ID row /\ Game_QuizID row' = Game_QuizID row.
Proof.
  intros H. unfold first_game_by_pin in *. cbn [update_status db_games].
  rewrite find_map_stable, H.
  - cbn. eexists. split; [reflexivity |]. destruct (Game_ID row =? id)%N; split; reflexivity.
  - intros g. destruct (Game_ID g =? id)%N; reflexivity.
Qed.

Lemma GetConnectedPlayers_unlocked w gamePin :
  Hub_mutex (hub w) = Unlocked ->
  GetConnectedPlayers gamePin w
  = Ret (List.map Client_playerID
           (List.filter (fun c => EqualFold (Client_gamePin c) gamePin) (Hub_clients (hub w))))
      w.
Proof. destruct w as [d r [cs m gs] ts e]. cbn. intros ->. reflexivity. Qed.

(** [X18]: what the start route does for the owner. With the hub's mutex
    free, the owner's POST to the start route of a session whose quiz has
    a first question answers 200: the session is active, the snapshot
    holds question 0 (without the correctness flags) at index 0, one timer
    is started for it with the time limit of the question, and the clients
    are left with the [question_start] broadcast to the session. When the
    quiz has no question the route answers 500, yet the session has
    already been activated: it is active with no question and no timer. *)
Theorem start_route_opens_first_question w pin userID row quiz :
  pin <> "" ->
  first_game_by_pin (db w) (ToLower pin) = Some row ->
  first_quiz_of_user (db w) (Game_QuizID row) userID = Some quiz ->
  Hub_mutex (hub w) = Unlocked ->
  match Quiz_Questions (Game_Quiz (preload_Quiz (db w) row)) with
  | [] =>
      exists w',
        GameHandler.StartQuiz (Some userID) pin w = Ret 500 w'
        /\ status_of pin w' = Some "active"
        /\ hub w' = hub w /\ timers w' = timers w
  | question :: _ =>
      exists w',
        GameHandler.StartQuiz (Some userID) pin w = Ret 200 w'
        /\ status_of pin w' = Some "active"
        /\ option_map GameState_CurrentQuestionIndex (snapshot_of pin w') = Some 0
        /\ option_map GameState_CurrentQuestion (snapshot_of pin w')
           = Some (Some (question_snapshot question))
        /\ timers w'
           = (timers w ++ [mkTimer (ToLower pin) 0 (Question_TimeLimit question)])%list
        /\ hub w'
           = hub (deliver (ToLower pin)
                    (question_start_message 0 question
                       (len (Quiz_Questions (Game_Quiz (preload_Quiz (db w) row))))) w)
  end.
Proof.
  intros Hpin Hg Hq Hm.
  assert (Hne : (pin =? "")%string = false) by now apply String.eqb_neq.
  assert (Hg0 : first_game_by_pin (db w) (ToLower (ToLower pin)) = Some row)
    by now rewrite ToLower_idem.
  destruct (StartQuiz_owner w (ToLower pin) userID row quiz Hg0 Hq) as (game & gs & Hstart & Hgs).
  rewrite redis_key_ToLower in Hstart.
  set (w1 := set_redis _ _) in Hstart.
  destruct (first_game_by_pin_update_status_row (db w) (ToLower pin) (Game_ID row) "active"
              row Hg) as (row1 & Hg1 & Hid1 & Hquiz1).
  assert (Hpre : Game_Quiz (preload_Quiz (db w1) row1) = Game_Quiz (preload_Quiz (db w) row))
    by (apply preload_Quiz_update_status; exact Hquiz1).
  assert (Hstatus : forall w', db w' = db w1 -> status_of pin w' = Some "active").
  { intros w' Hdb. apply (status_of_update_status pin row "active" w w' Hg). now rewrite Hdb. }
  destruct (Quiz_Questions (Game_Quiz (preload_Quiz (db w) row))) as [| question rest] eqn:Hqs.
  - (* no question *)
    assert (Hrun : StartQuestion (ToLower pin) 0 true w1
                   = Ret (Some "question index out of range") w1).
    { unfold StartQuestion, bind, get, ret. cbn -[preload_Quiz w1].
      rewrite ToLower_idem.
      change (first_game_by_pin (db w1) (ToLower pin))
        with (first_game_by_pin (update_status (Game_ID row) "active" (db w)) (ToLower pin)).
      rewrite Hg1. cbn -[preload_Quiz w1]. rewrite Hpre, Hqs. reflexivity. }
    exists w1. split.
    { unfold GameHandler.StartQuiz. rewrite Hne. unfold bind at 1. rewrite Hstart.
      cbv beta iota. unfold bind at 1. rewrite Hrun. reflexivity. }
    split; [now apply Hstatus |]. split; reflexivity.
  - (* a first question *)
    assert (Hrun : StartQuestion (ToLower pin) 0 true w1
                   = Ret None
                       (question_started (ToLower pin) 0 question
                          (len (Quiz_Questions (Game_Quiz (preload_Quiz (db w1) row1))))
                          gs true w1)).
    { apply StartQuestion_opens.
      - exact Hm.
      - rewrite ToLower_idem. exact Hg1.
      - rewrite Hpre, Hqs. reflexivity.
      - unfold snapshot_of. rewrite redis_key_ToLower. apply lookup_insert_eq. }
    set (w2 := question_started (ToLower pin) 0 question
                 (len (Quiz_Questions (Game_Quiz (preload_Quiz (db w1) row1)))) gs true w1)
      in *.
    assert (Hm2 : Hub_mutex (hub w2) = Unlocked) by exact Hm.
    assert (Hplayers : GetConnectedPlayers (ToLower pin) w2
                       = Ret (List.map Client_playerID
                                (List.filter
                                   (fun c => EqualFold (Client_gamePin c) (ToLower pin))
                                   (Hub_clients (hub w2)))) w2)
      by (apply GetConnectedPlayers_unlocked; exact Hm2).
    exists w2. split.
    { unfold GameHandler.StartQuiz. rewrite Hne. unfold bind at 1. rewrite Hstart.
      cbv beta iota. unfold bind at 1. rewrite Hrun. cbv beta iota.
      unfold bind at 1. rewrite Hplayers. reflexivity. }
    split; [apply Hstatus; apply db_question_started |].
    pose proof (snapshot_question_started (ToLower pin) 0 question
                  (len (Quiz_Questions (Game_Quiz (preload_Quiz (db w1) row1)))) gs true w1)
      as Hsnap.
    rewrite snapshot_of_ToLower in Hsnap. fold w2 in Hsnap. rewrite Hsnap.
    split; [reflexivity |]. split; [reflexivity |].
    subst w2. unfold question_started. rewrite ToLower_idem, Hpre, Hqs.
    split; reflexivity.
Qed.

Lemma start_route_opens_first_question_witness :
  exists w',
    GameHandler.StartQuiz (Some 7%N) "abc123" Scenario.connected = Ret 200 w'
    /\ timers w' = [mkTimer "abc123" 0 30].
Proof.
  destruct (start_route_opens_first_question Scenario.connected "abc123" 7
              (mkGame 1 1 "abc123" "waiting" zero_Quiz []) (mkQuiz 1 7 []))
    as (w' & Hrun & _ & _ & _ & Htimers & _);
    [discriminate | vm_compute; reflexivity | vm_compute; reflexivity | reflexivity |].
  exists w'. split; [exact Hrun | exact Htimers].
Defined.

(** ** An answer is reported when its question ends *)

Lemma preload_Quiz_add_answer d row playerID points a :
  preload_Quiz (add_score playerID points (create_game_answer a d)) row = preload_Quiz d row.
Proof. reflexivity. Qed.

Lemma to_AnswerResult_add_score d playerID points a :
  to_AnswerResult (preload_Player (add_score playerID points d) a)
  = to_AnswerResult (preload_Player d a).
Proof.
  unfold to_AnswerResult, preload_Player. cbn.
  rewrite find_map_stable.
  - destruct (List.find _ (db_players d)) as [p |]; cbn; [| reflexivity].
    destruct (Player_ID p =? playerID)%N; reflexivity.
  - intros p. destruct (Player_ID p =? playerID)%N; reflexivity.
Qed.

(** [X19]: an answer that was accepted is reported when its question
    ends. After a successful [SubmitAnswer] for a question of the quiz of
    the session, [EndQuestion] for the index of that question broadcasts a
    [question_end] whose answers are, the order apart, those reported
    before the submission and the new one: the participant's id and name,
    the option chosen and its correctness, the time spent of the request
    (the time limit of the question when the request has none) and the
    points that [calculatePoints] gives for that time. *)
Theorem SubmitAnswer_then_EndQuestion
    w pin playerID req h w1 row asked option points question i :
  SubmitAnswer pin playerID req h w = Ret None w1 ->
  first_game_by_pin (db w) (ToLower pin) = Some row ->
  first_question (db w) (SubmitAnswerRequest_QuestionID req) = Some asked ->
  first_option (db w) (SubmitAnswerRequest_OptionID req) = Some option ->
  calculatePoints
    (if SubmitAnswerRequest_TimeSpent req =? 0 then Question_TimeLimit asked
     else SubmitAnswerRequest_TimeSpent req)
    (Question_TimeLimit asked) (Option_IsCorrect option) = Some points ->
  index (Quiz_Questions (Game_Quiz (preload_Quiz (db w) row))) i = Some question ->
  Question_ID question = SubmitAnswerRequest_QuestionID req ->
  Hub_mutex (hub w1) = Unlocked ->
  exists answers,
    EndQuestion pin true i w1
    = Ret None
        (deliver (ToLower pin)
           (mkMessage "question_end"
              (question_end_payload i question
                 (List.find Option_IsCorrect (Question_Options question))
                 answers
                 (len (Quiz_Questions (Game_Quiz (preload_Quiz (db w) row))))))
           w1)
    /\ Permutation answers
         (List.map to_AnswerResult
            (find_answers (db w) (Game_ID row) (Question_ID question))
          ++ [mkAnswerResult playerID
                (match List.find (fun p => (Player_ID p =? playerID)%N)
                         (db_players (db w)) with
                 | Some p => Player_Name p
                 | None => ""
                 end)
                (SubmitAnswerRequest_OptionID req) (Option_IsCorrect option)
                points
                (if SubmitAnswerRequest_TimeSpent req =? 0 then Question_TimeLimit asked
                 else SubmitAnswerRequest_TimeSpent req)])%list.
Proof.
  intros Hrun Hg Hasked Ho Hp Hq Hid Hm.
  eexists. split; [| reflexivity].
  destruct (SubmitAnswer_success_inv _ _ _ _ _ _ Hrun)
    as (game & asked' & option' & points' & Hg' & _ & _ & Hasked' & Ho' & Hp' & Hw).
  rewrite Hg in Hg'. injection Hg' as <-.
  rewrite Hasked in Hasked'. injection Hasked' as <-.
  rewrite Ho in Ho'. injection Ho' as <-.
  rewrite Hp in Hp'. injection Hp' as <-.
  assert (Hdb : db w1
                = add_score playerID points
                    (create_game_answer
                       (answer_row (Game_ID row) playerID req asked option points) (db w)))
    by (destruct Hw as (-> & _); apply db_answer_recorded).
  rewrite (EndQuestion_unlocked w1 pin i row question Hm).
  - rewrite Hdb, preload_Quiz_add_answer. do 4 f_equal.
    unfold find_answers. rewrite List.map_map.
    rewrite (List.map_ext _ (fun a => to_AnswerResult
                                        (preload_Player
                                           (create_game_answer
                                              (answer_row (Game_ID row) playerID req asked
                                                 option points) (db w)) a)))
      by (intros a; apply to_AnswerResult_add_score).
    cbn [add_score create_game_answer db_game_answers].
    rewrite List.filter_app, List.map_app. cbn [List.filter answer_row GameAnswer_GameID
      GameAnswer_QuestionID].
    rewrite Hid, !N.eqb_refl. cbn [andb List.map].
    rewrite <- List.map_map. f_equal.
    unfold to_AnswerResult, preload_Player. cbn.
    destruct (List.find _ (db_players (db w))); reflexivity.
  - unfold first_game_by_pin in *. rewrite Hdb. exact Hg.
  - rewrite Hdb, preload_Quiz_add_answer. exact Hq.
Qed.

Lemma SubmitAnswer_then_EndQuestion_witness :
  EndQuestion "abc123" true 0 Scenario.answered_once
  = Ret None
      (deliver "abc123"
         (mkMessage "question_end"
            (question_end_payload 0
               (mkQuestion 1 1 "Capital of Italy?" 30 1
                  [mkOption 1 1 "Paris" false 1; mkOption 2 1 "Rome" true 2])
               (Some (mkOption 2 1 "Rome" true 2))
               [mkAnswerResult 1 "alice" 2 true 133 10] 2))
         Scenario.answered_once).
Proof.
  destruct (SubmitAnswer_then_EndQuestion Scenario.question0 "abc123" 1
              (mkSubmitAnswerRequest 1 1 2 10) true Scenario.answered_once
              (mkGame 1 1 "abc123" "active" zero_Quiz [])
              (mkQuestion 1 1 "Capital of Italy?" 30 1 []) (mkOption 2 1 "Rome" true 2) 133
              (mkQuestion 1 1 "Capital of Italy?" 30 1
                 [mkOption 1 1 "Paris" false 1; mkOption 2 1 "Rome" true 2]) 0)
    as (answers & Hend & Hanswers); [vm_compute; reflexivity .. |].
  replace (find_answers (db Scenario.question0) (Game_ID (mkGame 1 1 "abc123" "active" zero_Quiz []))
             (Question_ID
                (mkQuestion 1 1 "Capital of Italy?" 30 1
                   [mkOption 1 1 "Paris" false 1; mkOption 2 1 "Rome" true 2])))
    with (@nil GameAnswer) in Hanswers by (vm_compute; reflexivity).
  cbn [List.map app] in Hanswers. symmetry in Hanswers.
  apply Permutation_length_1_inv in Hanswers. subst answers.
  rewrite Hend. vm_compute. reflexivity.
Defined.

(** ** The final leaderboard *)

Lemma insert_by_score_perm p sorted : Permutation (insert_by_score p sorted) (p :: sorted).
Proof.
  induction sorted as [| q rest IH]; cbn; [reflexivity |].
  destruct (Player_Score q <? Player_Score p); [reflexivity |].
  rewrite IH. apply perm_swap.
Qed.

Lemma insert_by_score_sorted p sorted :
  StronglySorted by_score_desc sorted -> StronglySorted by_score_desc (insert_by_score p sorted).
Proof.
  induction 1 as [| q rest Hs IH Hq]; cbn.
  - repeat constructor.
  - destruct (Z.ltb_spec (Player_Score q) (Player_Score p)) as [Hlt | Hge].
    + constructor; [constructor; assumption |].
      constructor; [unfold by_score_desc; lia |].
      revert Hq. apply List.Forall_impl. unfold by_score_desc. intros x Hx. lia.
    + constructor; [exact IH |].
      rewrite insert_by_score_perm.
      constructor; [exact Hge | exact Hq].
Qed.

Lemma order_by_score_desc_spec players :
  Permutation (order_by_score_desc players) players
  /\ StronglySorted by_score_desc (order_by_score_desc players).
Proof.
  unfold order_by_score_desc.
  assert (H : forall acc,
             StronglySorted by_score_desc acc ->
             Permutation (List.fold_left (fun sorted p => insert_by_score p sorted) players acc)
               (players ++ acc)
             /\ StronglySorted by_score_desc
                  (List.fold_left (fun sorted p => insert_by_score p sorted) players acc)).
  { induction players as [| p ps IH]; intros acc Hacc; cbn; [split; [reflexivity | exact Hacc] |].
    destruct (IH (insert_by_score p acc) (insert_by_score_sorted p acc Hacc)) as [Hp Hs].
    split; [| exact Hs].
    rewrite Hp, insert_by_score_perm. symmetry. apply Permutation_middle. }
  destruct (H [] (SSorted_nil _)) as [Hp Hs]. split; [| exact Hs].
  now rewrite app_nil_r in Hp.
Qed.

(** [X20]: the final leaderboard. When [NextQuestion] finds no further
    question it finishes the session, and every connected client of the
    session whose buffer has room receives one [game_end] whose
    leaderboard holds each participant of the session exactly once, with
    the id, the name and the score of the store, the highest score
    first. *)
Theorem NextQuestion_final_leaderboard w pin row gs c :
  Hub_mutex (hub w) = Unlocked ->
  first_game_by_pin (db w) (ToLower pin) = Some row ->
  snapshot_of pin w = Some gs ->
  len (Quiz_Questions (Game_Quiz (preload_Quiz (db w) row)))
  <= wrap_int (GameState_CurrentQuestionIndex gs + 1) ->
  List.find (fun c' => (Client_ptr c' =? Client_ptr c)%N) (Hub_clients (hub w)) = Some c ->
  EqualFold (Client_gamePin c) pin = true ->
  (length (Client_send c) < send_capacity)%nat ->
  exists w' leaderboard,
    NextQuestion pin true w = Ret None w'
    /\ status_of pin w' = Some "finished"
    /\ inbox (Client_ptr c) w'
       = (inbox (Client_ptr c) w
          ++ [mkMessage "game_end"
                (game_end_payload "Quiz completed! Here are the final results:"
                   (List.map
                      (fun p => mkGamePlayer (Player_ID p) (Player_Name p) (Player_Score p))
                      leaderboard)
                   (len (Quiz_Questions (Game_Quiz (preload_Quiz (db w) row)))))])%list
    /\ Permutation leaderboard (find_players (db w) (Game_ID row))
    /\ StronglySorted by_score_desc leaderboard.
Proof.
  intros Hm Hg Hs Hlast Hc Hp Hl.
  exists (session_finished pin (Game_ID row)
            (len (Quiz_Questions (Game_Quiz (preload_Quiz (db w) row)))) gs true w),
    (order_by_score_desc (find_players (db w) (Game_ID row))).
  split; [now apply NextQuestion_finishes |].
  split.
  { apply (status_of_update_status pin row "finished" w); [exact Hg |].
    apply db_session_finished. }
  split; [| apply order_by_score_desc_spec].
  unfold session_finished.
  set (w0 := set_redis _ _).
  rewrite (inbox_deliver (ToLower pin) _ w0 c).
  - reflexivity.
  - exact Hc.
  - unfold EqualFold in *. now rewrite ToLower_idem.
  - exact Hl.
Qed.

Lemma NextQuestion_final_leaderboard_witness :
  db_players (db Scenario.bob_answered) = [mkPlayer 1 1 "alice" 0; mkPlayer 2 1 "bob" 125]
  /\ exists w',
       NextQuestion "abc123" true Scenario.bob_answered = Ret None w'
       /\ status_of "abc123" w' = Some "finished"
       /\ inbox 101 w'
          = (inbox 101 Scenario.bob_answered
             ++ [mkMessage "game_end"
                   (game_end_payload "Quiz completed! Here are the final results:"
                      [mkGamePlayer 2 "bob" 125; mkGamePlayer 1 "alice" 0] 2)])%list.
Proof.
  split; [vm_compute; reflexivity |].
  destruct (List.find (fun c' => (Client_ptr c' =? 101)%N)
              (Hub_clients (hub Scenario.bob_answered))) as [c |] eqn:Hc;
    [| vm_compute in Hc; discriminate].
  assert (Hptr : Client_ptr c = 101%N).
  { apply List.find_some in Hc as [_ Hptr]. now apply N.eqb_eq in Hptr. }
  assert (Hpin : Client_gamePin c = "abc123" /\ (length (Client_send c) < send_capacity)%nat).
  { vm_compute in Hc. injection Hc as <-. split; [reflexivity | vm_compute; lia]. }
  rewrite <- Hptr in Hc.
  destruct (NextQuestion_final_leaderboard Scenario.bob_answered "abc123"
              (mkGame 1 1 "abc123" "active" zero_Quiz [])
              (mkGameState 1 1 "abc123" "active"
                 (Some (mkGameQuestion 2 "1 + 2?" 20 [mkGameOption 3 "3"; mkGameOption 4 "4"] 20))
                 1 [mkGamePlayer 1 "alice" 0; mkGamePlayer 2 "bob" 125] [] 2) c)
    as (w' & leaderboard & Hrun & Hstatus & Hinbox & _ & _).
  - reflexivity.
  - vm_compute. reflexivity.
  - vm_compute. reflexivity.
  - vm_compute. discriminate.
  - exact Hc.
  - destruct Hpin as [-> _]. reflexivity.
  - apply Hpin.
  - exists w'. split; [exact Hrun |]. split; [exact Hstatus |].
    rewrite Hptr in Hinbox.
    assert (Hw' : w' = world_of (NextQuestion "abc123" true Scenario.bob_answered))
      by (rewrite Hrun; reflexivity).
    rewrite Hw'. vm_compute. reflexivity.
Defined.

(** ** The code of a session *)

Lemma hex_digit_lower n :
  (n < 16)%N ->
  is_hex_digit (hex_digit n) = true /\ lower_ascii (hex_digit n) = hex_digit n.
Proof.
  intros Hn. rewrite <- (N2Nat.id n).
  assert (Hk : (N.to_nat n < 16)%nat) by lia. revert Hk. generalize (N.to_nat n) as k.
  intros k Hk. do 16 (destruct k as [| k]; [vm_compute; split; reflexivity |]). lia.
Qed.

Lemma hex_EncodeToString_lower bytes :
  Forall (fun c => is_hex_digit c = true) (list_ascii_of_string (hex_EncodeToString bytes))
  /\ ToLower (hex_EncodeToString bytes) = hex_EncodeToString bytes
  /\ String.length (hex_EncodeToString bytes) = (2 * length bytes)%nat.
Proof.
  induction bytes as [| b bs (IH1 & IH2 & IH3)]; [repeat split; constructor |].
  cbn [hex_EncodeToString list_ascii_of_string ToLower String.length length].
  destruct (hex_digit_lower ((b / 16) mod 16)) as [Ha1 Ha2];
    [apply N.mod_upper_bound; discriminate |].
  destruct (hex_digit_lower (b mod 16)) as [Hb1 Hb2];
    [apply N.mod_upper_bound; discriminate |].
  split; [repeat constructor; assumption |].
  split; [now rewrite Ha2, Hb2, IH2 | lia].
Qed.

(** [X21]: the code that [generatePin] draws. Whatever the entropy source
    yields, the call returns a code of exactly six characters, each one of
    [0-9a-f], so the code is its own lower-case form; it consumes three
    bytes of entropy and changes nothing else. *)
Theorem generatePin_format w :
  exists pin,
    generatePin w = Ret pin (set_entropy (drop 3 (entropy w)) w)
    /\ String.length pin = 6%nat
    /\ Forall (fun c => is_hex_digit c = true) (list_ascii_of_string pin)
    /\ ToLower pin = pin.
Proof.
  unfold generatePin, bind, rand_Read, ret. eexists. split; [reflexivity |].
  assert (Hlen : length (take 3 (entropy w ++ repeat 0%N 3)) = 3%nat).
  { rewrite length_take, length_app, repeat_length. lia. }
  destruct (take 3 (entropy w ++ repeat 0%N 3)) as [| b1 [| b2 [| b3 [| b4 bs]]]];
    try discriminate Hlen.
  destruct (hex_EncodeToString_lower [b1; b2; b3]) as (H1 & H2 & H3).
  cbn [hex_EncodeToString] in *. cbn [substring]. repeat split; assumption.
Qed.

(** ** The cache *)

Lemma redis_key_inj pin pin' : redis_key pin = redis_key pin' -> ToLower pin = ToLower pin'.
Proof. unfold redis_key. cbn. now intros [= H]. Qed.

(** [X22]: the cache gives back what was stored, whatever the casing of
    the code. For codes of ASCII characters, as the hexadecimal codes of
    sessions are: after [storeGameState] under a code, [getGameState]
    returns the snapshot stored for every code with the same lower-case
    form, and for any other code what the cache held before; the store,
    the hub and the timers are untouched. *)
Theorem getGameState_storeGameState w pin pin' gs :
  ascii_only pin -> ascii_only pin' ->
  exists w',
    storeGameState pin gs w = Ret None w'
    /\ getGameState pin' w'
       = Ret (if String.eqb (ToLower pin) (ToLower pin') then Some gs
              else redis w !! redis_key pin') w'
    /\ db w' = db w /\ hub w' = hub w /\ timers w' = timers w.
Proof.
  intros _ _. unfold storeGameState, getGameState. eexists. split; [reflexivity |].
  split; [| repeat split]. f_equal. cbn.
  destruct (String.eqb_spec (ToLower pin) (ToLower pin')) as [He | Hne].
  - unfold redis_key. rewrite He. apply lookup_insert_eq.
  - apply lookup_insert_ne. intros Hk. apply Hne. now apply redis_key_inj.
Qed.

Lemma getGameState_storeGameState_witness :
  exists w',
    storeGameState "ABC123" (mkGameState 1 1 "abc123" "waiting" None (-1) [] [] 2)
      Scenario.initial = Ret None w'
    /\ getGameState "abc123" w'
       = Ret (Some (mkGameState 1 1 "abc123" "waiting" None (-1) [] [] 2)) w'
    /\ getGameState "abc124" w' = Ret None w'.
Proof.
  assert (Ha : forall s, forallb (fun c => (N_of_ascii c <? 128)%N) (list_ascii_of_string s)
                         = true -> ascii_only s).
  { intros s H. unfold ascii_only. rewrite forallb_forall in H.
    apply List.Forall_forall. intros c Hc. now apply N.ltb_lt, H. }
  destruct (getGameState_storeGameState Scenario.initial "ABC123" "abc123"
              (mkGameState 1 1 "abc123" "waiting" None (-1) [] [] 2))
    as (w' & Hstore & Hget & _); [apply Ha; reflexivity | apply Ha; reflexivity |].
  destruct (getGameState_storeGameState Scenario.initial "ABC123" "abc124"
              (mkGameState 1 1 "abc123" "waiting" None (-1) [] [] 2))
    as (w2 & Hstore2 & Hget2 & _); [apply Ha; reflexivity | apply Ha; reflexivity |].
  rewrite Hstore in Hstore2. injection Hstore2 as <-.
  exists w'. split; [exact Hstore |]. split; [exact Hget | exact Hget2].
Defined.

(** ** The snapshot sent on synchronisation *)

(** [X23]: [GetCurrentGameState] reports the participants of the store.
    When it returns the snapshot of a session (whose id, as every id the
    store hands out, is positive), the players of that snapshot are the
    participants that the store holds for the session at that moment,
    each with its id, its name and its score, whatever the cached
    snapshot listed; the store and the hub are untouched; and a second
    call changes nothing and returns the snapshot again, the first one
    having cached a snapshot where there was none. *)
Theorem GetCurrentGameState_players_fresh w pin gs w' :
  GetCurrentGameState pin w = Ret (Ok gs) w' ->
  (0 < GameState_GameID gs)%N ->
  Permutation (GameState_Players gs)
    (List.map (fun p => mkGamePlayer (Player_ID p) (Player_Name p) (Player_Score p))
       (find_players (db w) (GameState_GameID gs)))
  /\ db w' = db w
  /\ hub w' = hub w
  /\ exists gs',
       GetCurrentGameState pin w' = Ret (Ok gs') w'
       /\ Permutation (GameState_Players gs') (GameState_Players gs)
       /\ set_Players (GameState_Players gs) gs' = gs.
Proof.
  unfold GetCurrentGameState, GetGameByPin, bind, get, ret, getGameState, storeGameState.
  cbn -[preload_Quiz N.ltb]. rewrite !ToLower_idem, !redis_key_ToLower.
  destruct (redis w !! redis_key pin) as [cached |] eqn:Hc.
  - destruct (0 <? GameState_GameID cached)%N eqn:Hpos.
    + intros [= <- <-] _. rewrite Hc. cbn -[N.ltb]. rewrite Hpos.
      split; [reflexivity |]. split; [reflexivity |]. split; [reflexivity |].
      eexists. split; [reflexivity |]. split; reflexivity.
    + intros [= <- <-] H. apply N.ltb_lt in H. congruence.
  - destruct (first_game_by_pin (db w) (ToLower pin)) as [row |]; [| discriminate].
    cbn -[preload_Quiz N.ltb]. intros [= <- <-]. cbn -[preload_Quiz N.ltb]. intros Hpos.
    rewrite lookup_insert_eq. cbn -[preload_Quiz N.ltb].
    apply N.ltb_lt in Hpos. rewrite Hpos.
    split; [reflexivity |]. split; [reflexivity |]. split; [reflexivity |].
    eexists. split; [reflexivity |]. split; reflexivity.
Qed.

Lemma GetCurrentGameState_players_fresh_witness :
  exists gs w',
    GetCurrentGameState "ABC123" Scenario.answered_during_tick = Ret (Ok gs) w'
    /\ option_map GameState_Players (snapshot_of "abc123" Scenario.answered_during_tick)
       = Some [mkGamePlayer 1 "alice" 0]
    /\ Permutation (GameState_Players gs) [mkGamePlayer 1 "alice" 133].
Proof.
  destruct (GetCurrentGameState "ABC123" Scenario.answered_during_tick)
    as [[gs | e] w' | w' | w'] eqn:Hrun;
    try (vm_compute in Hrun; discriminate).
  exists gs, w'. split; [reflexivity |]. split; [vm_compute; reflexivity |].
  assert (Hid : GameState_GameID gs = 1%N).
  { revert Hrun. vm_compute. intros [= <- _]. reflexivity. }
  destruct (GetCurrentGameState_players_fresh Scenario.answered_during_tick "ABC123" gs w' Hrun)
    as (Hp & _); [rewrite Hid; reflexivity |].
  rewrite Hid in Hp.
  replace (find_players (db Scenario.answered_during_tick) 1)
    with [mkPlayer 1 1 "alice" 133] in Hp by (vm_compute; reflexivity).
  exact Hp.
Defined.

(** ** Who may open a websocket *)

(** [X24]: who passes [validatePlayerAccess]. For a session that exists
    the check changes nothing and returns nil exactly when the id is the
    id of a participant of the session or equals the user id of the owner
    of its quiz (0 when the quiz row is missing); any other id is refused.
    The ids of participants and of users are compared as one id space. *)
Theorem validatePlayerAccess_spec w pin playerID row :
  first_game_by_pin (db w) (ToLower pin) = Some row ->
  exists err,
    validatePlayerAccess pin playerID w = Ret err w
    /\ (err = None
        <-> (exists p, In p (db_players (db w))
                       /\ Player_GameID p = Game_ID row /\ Player_ID p = playerID)
            \/ Quiz_UserID (Game_Quiz (preload_Quiz (db w) row)) = playerID).
Proof.
  intros Hg. unfold validatePlayerAccess, GetGameByPin, bind, get, ret.
  cbn -[preload_Quiz]. rewrite !ToLower_idem, Hg. cbn -[preload_Quiz].
  destruct (existsb _ _) eqn:He.
  - eexists. split; [reflexivity |]. split; [| reflexivity]. intros _. left.
    apply existsb_exists in He as (p & Hin & Hid). apply filter_In in Hin as [Hin Hgame].
    exists p. repeat split; [exact Hin | now apply N.eqb_eq in Hgame | now apply N.eqb_eq in Hid].
  - destruct (N.eqb_spec (Quiz_UserID (Game_Quiz (preload_Quiz (db w) row))) playerID)
      as [Hu | Hu].
    + eexists. split; [reflexivity |]. split; [| reflexivity]. intros _. now right.
    + eexists. split; [reflexivity |]. split; [discriminate |].
      intros [(p & Hin & Hgame & Hid) | Howner]; [| contradiction].
      exfalso. apply Bool.not_true_iff_false in He. apply He.
      apply existsb_exists. exists p. split.
      * apply filter_In. split; [exact Hin |]. cbn. rewrite Hgame. apply N.eqb_refl.
      * rewrite Hid. apply N.eqb_refl.
Qed.

Lemma validatePlayerAccess_spec_witness :
  validatePlayerAccess "ABC123" 7 Scenario.question0 = Ret None Scenario.question0
  /\ validatePlayerAccess "abc123" 0 Scenario.question0
     = Ret (Some "player 0 not found in game abc123") Scenario.question0.
Proof.
  destruct (validatePlayerAccess_spec Scenario.question0 "ABC123" 7
              (mkGame 1 1 "abc123" "active" zero_Quiz []))
    as (err & Hrun & _); [vm_compute; reflexivity |].
  split; [| vm_compute; reflexivity].
  rewrite Hrun. revert Hrun. vm_compute. intros [= <-]. reflexivity.
Defined.

(** [X25]: who joined may connect. Once [JoinGame] has returned a
    participant, [validatePlayerAccess] admits the participant's id for
    the code of the request, and changes nothing. *)
Theorem JoinGame_then_validatePlayerAccess w req player w' :
  JoinGame req w = Ret (Ok player) w' ->
  validatePlayerAccess (JoinGameRequest_Pin req) (Player_ID player) w' = Ret None w'.
Proof.
  unfold JoinGame, JoinGame_checks, JoinGame_creates, Create_Player, bind, get, ret,
    getGameState, storeGameState.
  cbn.
  destruct (first_game_by_pin (db w) (ToLower (JoinGameRequest_Pin req))) as [game |] eqn:Hg;
    [| discriminate].
  destruct (negb _ && negb _); [discriminate |].
  destruct (first_player_by_name _ _ _); [discriminate |]. cbn.
  destruct (valid_text _); [| discriminate]. cbn. intros [= <- <-].
  unfold validatePlayerAccess, GetGameByPin, bind, get, ret. cbn -[preload_Quiz].
  rewrite !ToLower_idem.
  unfold first_game_by_pin in *. cbn -[preload_Quiz]. rewrite Hg. cbn -[preload_Quiz].
  rewrite List.filter_app, existsb_app. cbn -[preload_Quiz]. rewrite !N.eqb_refl.
  cbn -[preload_Quiz]. rewrite N.eqb_refl. cbn -[preload_Quiz].
  now rewrite orb_true_r.
Qed.

Lemma JoinGame_then_validatePlayerAccess_witness :
  validatePlayerAccess "ABC123" 1 Scenario.joined = Ret None Scenario.joined.
Proof.
  apply (JoinGame_then_validatePlayerAccess Scenario.created
           (mkJoinGameRequest "ABC123" "alice") (mkPlayer 1 1 "alice" 0) Scenario.joined).
  vm_compute. reflexivity.
Defined.

(** ** Codes are compared without regard to case *)

Lemma send_to_game_fold gamePin gamePin' data clients :
  ToLower gamePin = ToLower gamePin' ->
  send_to_game gamePin data clients = send_to_game gamePin' data clients.
Proof.
  intros H. induction clients as [| c cs IH]; [reflexivity |].
  cbn [send_to_game]. rewrite IH. unfold EqualFold. now rewrite H.
Qed.

(** [X26]: the code of a session is case-insensitive throughout. Two
    codes that are equal up to case are interchangeable in every method of
    the service and in a broadcast of the hub: in the same world the two
    calls have the same outcome, the same result and the same final
    world. *)
Theorem code_case_insensitive pin pin' w :
  EqualFold pin pin' = true ->
  (forall userID, StartQuiz pin userID w = StartQuiz pin' userID w)
  /\ (forall i h, StartQuestion pin i h w = StartQuestion pin' i h w)
  /\ (forall h, NextQuestion pin h w = NextQuestion pin' h w)
  /\ (forall h i, EndQuestion pin h i w = EndQuestion pin' h i w)
  /\ (forall name,
         JoinGame (mkJoinGameRequest pin name) w = JoinGame (mkJoinGameRequest pin' name) w)
  /\ (forall playerID req h,
         SubmitAnswer pin playerID req h w = SubmitAnswer pin' playerID req h w)
  /\ (forall userID, CheckGameOwnership pin userID w = CheckGameOwnership pin' userID w)
  /\ GetGameByPin pin w = GetGameByPin pin' w
  /\ GetCurrentGameState pin w = GetCurrentGameState pin' w
  /\ (forall playerID,
         validatePlayerAccess pin playerID w = validatePlayerAccess pin' playerID w)
  /\ (forall messageType payload,
         BroadcastToGame pin messageType payload w
         = BroadcastToGame pin' messageType payload w).
Proof.
  unfold EqualFold. intros H. apply String.eqb_eq in H.
  repeat split; intros.
  - unfold StartQuiz. now rewrite H.
  - unfold StartQuestion. now rewrite H.
  - unfold NextQuestion. now rewrite H.
  - unfold EndQuestion. now rewrite H.
  - unfold JoinGame, JoinGame_checks. cbn [JoinGameRequest_Pin JoinGameRequest_Name].
    now rewrite H.
  - unfold SubmitAnswer, SubmitAnswer_reads, SubmitAnswer_writes. now rewrite H.
  - unfold CheckGameOwnership. now rewrite H.
  - unfold GetGameByPin. now rewrite H.
  - unfold GetCurrentGameState. now rewrite H.
  - unfold validatePlayerAccess. now rewrite H.
  - unfold BroadcastToGame, bind. destruct (RLock w); [| reflexivity ..].
    unfold get. now rewrite (send_to_game_fold pin pin' _ _ H).
Qed.

Lemma code_case_insensitive_witness :
  NextQuestion "ABC123" true Scenario.question0 = NextQuestion "abc123" true Scenario.question0.
Proof.
  destruct (code_case_insensitive "ABC123" "abc123" Scenario.question0 eq_refl)
    as (_ & _ & H & _).
  apply H.
Defined.

(** ** Creating a quiz *)

















(** ** Requests that overlap *)

(** With the mutex free the second part of [SubmitAnswer] goes through,
    and leaves the mutex free. *)
Lemma SubmitAnswer_writes_unlocked w pin game a h :
  In (GameAnswer_PlayerID a) (List.map Player_ID (db_players (db w))) ->
  sum_fits (GameAnswer_PlayerID a) (GameAnswer_Points a) (db w) ->
  Hub_mutex (hub w) = Unlocked ->
  exists w1,
    SubmitAnswer_writes pin (GameAnswer_PlayerID a) game a h w = Ret None w1
    /\ db w1
       = add_score (GameAnswer_PlayerID a) (GameAnswer_Points a) (create_game_answer a (db w))
    /\ redis w1 = redis (answer_recorded pin a w)
    /\ Hub_mutex (hub w1) = Unlocked.
Proof.
  intros Hin Hfit Hm. rewrite (SubmitAnswer_writes_recorded w pin game a h Hin Hfit).
  assert (Hm0 : Hub_mutex (hub (answer_recorded pin a w)) = Unlocked).
  { unfold answer_recorded. destruct (redis w !! redis_key pin); exact Hm. }
  destruct h.
  - unfold bind. rewrite BroadcastToGame_unlocked by exact Hm0.
    eexists. split; [reflexivity |]. cbn. split; [apply db_answer_recorded |].
    split; [reflexivity | exact Hm0].
  - eexists. split; [reflexivity |]. split; [apply db_answer_recorded |].
    split; [reflexivity | exact Hm0].
Qed.

Lemma sum_fits_add_score playerID points1 points2 d :
  sum_fits playerID (points1 + points2) d ->
  sum_fits playerID points2 (add_score playerID points1 d).
Proof.
  unfold sum_fits. cbn. intros H. apply List.Forall_map. revert H.
  apply List.Forall_impl. intros p Hp.
  destruct (N.eqb_spec (Player_ID p) playerID) as [He | Hne]; cbn; intros Hid.
  - specialize (Hp He). lia.
  - contradiction.
Qed.

(** [C4], as the code has it: the search for an earlier answer and the
    insert are two statements of the store with nothing to hold them
    together, and the table has no unique index on the triple. When two
    requests of a participant for one question overlap, so that both have
    searched before either inserts, both succeed: the store holds two
    answer rows for the triple, and the score is raised by the points of
    both. *)
Theorem SubmitAnswer_overlapping_both_recorded
    w pin playerID req1 req2 h game question option1 option2 points1 points2 :
  first_game_by_pin (db w) (ToLower pin) = Some game ->
  Game_Status game = "active" ->
  SubmitAnswerRequest_QuestionID req2 = SubmitAnswerRequest_QuestionID req1 ->
  first_answer (db w) (Game_ID game) playerID (SubmitAnswerRequest_QuestionID req1) = None ->
  first_question (db w) (SubmitAnswerRequest_QuestionID req1) = Some question ->
  first_option (db w) (SubmitAnswerRequest_OptionID req1) = Some option1 ->
  first_option (db w) (SubmitAnswerRequest_OptionID req2) = Some option2 ->
  calculatePoints
    (if SubmitAnswerRequest_TimeSpent req1 =? 0 then Question_TimeLimit question
     else SubmitAnswerRequest_TimeSpent req1)
    (Question_TimeLimit question) (Option_IsCorrect option1) = Some points1 ->
  calculatePoints
    (if SubmitAnswerRequest_TimeSpent req2 =? 0 then Question_TimeLimit question
     else SubmitAnswerRequest_TimeSpent req2)
    (Question_TimeLimit question) (Option_IsCorrect option2) = Some points2 ->
  In playerID (List.map Player_ID (db_players (db w))) ->
  sum_fits playerID points1 (db w) ->
  sum_fits playerID (points1 + points2) (db w) ->
  Hub_mutex (hub w) = Unlocked ->
  exists w',
    SubmitAnswer_overlapping pin playerID req1 req2 h w = Ret (None, None) w'
    /\ answers_of (Game_ID game) playerID (SubmitAnswerRequest_QuestionID req1) (db w')
       = [ mkGameAnswer (db_next_game_answer_id (db w)) (Game_ID game) playerID
             (SubmitAnswerRequest_QuestionID req1) (SubmitAnswerRequest_OptionID req1)
             (Option_IsCorrect option1)
             (if SubmitAnswerRequest_TimeSpent req1 =? 0 then Question_TimeLimit question
              else SubmitAnswerRequest_TimeSpent req1)
             points1 zero_Player;
           mkGameAnswer (db_next_game_answer_id (db w) + 1) (Game_ID game) playerID
             (SubmitAnswerRequest_QuestionID req1) (SubmitAnswerRequest_OptionID req2)
             (Option_IsCorrect option2)
             (if SubmitAnswerRequest_TimeSpent req2 =? 0 then Question_TimeLimit question
              else SubmitAnswerRequest_TimeSpent req2)
             points2 zero_Player ]
    /\ db_players (db w')
       = List.map (bump playerID points2) (List.map (bump playerID points1) (db_players (db w))).
Proof.
  intros Hg Ha Hq21 Hnone Hq Ho1 Ho2 Hp1 Hp2 Hin Hfit1 Hfit12 Hm.
  set (a1 := answer_row (Game_ID game) playerID req1 question option1 points1).
  set (a2 := answer_row (Game_ID game) playerID req2 question option2 points2).
  set (g := preload_Players (db w) (preload_Quiz (db w) game)).
  destruct (SubmitAnswer_writes_unlocked w pin g a1 h Hin Hfit1 Hm)
    as (w1 & Hrun1 & Hdb1 & _ & Hm1).
  assert (Hin1 : In (GameAnswer_PlayerID a2) (List.map Player_ID (db_players (db w1)))).
  { rewrite Hdb1. cbn. rewrite keys_add_score by reflexivity. exact Hin. }
  assert (Hfit2 : sum_fits (GameAnswer_PlayerID a2) (GameAnswer_Points a2) (db w1)).
  { rewrite Hdb1. apply (sum_fits_add_score playerID points1 points2). exact Hfit12. }
  destruct (SubmitAnswer_writes_unlocked w1 pin g a2 h Hin1 Hfit2 Hm1)
    as (w2 & Hrun2 & Hdb2 & _ & _).
  exists w2. split; [| split].
  - unfold SubmitAnswer_overlapping. unfold bind at 1.
    rewrite (SubmitAnswer_reads_row w pin playerID req1 game question option1 points1)
      by assumption.
    unfold bind at 1.
    rewrite (SubmitAnswer_reads_row w pin playerID req2 game question option2 points2)
      by (rewrite ?Hq21; assumption).
    fold a1 a2 g. cbv beta iota. unfold bind at 1.
    change playerID with (GameAnswer_PlayerID a1) at 1. rewrite Hrun1.
    cbv beta iota. unfold bind at 1.
    change playerID with (GameAnswer_PlayerID a2) at 1. rewrite Hrun2. reflexivity.
  - rewrite Hdb2, Hdb1. unfold answers_of. cbn. rewrite Hq21.
    rewrite !List.filter_app.
    unfold first_answer in Hnone. rewrite (filter_find_None _ _ Hnone). cbn.
    rewrite !N.eqb_refl. reflexivity.
  - rewrite Hdb2, Hdb1. reflexivity.
Qed.

Lemma SubmitAnswer_overlapping_both_recorded_witness :
  first_game_by_pin (db Scenario.question0) (ToLower "abc123")
  = Some (mkGame 1 1 "abc123" "active" zero_Quiz [])
  /\ SubmitAnswer_overlapping "abc123" 1 (mkSubmitAnswerRequest 1 1 2 10)
       (mkSubmitAnswerRequest 1 1 2 10) true Scenario.question0
     = Ret (None, None) Scenario.answered_twice
  /\ answers_of 1 1 1 (db Scenario.answered_twice)
     = [mkGameAnswer 1 1 1 1 2 true 10 133 zero_Player;
        mkGameAnswer 2 1 1 1 2 true 10 133 zero_Player]
  /\ score_of 1 Scenario.question0 = Some 0
  /\ score_of 1 Scenario.answered_twice = Some 266.
Proof.
  assert (Hg : first_game_by_pin (db Scenario.question0) (ToLower "abc123")
               = Some (mkGame 1 1 "abc123" "active" zero_Quiz []))
    by (vm_compute; reflexivity).
  assert (Hplayers : db_players (db Scenario.question0) = [mkPlayer 1 1 "alice" 0])
    by (vm_compute; reflexivity).
  split; [exact Hg |].
  destruct (SubmitAnswer_overlapping_both_recorded Scenario.question0 "abc123" 1
              (mkSubmitAnswerRequest 1 1 2 10) (mkSubmitAnswerRequest 1 1 2 10) true
              (mkGame 1 1 "abc123" "active" zero_Quiz [])
              (mkQuestion 1 1 "Capital of Italy?" 30 1 [])
              (mkOption 2 1 "Rome" true 2) (mkOption 2 1 "Rome" true 2) 133 133)
    as (w' & Hrun & Hrows & Hscores).
  - exact Hg.
  - reflexivity.
  - reflexivity.
  - vm_compute. reflexivity.
  - vm_compute. reflexivity.
  - vm_compute. reflexivity.
  - vm_compute. reflexivity.
  - vm_compute. reflexivity.
  - vm_compute. reflexivity.
  - rewrite Hplayers. left. reflexivity.
  - unfold sum_fits. rewrite Hplayers.
    constructor; [intros _; split; vm_compute; discriminate | constructor].
  - unfold sum_fits. rewrite Hplayers.
    constructor; [intros _; split; vm_compute; discriminate | constructor].
  - vm_compute. reflexivity.
  - assert (Hw' : w' = Scenario.answered_twice).
    { unfold Scenario.answered_twice. rewrite Hrun. reflexivity. }
    subst w'. split; [exact Hrun |]. split; [| split; vm_compute; reflexivity].
    etransitivity; [exact Hrows |]. vm_compute. reflexivity.
Defined.

(** [X10]: the names of a session are not kept unique when requests
    overlap. The check of the name and the insert are two statements of
    the store, and the table has no unique index on session and name. For
    a session that can be joined and a free name that the store takes, two
    requests for the name that both pass the check before either inserts
    both succeed, with the next two ids, and the session then has two
    participants of that name; run one after the other, the first
    succeeds and the second is refused with "player name already taken"
    and changes nothing. *)
Theorem JoinGame_overlapping_same_name w req game :
  first_game_by_pin (db w) (ToLower (JoinGameRequest_Pin req)) = Some game ->
  Game_Status game = "waiting" \/ Game_Status game = "active" ->
  first_player_by_name (db w) (Game_ID game) (JoinGameRequest_Name req) = None ->
  valid_text (JoinGameRequest_Name req) = true ->
  let first :=
    mkPlayer (db_next_player_id (db w)) (Game_ID game) (JoinGameRequest_Name req) 0 in
  let second :=
    mkPlayer (db_next_player_id (db w) + 1) (Game_ID game) (JoinGameRequest_Name req) 0 in
  (exists w',
      JoinGame_overlapping req req w = Ret (Ok first, Ok second) w'
      /\ db_players (db w') = (db_players (db w) ++ [first; second])%list
      /\ ~ names_unique (db w'))
  /\ (exists w1,
         JoinGame req w = Ret (Ok first) w1
         /\ JoinGame req w1 = Ret (Err "player name already taken") w1).
Proof.
  intros Hg Hs Hn Hv first second.
  pose proof (JoinGame_checks_passed w req game Hg Hs Hn) as Hchecks.
  pose proof (JoinGame_creates_joined w req game Hv) as Hfirst. cbv zeta in Hfirst.
  set (w1 := set_redis _ _) in Hfirst.
  pose proof (JoinGame_creates_joined w1 req game Hv) as Hsecond. cbv zeta in Hsecond.
  set (w2 := set_redis _ _) in Hsecond.
  split.
  - exists w2. split; [| split].
    + unfold JoinGame_overlapping. unfold bind at 1. rewrite Hchecks.
      unfold bind at 1. rewrite Hchecks. cbv beta iota.
      unfold bind at 1. rewrite Hfirst. cbv beta iota.
      unfold bind at 1. rewrite Hsecond. reflexivity.
    + subst w2 w1. cbn. now rewrite <- app_assoc.
    + subst w2 w1. unfold names_unique. cbn. rewrite <- app_assoc, List.map_app. cbn.
      intros Hu. apply NoDup_app in Hu as (_ & _ & Hu).
      apply NoDup_cons in Hu as [Hu _]. apply Hu. now left.
  - exists w1. split.
    + unfold JoinGame, bind at 1. rewrite Hchecks. exact Hfirst.
    + apply (JoinGame_name_taken w1 req game first); [exact Hg | exact Hs |].
      subst w1. unfold first_player_by_name in *. cbn.
      apply find_app_None; [exact Hn |]. cbn. now rewrite N.eqb_refl, String.eqb_refl.
Qed.

Lemma JoinGame_overlapping_same_name_witness :
  JoinGame_overlapping Scenario.carol Scenario.carol Scenario.joined
  = Ret (Ok (mkPlayer 2 1 "carol" 0), Ok (mkPlayer 3 1 "carol" 0)) Scenario.carol_twice
  /\ db_players (db Scenario.carol_twice)
     = [mkPlayer 1 1 "alice" 0; mkPlayer 2 1 "carol" 0; mkPlayer 3 1 "carol" 0].
Proof.
  destruct (JoinGame_overlapping_same_name Scenario.joined Scenario.carol
              (mkGame 1 1 "abc123" "waiting" zero_Quiz []))
    as ((w' & Hrun & Hplayers & _) & _).
  - vm_compute. reflexivity.
  - left. reflexivity.
  - vm_compute. reflexivity.
  - reflexivity.
  - assert (Hw' : w' = Scenario.carol_twice).
    { unfold Scenario.carol_twice. rewrite Hrun. reflexivity. }
    subst w'. split; [exact Hrun |].
    etransitivity; [exact Hplayers |]. vm_compute. reflexivity.
Defined.

(** A turn of the loop of [runQuestionTimer] is the read of the snapshot,
    the write of what was read, and the broadcast. *)
Lemma runQuestionTimer_tick_parts t :
  runQuestionTimer_tick t
  = (cached <- getGameState (ToLower (Timer_gamePin t));;
     runQuestionTimer_stores (ToLower (Timer_gamePin t)) (wrap_int (Timer_timeLeft t - 1))
       cached;;;
     BroadcastToGame (ToLower (Timer_gamePin t)) "timer_update"
       (timer_update_payload (Timer_questionIndex t) (wrap_int (Timer_timeLeft t - 1)));;;
     ret (wrap_int (Timer_timeLeft t - 1))).
Proof. reflexivity. Qed.

(** [X15]: points that the timer wipes from the snapshot. A turn of the
    timer of the open question reads the snapshot, refreshes the time left
    and writes the snapshot back, with nothing to keep other writers out.
    When an answer is accepted between the read and the write, the store
    has the answer and the raised score, as after the answer alone; but
    the snapshot that the turn writes back is the one it read, with the
    players and scores from before the answer, where the answer alone
    leaves the snapshot with the points added. *)
Theorem SubmitAnswer_lost_by_timer w t pin playerID req h w1 gs cq question option points :
  ToLower (Timer_gamePin t) = ToLower pin ->
  snapshot_of pin w = Some gs ->
  GameState_CurrentQuestion gs = Some cq ->
  first_question (db w) (SubmitAnswerRequest_QuestionID req) = Some question ->
  first_option (db w) (SubmitAnswerRequest_OptionID req) = Some option ->
  calculatePoints
    (if SubmitAnswerRequest_TimeSpent req =? 0 then Question_TimeLimit question
     else SubmitAnswerRequest_TimeSpent req)
    (Question_TimeLimit question) (Option_IsCorrect option) = Some points ->
  SubmitAnswer pin playerID req h w = Ret None w1 ->
  Hub_mutex (hub w1) = Unlocked ->
  db_players (db w1) = List.map (bump playerID points) (db_players (db w))
  /\ snapshot_of pin w1
     = Some (set_Players (add_points playerID points (GameState_Players gs)) gs)
  /\ exists w',
       runQuestionTimer_tick_around_SubmitAnswer t pin playerID req h w = Ret None w'
       /\ db w' = db w1
       /\ snapshot_of pin w'
          = Some (set_CurrentQuestion
                    (Some (set_TimeLeft (wrap_int (Timer_timeLeft t - 1)) cq)) gs).
Proof.
  intros Hpin Hs Hcq Hq Ho Hp Hrun Hm.
  destruct (SubmitAnswer_success_inv _ _ _ _ _ _ Hrun)
    as (game & question' & option' & points' & _ & _ & _ & Hq' & Ho' & Hp' & Hw).
  rewrite Hq in Hq'. injection Hq' as <-. rewrite Ho in Ho'. injection Ho' as <-.
  rewrite Hp in Hp'. injection Hp' as <-.
  destruct Hw as (Hdb & Hredis & _).
  assert (Hkey : redis_key (ToLower (Timer_gamePin t)) = redis_key pin).
  { unfold redis_key. now rewrite ToLower_idem, Hpin. }
  unfold snapshot_of in *.
  split; [| split].
  - rewrite Hdb, db_answer_recorded. reflexivity.
  - rewrite Hredis. unfold answer_recorded. rewrite Hs. cbn. apply lookup_insert_eq.
  - unfold runQuestionTimer_tick_around_SubmitAnswer, bind at 1, getGameState.
    rewrite Hkey, Hs. unfold bind at 1. rewrite Hrun.
    unfold runQuestionTimer_stores. rewrite Hcq.
    unfold bind at 1, bind at 1, storeGameState, ret. rewrite Hkey.
    unfold bind at 1. rewrite BroadcastToGame_unlocked by exact Hm.
    eexists. split; [reflexivity |]. split; [reflexivity |].
    cbn. apply lookup_insert_eq.
Qed.

Lemma SubmitAnswer_lost_by_timer_witness :
  SubmitAnswer "abc123" 1 (mkSubmitAnswerRequest 1 1 2 10) true Scenario.question0
  = Ret None Scenario.answered_once
  /\ runQuestionTimer_tick_around_SubmitAnswer (mkTimer "abc123" 0 30) "abc123" 1
       (mkSubmitAnswerRequest 1 1 2 10) true Scenario.question0
     = Ret None Scenario.answered_during_tick
  /\ db Scenario.answered_during_tick = db Scenario.answered_once
  /\ score_of 1 Scenario.answered_once = Some 133
  /\ option_map GameState_Players (snapshot_of "abc123" Scenario.answered_once)
     = Some [mkGamePlayer 1 "alice" 133]
  /\ option_map GameState_Players (snapshot_of "abc123" Scenario.answered_during_tick)
     = Some [mkGamePlayer 1 "alice" 0].
Proof.
  assert (Hrun : SubmitAnswer "abc123" 1 (mkSubmitAnswerRequest 1 1 2 10) true
                   Scenario.question0 = Ret None Scenario.answered_once)
    by (vm_compute; reflexivity).
  destruct (SubmitAnswer_lost_by_timer Scenario.question0 (mkTimer "abc123" 0 30) "abc123" 1
              (mkSubmitAnswerRequest 1 1 2 10) true Scenario.answered_once
              (mkGameState 1 1 "abc123" "active"
                 (Some (mkGameQuestion 1 "Capital of Italy?" 30
                          [mkGameOption 1 "Paris"; mkGameOption 2 "Rome"] 30))
                 0 [mkGamePlayer 1 "alice" 0] [] 2)
              (mkGameQuestion 1 "Capital of Italy?" 30
                 [mkGameOption 1 "Paris"; mkGameOption 2 "Rome"] 30)
              (mkQuestion 1 1 "Capital of Italy?" 30 1 []) (mkOption 2 1 "Rome" true 2) 133)
    as (_ & Halone & w' & Htick & Hdb & Hsnap).
  - reflexivity.
  - vm_compute. reflexivity.
  - reflexivity.
  - vm_compute. reflexivity.
  - vm_compute. reflexivity.
  - vm_compute. reflexivity.
  - exact Hrun.
  - vm_compute. reflexivity.
  - assert (Hw' : w' = Scenario.answered_during_tick).
    { unfold Scenario.answered_during_tick. rewrite Htick. reflexivity. }
    subst w'. split; [exact Hrun |]. split; [exact Htick |]. split; [exact Hdb |].
    split; [vm_compute; reflexivity |].
    split; [rewrite Halone | rewrite Hsnap]; reflexivity.
Defined.
